(** * LLM gateway clients: SF Assist and Snowflake Cortex

    A shallow embedding of [sfassist_client.py] and
    [snowflake_cortex_client.py]: client construction, payload building,
    response normalisation and simulated streaming, with the properties the
    specification states about them. *)

From stdpp Require Import base strings list gmap fin_maps.
From Stdlib Require Import Ascii ZArith DecimalString Lia.

Set Warnings "-register-all".

Local Open Scope string_scope.
Local Open Scope list_scope.

(** ** Python strings

    A [str] is modelled as a [string]; a non-ASCII code point is the byte
    sequence of its UTF-8 encoding, which never contains the byte of an
    ASCII character, so splitting on [' '] and stripping ['/'] act the same
    on both views. *)

Definition space : ascii := " "%char.
Definition slash : ascii := "/"%char.
Definition dquote : ascii := "034"%char.

(** [s.split(sep)] for a one-character separator: every occurrence of [sep]
    ends a piece, so the result is never empty. *)
Fixpoint str_split (sep : ascii) (s : string) : list string :=
  match s with
  | EmptyString => [EmptyString]
  | String c s' =>
      if Ascii.eqb c sep then EmptyString :: str_split sep s'
      else match str_split sep s' with
           | [] => [String c EmptyString]
           | w :: ws => String c w :: ws
           end
  end.

(** [sep.join(words)] for a one-character separator. *)
Fixpoint str_join (sep : ascii) (words : list string) : string :=
  match words with
  | [] => EmptyString
  | w :: ws =>
      match ws with
      | [] => w
      | _ => w +:+ String sep (str_join sep ws)
      end
  end.

(** [s.count(c)] for a one-character needle. *)
Fixpoint str_count (c : ascii) (s : string) : nat :=
  match s with
  | EmptyString => 0%nat
  | String a s' => ((if Ascii.eqb a c then 1 else 0) + str_count c s')%nat
  end.

(** ** Python values

    [pyval] is plain data: what [response.json()] returns and what a
    configuration dict holds.  A [dict] keeps its insertion order.  A
    [pyobj] is what a constructor argument or a client attribute may be:
    plain data, or an instance of a class given by its data attributes. *)

Inductive pyval :=
| VNone
| VBool (b : bool)
| VInt (n : Z)
| VFloat (bits : Z)   (* the IEEE-754 binary64 bit pattern *)
| VStr (s : string)
| VList (l : list pyval)
| VDict (d : list (string * pyval)).

Inductive pyobj :=
| Plain (v : pyval)
| Instance (attrs : list (string * pyobj)).

Inductive exn :=
| KeyError (key : string)
| IndexError
| TypeError
| AttributeError
| JSONDecodeError                   (* [json.JSONDecodeError], a [ValueError] *)
| ValueError                        (* a [ValueError] of another class *)
| RecursionError
| Exception (msg : string)          (* [raise Exception(msg)] *)
| RequestException (msg : string).  (* raised inside [requests.post] *)

(** [isinstance(e, json.JSONDecodeError)] and [isinstance(e, ValueError)],
    the two classes the [except] clauses of [create] name. *)
Definition is_JSONDecodeError (e : exn) : bool :=
  match e with
  | JSONDecodeError => true
  | _ => false
  end.

Definition is_ValueError (e : exn) : bool :=
  match e with
  | JSONDecodeError | ValueError => true
  | _ => false
  end.

(** A computation that returns a value or raises. *)
Definition result (A : Type) : Type := (exn + A)%type.

Definition raise {A} (e : exn) : result A := inl e.
Definition ret {A} (a : A) : result A := inr a.
Definition bind {A B} (m : result A) (k : A → result B) : result B :=
  match m with
  | inl e => inl e
  | inr a => k a
  end.

Definition rmap {A B} (f : A → B) (m : result A) : result B :=
  match m with
  | inl e => inl e
  | inr a => inr (f a)
  end.

Notation "'let*' x := m 'in' k" := (bind m (fun x => k))
  (at level 10, x name, m at level 100, k at level 200).

(** [try: body] with one [except] clause: an exception of [body] that the
    clause names runs [handler], any other goes on to the caller. *)
Definition try_except {A} (body : result A) (caught : exn → bool) (handler : result A)
    : result A :=
  match body with
  | inl e => if caught e then handler else inl e
  | inr a => inr a
  end.

(** Lookup in an insertion-ordered dict or attribute table. *)
Fixpoint assoc {V} (k : string) (d : list (string * V)) : option V :=
  match d with
  | [] => None
  | (k', v) :: d' => if String.eqb k k' then Some v else assoc k d'
  end.

Definition has_key {V} (k : string) (d : list (string * V)) : bool :=
  match assoc k d with Some _ => true | None => false end.

(** [needle in s] on strings. *)
Fixpoint str_contains (needle s : string) : bool :=
  String.prefix needle s ||
  match s with
  | EmptyString => false
  | String _ s' => str_contains needle s'
  end.

(** [s.rstrip(c)] for a one-character set. *)
Fixpoint rstrip (c : ascii) (s : string) : string :=
  match s with
  | EmptyString => EmptyString
  | String a s' =>
      match rstrip c s' with
      | EmptyString => if Ascii.eqb a c then EmptyString else String a EmptyString
      | t => String a t
      end
  end.

(** [s.endswith(c)] for a one-character suffix. *)
Fixpoint ends_with (c : ascii) (s : string) : bool :=
  match s with
  | EmptyString => false
  | String a EmptyString => Ascii.eqb a c
  | String _ s' => ends_with c s'
  end.

(** Truth value of a Python value, as [if v] and [not v] test it. *)
Definition truthy (o : pyobj) : bool :=
  match o with
  | Plain VNone => false
  | Plain (VBool b) => b
  | Plain (VInt n) => negb (n =? 0)%Z
  | Plain (VFloat bits) => negb ((bits =? 0)%Z || (bits =? 2 ^ 63)%Z)
  | Plain (VStr s) => negb (String.eqb s EmptyString)
  | Plain (VList l) => match l with [] => false | _ => true end
  | Plain (VDict d) => match d with [] => false | _ => true end
  | Instance _ => true
  end.

(** A method call [o.name(...)] on an instance that defines no methods:
    a data attribute of that name is not callable, a missing one is an
    [AttributeError]. *)
Definition call_on_instance {A} (attrs : list (string * pyobj)) (name : string) : result A :=
  if has_key name attrs then raise TypeError else raise AttributeError.

(** [k in v] for a string [k]. *)
Definition py_contains (k : string) (v : pyval) : result bool :=
  match v with
  | VDict d => ret (has_key k d)
  | VList l =>
      ret (existsb (fun x => match x with VStr s => String.eqb k s | _ => false end) l)
  | VStr s => ret (str_contains k s)
  | _ => raise TypeError
  end.

(** [v[k]] for a string [k]. *)
Definition py_getitem (v : pyval) (k : string) : result pyval :=
  match v with
  | VDict d => match assoc k d with Some x => ret x | None => raise (KeyError k) end
  | _ => raise TypeError
  end.

(** [len(v)]; only its comparison with zero is used. *)
Definition py_len (v : pyval) : result nat :=
  match v with
  | VStr s => ret (String.length s)
  | VList l => ret (length l)
  | VDict d => ret (length d)
  | _ => raise TypeError
  end.

(** The first code point of a string: its first byte and the continuation
    bytes that follow. *)
Fixpoint continuation (s : string) : string :=
  match s with
  | String a s' =>
      if ((128 <=? nat_of_ascii a) && (nat_of_ascii a <? 192))%nat
      then String a (continuation s') else EmptyString
  | EmptyString => EmptyString
  end.

(** [v[0]] *)
Definition py_getitem0 (v : pyval) : result pyval :=
  match v with
  | VList l => match l with x :: _ => ret x | [] => raise IndexError end
  | VStr s =>
      match s with
      | String a s' => ret (VStr (String a (continuation s')))
      | EmptyString => raise IndexError
      end
  | VDict _ => raise (KeyError "0")
  | _ => raise TypeError
  end.

(** [v.get(k, default)] *)
Definition py_get (v : pyval) (k : string) (default : pyval) : result pyval :=
  match v with
  | VDict d => ret (match assoc k d with Some x => x | None => default end)
  | _ => raise AttributeError
  end.

(** [hasattr(v, name)] and [getattr(v, name, default)], for names that no
    built-in type defines. *)
Definition hasattr (o : pyobj) (name : string) : bool :=
  match o with
  | Instance attrs => has_key name attrs
  | Plain _ => false
  end.

Definition getattr (o : pyobj) (name : string) (default : pyobj) : pyobj :=
  match o with
  | Instance attrs => match assoc name attrs with Some x => x | None => default end
  | Plain _ => default
  end.

(** [o.rstrip('/')] *)
Definition py_rstrip (o : pyobj) : result string :=
  match o with
  | Plain (VStr s) => ret (rstrip slash s)
  | Plain _ => raise AttributeError
  | Instance attrs => call_on_instance attrs "rstrip"
  end.

(** Whether [json.dumps] accepts the value: plain data, not an instance. *)
Definition serialisable (o : pyobj) : bool :=
  match o with
  | Plain _ => true
  | Instance _ => false
  end.

(** Library functions the clients call and this development does not
    define: [repr] of numbers, containers and instances, and
    [json.dumps(v, indent=2)] on plain data. *)
Class Runtime := {
  py_repr : pyobj → string;
  json_dumps : pyval → string;
}.

(** [str(o)], also what an f-string field formats [o] to. *)
Definition py_str `{Runtime} (o : pyobj) : string :=
  match o with
  | Plain (VStr s) => s
  | Plain VNone => "None"
  | Plain (VBool true) => "True"
  | Plain (VBool false) => "False"
  | _ => py_repr o
  end.

(** ** Response classes (identical in both client files) *)

(** [StreamingChunk(content)]: [choices = [choice]] with
    [choice.delta.content = content]. *)
Record Delta := mkDelta { content : string }.
Record ChunkChoice := mkChunkChoice { delta : Delta }.
Record StreamingChunk := mkStreamingChunk { chunk_choices : list ChunkChoice }.

Definition new_StreamingChunk (content : string) : StreamingChunk :=
  mkStreamingChunk [mkChunkChoice (mkDelta content)].

(** What a consumer reads off a chunk: [chunk.choices[0].delta.content]. *)
Definition text_fragment (c : StreamingChunk) : string :=
  match chunk_choices c with
  | ch :: _ => content (delta ch)
  | [] => EmptyString
  end.

(** [UsageStats(prompt_tokens, completion_tokens, total_tokens)] *)
Record UsageStats := mkUsageStats {
  prompt_tokens : pyval;
  completion_tokens : pyval;
  total_tokens : pyval;
}.

(** [UsageStats()]: every counter defaults to [0]. *)
Definition default_UsageStats : UsageStats :=
  mkUsageStats (VInt 0) (VInt 0) (VInt 0).

(** [Choice(message, finish_reason="stop")]: [message] becomes an instance
    carrying the dict's entries as attributes, [delta.content] is
    [message.get('content', '')]. *)
Record Choice := mkChoice {
  message : list (string * pyval);
  finish_reason : string;
  choice_delta : pyval;
}.

Definition new_Choice (message : list (string * pyval)) : Choice :=
  mkChoice message "stop"
    (match assoc "content" message with Some c => c | None => VStr EmptyString end).

(** [CompletionResponse(content, usage)] *)
Record CompletionResponse := mkCompletionResponse {
  choices : list Choice;
  usage : UsageStats;
}.

Definition new_CompletionResponse (content : pyval) (usage : UsageStats) : CompletionResponse :=
  mkCompletionResponse
    [new_Choice [("role", VStr "assistant"); ("content", content)]] usage.

(** What a consumer reads off a completion:
    [response.choices[0].message.content]. *)
Definition completion_text (r : CompletionResponse) : option pyval :=
  match choices r with
  | c :: _ => assoc "content" (message c)
  | [] => None
  end.

(** ** Simulated streaming

    The generator is modelled by the list of the values it yields, in
    order. *)

(** [chunk_text = word if i == 0 else ' ' + word] *)
Definition chunk_text (i : nat) (word : string) : string :=
  match i with
  | O => word
  | S _ => String space word
  end.

(** The chunks yielded for a list of words. *)
Definition fragments (words : list string) : list StreamingChunk :=
  imap (fun i word => new_StreamingChunk (chunk_text i word)) words.

(** Concatenation of the text fragments of a chunk sequence, in emission
    order. *)
Definition concat_fragments (cs : list StreamingChunk) : string :=
  foldr (fun c acc => text_fragment c +:+ acc) EmptyString cs.

(** ** Clients, payloads and the HTTP exchange *)

(** A message of the conversation, [Dict[str, str]]. *)
Abbreviation msg_dict := (gmap string string).

(** The dict literal [{"role": role, "content": content}]. *)
Definition new_message (role content : string) : msg_dict :=
  {[ "role" := role; "content" := content ]}.

(** [d[k]] on a message dict. *)
Definition getitem (d : msg_dict) (k : string) : result string :=
  match d !! k with
  | Some v => ret v
  | None => raise (KeyError k)
  end.

(** [not sys_msg] is false exactly for a non-empty string. *)
Definition is_set (sys_msg : option string) : bool :=
  match sys_msg with
  | Some s => negb (String.eqb s EmptyString)
  | None => false
  end.

Definition DEFAULT_SYSTEM_MESSAGE : string :=
  "You are a helpful AI assistant for data analysis and Python programming.".

(** The attributes [__init__] sets on either client. *)
Record Client := mkClient {
  api_key : pyobj;
  base_url : string;
  model : pyobj;
  app_id : pyobj;
  aplctn_cd : pyobj;
}.

(** The ["model"] entry of the query: a flat value in the SF Assist
    payload, a [{name, provider}] dict in the Snowflake payload. *)
Inductive model_entry :=
| ModelFlat (name : pyobj)
| ModelNested (name : pyobj) (provider : string).

(** The dict under ["query"]; ["prompt"] holds the one key ["messages"]. *)
Record Query := mkQuery {
  q_aplctn_cd : pyobj;
  q_app_id : pyobj;
  q_api_key : pyobj;
  q_method : string;
  q_model : model_entry;
  q_sys_msg : string;
  q_limit_convs : pyval;
  q_prompt_messages : list msg_dict;
  q_app_lvl_prefix : string;
  q_user_id : string;
  q_session_id : string;
}.

Record Payload := mkPayload { query : Query }.

(** The message array of the wire payload and the history it carries
    after its first entry. *)
Definition wire_messages (p : Payload) : list msg_dict := q_prompt_messages (query p).
Definition wire_history (p : Payload) : list msg_dict := tail (wire_messages p).

(** The arguments of [requests.post]. *)
Record Request := mkRequest {
  url : string;
  headers : list (string * pyobj);
  json : Payload;
  verify : bool;
  timeout : Z;
}.

(** A [requests.Response]: [resp_json] is the outcome of
    [response.json()], the parsed body or the exception the call raises.
    On a body that is no JSON text requests raises its [JSONDecodeError],
    which is a [json.JSONDecodeError] on the standard [json] module and a
    [ValueError] of another class where [simplejson] is installed; what the
    parser raises besides ([ValueError] on an integer of too many digits,
    [RecursionError] on a body nested too deeply) reaches the caller as it
    is. *)
Record Response := mkResponse {
  status_code : Z;
  text : string;
  resp_json : result pyval;
}.

(** [requests.post]: the backend answers or the call raises. *)
Class Backend := { post : Request → result Response }.

(** What [create] returns: a completion, or the generator
    [_simulate_streaming(content)], given by the outcome of iterating it. *)
Inductive Reply :=
| Completion (r : CompletionResponse)
| Stream (chunks : result (list StreamingChunk)).

(** The loop of [_build_payload], over the local variables [sys_msg] and
    [filtered_messages]. *)
Fixpoint scan_messages (messages : list msg_dict) (sys_msg : option string)
    (filtered_messages : list msg_dict) : result (option string * list msg_dict) :=
  match messages with
  | [] => ret (sys_msg, filtered_messages)
  | msg :: rest =>
      if decide (msg !! "role" = Some "system") then
        if is_set sys_msg then scan_messages rest sys_msg filtered_messages
        else
          let* c := getitem msg "content" in
          scan_messages rest (Some c) filtered_messages
      else
        let* r := getitem msg "role" in
        let* c := getitem msg "content" in
        scan_messages rest sys_msg (filtered_messages ++ [new_message r c])
  end.

(** [if not sys_msg: sys_msg = <default>] *)
Definition or_default (sys_msg : option string) : string :=
  match sys_msg with
  | Some s => if is_set sys_msg then s else DEFAULT_SYSTEM_MESSAGE
  | None => DEFAULT_SYSTEM_MESSAGE
  end.

(** [l[-n:]] *)
Definition last_n {A} (n : nat) (l : list A) : list A := drop (length l - n) l.

(** The content-extraction chain of [create] up to its last two cases. *)
Definition extract_choices (data : pyval) : result pyval :=
  let* cs := py_getitem data "choices" in
  let* first := py_getitem0 cs in
  let* m := py_get first "message" (VDict []) in
  py_get m "content" (VStr EmptyString).

(** ['choices' in data and len(data['choices']) > 0] *)
Definition has_choices (data : pyval) : result bool :=
  let* present := py_contains "choices" data in
  if present then
    let* cs := py_getitem data "choices" in
    let* n := py_len cs in
    ret (0 <? n)%nat
  else ret false.

(** The usage counters of a parsed body. *)
Definition read_usage (data : pyval) : result UsageStats :=
  let* usage_data := py_get data "usage" (VDict []) in
  let* p := py_get usage_data "prompt_tokens" (VInt 0) in
  let* c := py_get usage_data "completion_tokens" (VInt 0) in
  let* t := py_get usage_data "total_tokens" (VInt 0) in
  ret (mkUsageStats p c t).

(** Iterating [_simulate_streaming(content)]: [content.split] exists on a
    [str] only. *)
Definition iterate_stream (stream_of : string → list StreamingChunk) (content : pyval)
    : result (list StreamingChunk) :=
  match content with
  | VStr s => ret (stream_of s)
  | _ => raise AttributeError
  end.

(** The headers both clients send. *)
Definition request_headers `{Runtime} (self : Client) : list (string * pyobj) :=
  [("Content-Type", Plain (VStr "application/json; charset=utf-8"));
   ("Accept", Plain (VStr "application/json"));
   ("api-key", api_key self);
   ("Authorization", Plain (VStr ("Snowflake Token=" +:+ String dquote (py_str (api_key self)) +:+ String dquote EmptyString)))].

(** Reading a client out of a configuration dict (with [.get]) or out of a
    configuration object (with [getattr]); both constructors do it the same
    way and differ in the default model only. *)
Definition from_dict (config : pyval) (default_model : string) : result Client :=
  let* k := py_get config "api_key" VNone in
  let* u := py_get config "base_url" (VStr EmptyString) in
  let* u := py_rstrip (Plain u) in
  let* m := py_get config "model" (VStr default_model) in
  let* a := py_get config "app_id" (VStr "edadip") in
  let* c := py_get config "aplctn_cd" (VStr "edagnai") in
  ret (mkClient (Plain k) u (Plain m) (Plain a) (Plain c)).

Definition from_attrs (config : pyobj) (default_model : string) : result Client :=
  let k := getattr config "api_key" (Plain VNone) in
  let* u := py_rstrip (getattr config "base_url" (Plain (VStr EmptyString))) in
  ret (mkClient k u
         (getattr config "model" (Plain (VStr default_model)))
         (getattr config "app_id" (Plain (VStr "edadip")))
         (getattr config "aplctn_cd" (Plain (VStr "edagnai")))).

Definition from_parameters (key base_url model : pyobj) (default_model : string)
    : result Client :=
  let* u := if truthy base_url then py_rstrip base_url else ret EmptyString in
  ret (mkClient key u (if truthy model then model else Plain (VStr default_model))
         (Plain (VStr "edadip")) (Plain (VStr "edagnai"))).

(** The request [_make_request] posts; [verify=False], [timeout=120]. *)
Definition request_for `{Runtime} (self : Client) (payload : Payload) : Request :=
  mkRequest (base_url self) (request_headers self) payload false 120.

(** One call of [create]: the requests it posted, in order, and what it
    returned or raised. *)
Record Call := mkCall {
  sent : list Request;
  outcome : result Reply;
}.

(** *** [sfassist_client.py] *)

Module SFAssistClient.

Definition __init__ (config_or_api_key base_url model : pyobj) : result Client :=
  match config_or_api_key with
  | Plain (VDict config) =>
      if has_key "sfassist" config then
        let* sfassist_config := py_getitem (VDict config) "sfassist" in
        from_dict sfassist_config "claude-4-sonnet"
      else from_dict (VDict config) "claude-4-sonnet"
  | _ =>
      if hasattr config_or_api_key "api_key" || hasattr config_or_api_key "sfassist" then
        if hasattr config_or_api_key "sfassist" then
          from_attrs (getattr config_or_api_key "sfassist" (Plain VNone)) "claude-4-sonnet"
        else from_attrs config_or_api_key "claude-4-sonnet"
      else from_parameters config_or_api_key base_url model "claude-4-sonnet"
  end.

Definition _build_payload (self : Client) (messages : list msg_dict)
    (system_message : option string) : result Payload :=
  let* scanned := scan_messages messages system_message [] in
  let sys_msg := or_default scanned.1 in
  let filtered_messages := scanned.2 in
  let all_messages := new_message "system" sys_msg :: filtered_messages in
  ret (mkPayload
         {| q_aplctn_cd := aplctn_cd self;
            q_app_id := app_id self;
            q_api_key := api_key self;
            q_method := "cortex";
            q_model := ModelFlat (model self);
            q_sys_msg := sys_msg;
            q_limit_convs := VStr "0";
            q_prompt_messages := all_messages;
            q_app_lvl_prefix := "edadip";
            q_user_id := EmptyString;
            q_session_id := "dsa_session" |}).

Definition _make_request `{Runtime} `{Backend} (self : Client) (payload : Payload)
    : list Request * result Response :=
  let request := request_for self payload in
  ([request], post request).

Module ChatCompletion.

Definition _simulate_streaming (content : string) : list StreamingChunk :=
  let words := str_split space content in
  imap (fun i word => new_StreamingChunk (chunk_text i word)) words.

(** The [if]/[elif] chain that picks the content out of a parsed
    body. *)
Definition extract_content `{Runtime} (data : pyval) : result pyval :=
  let* t := py_contains "text" data in
  if t then py_getitem data "text" else
  let* r := py_contains "response" data in
  if r then py_getitem data "response" else
  let* c := has_choices data in
  if c then extract_choices data else
  let* m := py_contains "message" data in
  if m then
    let* horizon := py_getitem data "message" in
    py_get horizon "content" (VStr EmptyString)
  else ret (VStr (py_str (Plain data))).

(** The part of [create] after the request.  The [try] of the 200 branch
    spans the parse, the extraction and the [return]; its clause is
    [except (json.JSONDecodeError, ValueError)].  The [try] of the other
    branch spans the parse and the [raise]; its clause is
    [except json.JSONDecodeError]. *)
Definition handle_response `{Runtime} (response : Response) (stream : bool)
    : result Reply :=
  if (status_code response =? 200)%Z then
    try_except
      (let* data := resp_json response in
       let* content := extract_content data in
       if stream then ret (Stream (iterate_stream _simulate_streaming content))
       else
         let* usage := read_usage data in
         ret (Completion (new_CompletionResponse content usage)))
      (λ e, is_JSONDecodeError e || is_ValueError e)
      (let content := VStr (text response) in
       if stream then ret (Stream (iterate_stream _simulate_streaming content))
       else ret (Completion (new_CompletionResponse content default_UsageStats)))
  else
    try_except
      (let* error_data := resp_json response in
       raise (Exception ("API Error Response: " +:+ json_dumps error_data)))
      is_JSONDecodeError
      (raise (Exception ("API Error Response: " +:+ text response))).

Definition create `{Runtime} `{Backend} (self : Client) (model : pyobj)
    (messages : list msg_dict) (stream : bool) : Call :=
  match _build_payload self messages None with
  | inl e => mkCall [] (inl e)
  | inr payload =>
      let exchange := _make_request self payload in
      mkCall exchange.1
        (let* response := exchange.2 in
         handle_response response stream)
  end.

End ChatCompletion.

(** [create_sfassist_client(api_key, base_url, model="claude-4-sonnet")]:
    [model] is [None] when the caller leaves the argument out. *)
Definition create_sfassist_client (api_key base_url : pyobj) (model : option pyobj)
    : result Client :=
  __init__ api_key base_url (default (Plain (VStr "claude-4-sonnet")) model).

End SFAssistClient.

(** *** [snowflake_cortex_client.py] *)

Module SnowflakeCortexClient.

Definition __init__ (config_or_api_key base_url model : pyobj) : result Client :=
  match config_or_api_key with
  | Plain (VDict config) =>
      if has_key "snowflake" config then
        let* snowflake_config := py_getitem (VDict config) "snowflake" in
        from_dict snowflake_config "snowflake-llama-3.3-70b"
      else from_dict (VDict config) "llama3.1-70b"
  | _ =>
      if hasattr config_or_api_key "api_key" || hasattr config_or_api_key "snowflake" then
        if hasattr config_or_api_key "snowflake" then
          from_attrs (getattr config_or_api_key "snowflake" (Plain VNone)) "llama3.1-70b"
        else from_attrs config_or_api_key "llama3.1-70b"
      else from_parameters config_or_api_key base_url model "llama3.1-70b"
  end.

Definition _build_payload (self : Client) (messages : list msg_dict)
    (system_message : option string) : result Payload :=
  let* scanned := scan_messages messages system_message [] in
  let sys_msg := or_default scanned.1 in
  let filtered_messages := scanned.2 in
  let filtered_messages :=
    if (10 <? length filtered_messages)%nat then last_n 10 filtered_messages
    else filtered_messages in
  let all_messages := new_message "system" sys_msg :: filtered_messages in
  ret (mkPayload
         {| q_aplctn_cd := aplctn_cd self;
            q_app_id := app_id self;
            q_api_key := api_key self;
            q_method := "cortex";
            q_model := ModelNested (model self) "anthropic";
            q_sys_msg := sys_msg;
            q_limit_convs := VInt 0;
            q_prompt_messages := all_messages;
            q_app_lvl_prefix := "edadip";
            q_user_id := EmptyString;
            q_session_id := "dsa_session" |}).

(** The debug line prints [json.dumps(payload, indent=2)] before the
    request, which raises on a payload holding an instance. *)
Definition _make_request `{Runtime} `{Backend} (self : Client) (payload : Payload)
    : list Request * result Response :=
  let request := request_for self payload in
  if serialisable (aplctn_cd self) && serialisable (app_id self)
     && serialisable (api_key self) && serialisable (model self)
  then ([request], post request)
  else ([], raise TypeError).

Module ChatCompletion.

Definition _simulate_streaming (content : string) : list StreamingChunk :=
  let words := str_split space content in
  imap (fun i word => new_StreamingChunk (chunk_text i word)) words.

Definition extract_content `{Runtime} (data : pyval) : result pyval :=
  let* t := py_contains "text" data in
  if t then py_getitem data "text" else
  let* r := py_contains "response" data in
  if r then py_getitem data "response" else
  let* c := has_choices data in
  if c then extract_choices data else
  ret (VStr (py_str (Plain data))).

Definition handle_response `{Runtime} (response : Response) (stream : bool)
    : result Reply :=
  if (status_code response =? 200)%Z then
    try_except
      (let* data := resp_json response in
       let* content := extract_content data in
       if stream then ret (Stream (iterate_stream _simulate_streaming content))
       else
         let* usage := read_usage data in
         ret (Completion (new_CompletionResponse content usage)))
      (λ e, is_JSONDecodeError e || is_ValueError e)
      (let content := VStr (text response) in
       if stream then ret (Stream (iterate_stream _simulate_streaming content))
       else ret (Completion (new_CompletionResponse content default_UsageStats)))
  else
    try_except
      (let* error_data := resp_json response in
       raise (Exception (" Error Response: " +:+ json_dumps error_data)))
      is_JSONDecodeError
      (raise (Exception (" Error Response: " +:+ text response))).

Definition create `{Runtime} `{Backend} (self : Client) (model : pyobj)
    (messages : list msg_dict) (stream : bool) : Call :=
  match _build_payload self messages None with
  | inl e => mkCall [] (inl e)
  | inr payload =>
      let exchange := _make_request self payload in
      mkCall exchange.1
        (let* response := exchange.2 in
         handle_response response stream)
  end.

End ChatCompletion.

(** [create_snowflake_client(api_key, base_url,
    model="snowflake-llama-3.3-70b")]: [model] is [None] when the caller
    leaves the argument out. *)
Definition create_snowflake_client (api_key base_url : pyobj) (model : option pyobj)
    : result Client :=
  __init__ api_key base_url (default (Plain (VStr "snowflake-llama-3.3-70b")) model).

End SnowflakeCortexClient.

(** ** The object store

    [_build_payload] receives references: a list object whose items refer
    to dict objects the caller still holds.  This second model of the
    payload builders runs on a store of objects, so that what they write is
    visible. *)

Abbreviation loc := positive.

Inductive object :=
| ODict (d : msg_dict)
| OList (items : list loc).

Abbreviation heap := (gmap loc object).

(** A computation on the store: it returns or raises and leaves a store,
    or runs out of fuel ([None]). *)
Definition heapM (A : Type) : Type := heap → option (result A * heap).

Definition hret {A} (a : A) : heapM A := fun h => Some (inr a, h).
Definition hlift {A} (r : result A) : heapM A := fun h => Some (r, h).
Definition hbind {A B} (m : heapM A) (k : A → heapM B) : heapM B :=
  fun h =>
    match m h with
    | Some (inr a, h') => k a h'
    | Some (inl e, h') => Some (inl e, h')
    | None => None
    end.

Notation "'do*' x := m 'in' k" := (hbind m (fun x => k))
  (at level 10, x name, m at level 100, k at level 200).

(** A new object gets a reference no object of the store has. *)
Definition alloc (o : object) : heapM loc :=
  fun h => let l := fresh (dom h) in Some (inr l, <[l := o]> h).

Definition read_dict (l : loc) : heapM msg_dict :=
  fun h =>
    match h !! l with
    | Some (ODict d) => Some (inr d, h)
    | _ => Some (inl AttributeError, h)
    end.

Definition read_list (l : loc) : heapM (list loc) :=
  fun h =>
    match h !! l with
    | Some (OList items) => Some (inr items, h)
    | _ => Some (inl TypeError, h)
    end.

(** [l.append(x)] writes the list object in place. *)
Definition append (l x : loc) : heapM unit :=
  fun h =>
    match h !! l with
    | Some (OList items) => Some (inr tt, <[l := OList (items ++ [x])]> h)
    | _ => Some (inl AttributeError, h)
    end.

(** The body of the loop for one [msg]; it returns the new [sys_msg]. *)
Definition loop_body (msg : loc) (sys_msg : option string) (filtered_messages : loc)
    : heapM (option string) :=
  do* d := read_dict msg in
  if decide (d !! "role" = Some "system") then
    if is_set sys_msg then hret sys_msg
    else
      do* c := hlift (getitem d "content") in
      hret (Some c)
  else
    do* r := hlift (getitem d "role") in
    do* c := hlift (getitem d "content") in
    do* copy := alloc (ODict (new_message r c)) in
    do* _u := append filtered_messages copy in
    hret sys_msg.

(** [for msg in messages]: the list iterator reads item [i] of the list
    object as it is at that moment and stops when there is none. *)
Fixpoint for_messages (fuel : nat) (messages : loc) (i : nat) (sys_msg : option string)
    (filtered_messages : loc) : heapM (option string) :=
  match fuel with
  | O => fun _ => None
  | S fuel' =>
      do* items := read_list messages in
      match items !! i with
      | None => hret sys_msg
      | Some msg =>
          do* sys_msg' := loop_body msg sys_msg filtered_messages in
          for_messages fuel' messages (S i) sys_msg' filtered_messages
      end
  end.

(** [_build_payload] on the store, up to the message array: it returns the
    system message and the reference of [all_messages].  [window] is the
    truncation the variant applies: none in [sfassist_client.py], the last
    10 in [snowflake_cortex_client.py]. *)
Definition build_messages (window : option nat) (fuel : nat) (messages : loc)
    (system_message : option string) : heapM (string * loc) :=
  do* filtered_messages := alloc (OList []) in
  do* sys_msg := for_messages fuel messages 0 system_message filtered_messages in
  let sys_msg := or_default sys_msg in
  do* items := read_list filtered_messages in
  do* filtered_messages :=
    match window with
    | Some n =>
        if (n <? length items)%nat then alloc (OList (last_n n items))
        else hret filtered_messages
    | None => hret filtered_messages
    end in
  do* system := alloc (ODict (new_message "system" sys_msg)) in
  do* singleton := alloc (OList [system]) in
  do* head := read_list singleton in
  do* items := read_list filtered_messages in
  do* all_messages := alloc (OList (head ++ items)) in
  hret (sys_msg, all_messages).

Definition sfassist_build_messages := build_messages None.
Definition snowflake_build_messages := build_messages (Some 10%nat).

(** What the builders keep while they run from the store [h0]: every
    object of [h0] is still there, unchanged, and [filtered_messages] is a
    list object created since, of items created since. *)
Definition builder_inv (h0 : heap) (filtered_messages : loc) (h : heap) : Prop :=
  h0 ⊆ h
  ∧ h0 !! filtered_messages = None
  ∧ ∃ items, h !! filtered_messages = Some (OList items)
             ∧ Forall (λ x, h0 !! x = None) items.

(** The list object at [l] holds references to dicts with the contents
    [ds], in order. *)
Definition holds_messages (h : heap) (l : loc) (ds : list msg_dict) : Prop :=
  ∃ items, h !! l = Some (OList items)
           ∧ Forall2 (λ x d, h !! x = Some (ODict d)) items ds.

(** One turn of the loop of [_build_payload] on the values. *)
Definition scan_step (msg : msg_dict) (sys_msg : option string)
    (filtered_messages : list msg_dict) : result (option string * list msg_dict) :=
  if decide (msg !! "role" = Some "system") then
    if is_set sys_msg then ret (sys_msg, filtered_messages)
    else
      let* c := getitem msg "content" in
      ret (Some c, filtered_messages)
  else
    let* r := getitem msg "role" in
    let* c := getitem msg "content" in
    ret (sys_msg, filtered_messages ++ [new_message r c]).

(** The truncation a variant applies to the history. *)
Definition windowed {A} (window : option nat) (l : list A) : list A :=
  match window with
  | Some n => if (n <? length l)%nat then last_n n l else l
  | None => l
  end.

(** Reading a message list out of the store: the dicts its items refer
    to. *)
Definition deref_dict (h : heap) (l : loc) : option msg_dict :=
  match h !! l with
  | Some (ODict d) => Some d
  | _ => None
  end.

Definition deref_messages (h : heap) (l : loc) : option (list msg_dict) :=
  match h !! l with
  | Some (OList items) => mapM (deref_dict h) items
  | _ => None
  end.

(** ** Vocabulary of the statements about [_build_payload] *)

(** A message in the sense of the data model: a dict with a role and a
    content. *)
Definition has_role_content (m : msg_dict) : Prop :=
  is_Some (m !! "role") ∧ is_Some (m !! "content").

(** A message with nothing but a role and a content. *)
Definition plain_message (m : msg_dict) : Prop :=
  ∃ role content, m = new_message role content.

Definition system_role (m : msg_dict) : Prop := m !! "role" = Some "system".

(** The role and content of a message, as a new dict. *)
Definition copy_of (m : msg_dict) : msg_dict :=
  new_message (default EmptyString (m !! "role")) (default EmptyString (m !! "content")).

(** The non-system messages of a sequence, in their order. *)
Definition non_system (messages : list msg_dict) : list msg_dict :=
  filter (λ m, ¬ system_role m) messages.

(** A sequence supplies system content when one of its system-role
    messages has a non-empty content. *)
Definition supplies_content (messages : list msg_dict) : Prop :=
  ∃ m c, m ∈ messages ∧ system_role m ∧ m !! "content" = Some c ∧ c ≠ EmptyString.

(** ** The field-priority list, in the words of the specification

    An ordered list of extractors tried in sequence on the parsed body; the
    first that matches wins, and the stringified body is the last
    resort. *)

Definition extractor : Type := list (string * pyval) → option pyval.

Definition field (name : string) : extractor := assoc name.

(** The content field of a nested message, empty when there is none. *)
Definition content_of (m : pyval) : pyval :=
  match m with
  | VDict f => default (VStr EmptyString) (assoc "content" f)
  | _ => VStr EmptyString
  end.

(** The nested message content of the first element of ["choices"]. *)
Definition first_choice : extractor :=
  λ d, match assoc "choices" d with
       | Some (VList (VDict c :: _)) =>
           Some (content_of (default (VDict []) (assoc "message" c)))
       | _ => None
       end.

(** The content of a ["message"] field. *)
Definition message_field : extractor :=
  λ d, content_of <$> assoc "message" d.

Fixpoint first_match (extractors : list extractor) (d : list (string * pyval))
    : option pyval :=
  match extractors with
  | [] => None
  | e :: rest =>
      match e d with
      | Some v => Some v
      | None => first_match rest d
      end
  end.

Definition extract_by_priority `{Runtime} (extractors : list extractor)
    (d : list (string * pyval)) : pyval :=
  default (VStr (py_str (Plain (VDict d)))) (first_match extractors d).

Definition sfassist_priority : list extractor :=
  [field "text"; field "response"; first_choice; message_field].

Definition snowflake_priority : list extractor :=
  [field "text"; field "response"; first_choice].

(** The usage counters of a body, zero where missing. *)
Definition usage_of (d : list (string * pyval)) : UsageStats :=
  let u := match assoc "usage" d with Some (VDict u) => u | _ => [] end in
  mkUsageStats (default (VInt 0) (assoc "prompt_tokens" u))
    (default (VInt 0) (assoc "completion_tokens" u))
    (default (VInt 0) (assoc "total_tokens" u)).

(** The shapes the nested fields of a body are expected to have. *)
Definition dict_or_absent (o : option pyval) : Prop :=
  match o with
  | None | Some (VDict _) => True
  | Some _ => False
  end.

Definition choices_shaped (d : list (string * pyval)) : Prop :=
  match assoc "choices" d with
  | None | Some (VList []) => True
  | Some (VList (VDict c :: _)) => dict_or_absent (assoc "message" c)
  | Some _ => False
  end.

Definition message_shaped (d : list (string * pyval)) : Prop :=
  dict_or_absent (assoc "message" d).

Definition usage_shaped (d : list (string * pyval)) : Prop :=
  dict_or_absent (assoc "usage" d).

(** A client whose attributes are plain data. *)
Definition plain_client (self : Client) : Prop :=
  serialisable (aplctn_cd self) && serialisable (app_id self)
  && serialisable (api_key self) && serialisable (model self) = true.

(** A 2xx status. *)
Definition is_2xx (status : Z) : bool := ((200 <=? status) && (status <? 300))%Z.

(** A backend that answers every request with the same response. *)
Definition answering (response : Response) : Backend :=
  {| post := λ _, inr response |}.

(** ** A reference runtime

    Modelled from the Python documentation, for running the clients on
    concrete bodies: [json.dumps(v, indent=2)] with its default
    [ensure_ascii], and [repr] of plain data.  The text of a float and of
    an instance is left to the arguments; [repr] passes non-ASCII
    characters through as printable. *)

Definition backslash : ascii := "\"%char.
Definition newline : ascii := "010"%char.
Definition quote : ascii := "'"%char.

Definition decimal (n : Z) : string := NilZero.string_of_int (Z.to_int n).

Definition hex_digit (n : N) : ascii :=
  nth (N.to_nat n) (String.list_ascii_of_string "0123456789abcdef") "0"%char.

Definition hex2 (n : N) : string :=
  String (hex_digit (N.land (N.shiftr n 4) 15)) (String (hex_digit (N.land n 15)) EmptyString).

Definition hex4 (n : N) : string := hex2 (N.shiftr n 8) +:+ hex2 (N.land n 255).

Definition u_escape (n : N) : string := String backslash (String "u" (hex4 n)).

(** A code point outside ASCII, as [json.dumps] writes it. *)
Definition json_code_point (n : N) : string :=
  if (n <? 65536)%N then u_escape n
  else
    let m := (n - 65536)%N in
    u_escape (N.lor 55296 (N.land (N.shiftr m 10) 1023))
    +:+ u_escape (N.lor 56320 (N.land m 1023)).

Definition json_ascii (a : ascii) : string :=
  let n := N_of_ascii a in
  if Ascii.eqb a dquote then String backslash (String dquote EmptyString)
  else if Ascii.eqb a backslash then String backslash (String backslash EmptyString)
  else if (n =? 10)%N then String backslash "n"
  else if (n =? 13)%N then String backslash "r"
  else if (n =? 9)%N then String backslash "t"
  else if (n =? 8)%N then String backslash "b"
  else if (n =? 12)%N then String backslash "f"
  else if ((n <? 32) || (n =? 127))%N then u_escape n
  else String a EmptyString.

(** The escaped characters of a string; [acc] and [need] decode a UTF-8
    sequence in progress. *)
Fixpoint json_chars (s : string) (acc : N) (need : nat) : string :=
  match s with
  | EmptyString => EmptyString
  | String a s' =>
      let b := N_of_ascii a in
      if (b <? 128)%N then json_ascii a +:+ json_chars s' 0%N 0
      else if (b <? 192)%N then
        let acc' := (acc * 64 + (b - 128))%N in
        match need with
        | 1 => json_code_point acc' +:+ json_chars s' 0%N 0
        | S n => json_chars s' acc' n
        | O => json_chars s' 0%N 0
        end
      else if (b <? 224)%N then json_chars s' (b - 192)%N 1
      else if (b <? 240)%N then json_chars s' (b - 224)%N 2
      else json_chars s' (b - 240)%N 3
  end.

Definition json_string (s : string) : string :=
  String dquote (json_chars s 0%N 0) +:+ String dquote EmptyString.

Definition newline_indent (level : nat) : string :=
  String newline (String.concat EmptyString (replicate (2 * level) " ")).

Definition has_char (c : ascii) (s : string) : bool :=
  negb (str_count c s =? 0)%nat.

Definition repr_ascii (q a : ascii) : string :=
  let n := N_of_ascii a in
  if Ascii.eqb a q then String backslash (String q EmptyString)
  else if Ascii.eqb a backslash then String backslash (String backslash EmptyString)
  else if (n =? 10)%N then String backslash "n"
  else if (n =? 13)%N then String backslash "r"
  else if (n =? 9)%N then String backslash "t"
  else if ((n <? 32) || (n =? 127))%N then String backslash (String "x" (hex2 n))
  else String a EmptyString.

(** A code point outside ASCII that is not printable, as [repr] writes
    it: [\xNN], [\uNNNN] or [\UNNNNNNNN]. *)
Definition repr_code_point (n : N) : string :=
  if (n <? 256)%N then String backslash (String "x" (hex2 n))
  else if (n <? 65536)%N then u_escape n
  else String backslash (String "U" (hex4 (N.shiftr n 16) +:+ hex4 (N.land n 65535))).

Section reference_runtime.

Variables (float_repr float_json : Z → string).
Variable instance_repr : list (string * pyobj) → string.

(** [str.isprintable] on a code point outside ASCII, a table of the Unicode
    database. *)
Variable isprintable : N → bool.

(** The characters of a string as [repr] writes them; [acc], [pending] and
    [need] decode a UTF-8 sequence in progress, whose bytes are kept when
    the code point is printable. *)
Fixpoint repr_chars (q : ascii) (s : string) (acc : N) (pending : string) (need : nat)
    : string :=
  match s with
  | EmptyString => EmptyString
  | String a s' =>
      let b := N_of_ascii a in
      if (b <? 128)%N then repr_ascii q a +:+ repr_chars q s' 0%N EmptyString 0
      else if (b <? 192)%N then
        let acc' := (acc * 64 + (b - 128))%N in
        let pending' := pending +:+ String a EmptyString in
        match need with
        | 1 =>
            (if isprintable acc' then pending' else repr_code_point acc')
            +:+ repr_chars q s' 0%N EmptyString 0
        | S n => repr_chars q s' acc' pending' n
        | O => repr_chars q s' 0%N EmptyString 0
        end
      else if (b <? 224)%N then repr_chars q s' (b - 192)%N (String a EmptyString) 1
      else if (b <? 240)%N then repr_chars q s' (b - 224)%N (String a EmptyString) 2
      else repr_chars q s' (b - 240)%N (String a EmptyString) 3
  end.

(** [repr] of a [str]: double quotes only when the string holds a single
    quote and no double quote. *)
Definition repr_string (s : string) : string :=
  let q := if has_char quote s && negb (has_char dquote s) then dquote else quote in
  String q (repr_chars q s 0%N EmptyString 0) +:+ String q EmptyString.

Fixpoint json_encode (level : nat) (v : pyval) {struct v} : string :=
  match v with
  | VNone => "null"
  | VBool b => if b then "true" else "false"
  | VInt n => decimal n
  | VFloat bits => float_json bits
  | VStr s => json_string s
  | VList l =>
      let items :=
        (fix items (l : list pyval) : list string :=
           match l with
           | [] => []
           | x :: l' => json_encode (S level) x :: items l'
           end) l in
      match items with
      | [] => "[]"
      | _ =>
          "[" +:+ newline_indent (S level)
          +:+ String.concat ("," +:+ newline_indent (S level)) items
          +:+ newline_indent level +:+ "]"
      end
  | VDict d =>
      let items :=
        (fix items (d : list (string * pyval)) : list string :=
           match d with
           | [] => []
           | (k, x) :: d' =>
               (json_string k +:+ ": " +:+ json_encode (S level) x) :: items d'
           end) d in
      match items with
      | [] => "{}"
      | _ =>
          "{" +:+ newline_indent (S level)
          +:+ String.concat ("," +:+ newline_indent (S level)) items
          +:+ newline_indent level +:+ "}"
      end
  end.

Fixpoint repr_plain (v : pyval) {struct v} : string :=
  match v with
  | VNone => "None"
  | VBool b => if b then "True" else "False"
  | VInt n => decimal n
  | VFloat bits => float_repr bits
  | VStr s => repr_string s
  | VList l =>
      "[" +:+ String.concat ", "
                ((fix items (l : list pyval) : list string :=
                    match l with
                    | [] => []
                    | x :: l' => repr_plain x :: items l'
                    end) l)
      +:+ "]"
  | VDict d =>
      "{" +:+ String.concat ", "
                ((fix items (d : list (string * pyval)) : list string :=
                    match d with
                    | [] => []
                    | (k, x) :: d' => (repr_string k +:+ ": " +:+ repr_plain x) :: items d'
                    end) d)
      +:+ "}"
  end.

Definition reference_runtime : Runtime :=
  {| py_repr := λ o, match o with
                     | Plain v => repr_plain v
                     | Instance attrs => instance_repr attrs
                     end;
     json_dumps := json_encode 0 |}.

End reference_runtime.

(** The code points outside ASCII that are not printable, among Latin-1
    and the spaces, separators and format characters of general
    punctuation; the private use area; the ideographic space and the byte
    order mark. *)
Definition example_isprintable (n : N) : bool :=
  negb ((n <=? 160) || (n =? 173)
        || ((8192 <=? n) && (n <=? 8207))
        || ((8232 <=? n) && (n <=? 8239))
        || ((8287 <=? n) && (n <=? 8303))
        || ((57344 <=? n) && (n <=? 63743))
        || (n =? 12288) || (n =? 65279))%N.

(** The reference runtime at some rendering of floats and instances and
    at that table. *)
Definition example_runtime : Runtime :=
  reference_runtime (λ _, "0.0") (λ _, "0.0") (λ _, "<object>") example_isprintable.

(** A computation that does not end in a raised [Exception(msg)]. *)
Definition no_exception {A} (r : result A) : Prop := ∀ msg, r ≠ inl (Exception msg).

(** A computation that raises nothing the clause
    [except (json.JSONDecodeError, ValueError)] would catch. *)
Definition no_value_error {A} (r : result A) : Prop :=
  ∀ e, r = inl e → is_JSONDecodeError e || is_ValueError e = false.

(** What [create] raises on a status other than 200: the backend error
    with the serialised body when the body parses and with the raw body
    when the parse raises [json.JSONDecodeError], and otherwise what the
    parse raised. *)
Definition error_raised `{Runtime} (prefix : string) (response : Response) : exn :=
  match resp_json response with
  | inr error_data => Exception (prefix +:+ json_dumps error_data)
  | inl e =>
      if is_JSONDecodeError e then Exception (prefix +:+ text response) else e
  end.

(** ** [DSA.py]

    The methods of [DSA] that work on the instance's own state.  The
    collaborators they call are parameters: [os.path] and the file system,
    the reading of a JSON file, and the methods of the conversation
    object. *)

Class OsPath := {
  path_join : string → string → string;
  dirname : string → string;
  basename : string → string;
  abspath : string → string;
  path_exists : string → bool;
}.

(** [json.load] on a file opened for reading: the parsed value, or the
    exception of [open] or of the parser. *)
Class Files := { read_json : string → result pyval }.

(** The methods of [self.conv] the modelled code calls, by their outcome. *)
Class Conversation := {
  document_generation : list pyval → result string;
  conv_export_code : result string;
  add_data : string → result unit;
  (** [str(self.conv.my_data_cache.get_description())], or the exception
      [get_description] raises. *)
  get_description : result string;
  (** [shutil.copy(src, dst)] *)
  shutil_copy : string → pyval → result unit;
}.

(** The part of a [DSA] instance the modelled methods read and write:
    [self.config], [self.session_cache_path],
    [self.conv.programmer.messages] and [self.conv.file_list]. *)
Record DSA := mkDSA {
  dsa_config : list (string * pyval);
  dsa_session_cache_path : pyval;
  programmer_messages : list msg_dict;
  conv_file_list : list string;
}.

(** [d[k] = v] on an insertion-ordered dict: a key that is there keeps its
    place, a new one goes last. *)
Fixpoint dict_set (k : string) (v : pyval) (d : list (string * pyval))
    : list (string * pyval) :=
  match d with
  | [] => [(k, v)]
  | (k', v') :: d' =>
      if String.eqb k k' then (k, v) :: d' else (k', v') :: dict_set k v d'
  end.

(** [os.path.join(a, b)] and [os.path.dirname(a)] where [a] may be any
    value: anything but a string is a [TypeError]. *)
Definition py_path_join `{OsPath} (a : pyval) (b : string) : result string :=
  match a with
  | VStr s => ret (path_join s b)
  | _ => raise TypeError
  end.

Definition py_dirname `{OsPath} (a : pyval) : result string :=
  match a with
  | VStr s => ret (dirname s)
  | _ => raise TypeError
  end.

(** [chat_streaming(message, chat_history, code=None)]: the new state, and
    the pair it returns. *)
Definition chat_streaming (self : DSA) (message : string) (chat_history : list pyval)
    (code : option string) : DSA * (string * list pyval) :=
  if is_set code then
    let message := default EmptyString code in
    (self, (EmptyString, chat_history ++ [VList [VStr message; VNone]]))
  else
    (mkDSA (dsa_config self) (dsa_session_cache_path self)
       (programmer_messages self ++ [new_message "user" message])
       (conv_file_list self),
     (EmptyString, chat_history ++ [VList [VStr message; VNone]])).

(** A session: the calls of [chat_streaming] for a list of submissions,
    each a message and the content of the code editor, threading the state
    and the displayed history. *)
Fixpoint chat_session (self : DSA) (chat_history : list pyval)
    (turns : list (string * option string)) : DSA * list pyval :=
  match turns with
  | [] => (self, chat_history)
  | (message, code) :: rest =>
      let r := chat_streaming self message chat_history code in
      chat_session r.1 r.2.2 rest
  end.

(** The messages typed in a session, those submitted with an empty code
    editor. *)
Definition typed_messages (turns : list (string * option string)) : list string :=
  fst <$> filter (λ t, is_set t.2 = false) turns.

Definition get_csv_file_path `{OsPath} (self : DSA) (filename : string)
    : result (option string) :=
  let* cache_path := py_path_join (dsa_session_cache_path self) filename in
  if path_exists cache_path then ret (Some (abspath cache_path))
  else
    let* parent := py_dirname (dsa_session_cache_path self) in
    let root_path := path_join parent filename in
    if path_exists root_path then ret (Some (abspath root_path))
    else ret None.

Definition get_csv_download_path `{OsPath} (self : DSA) : result (option string) :=
  let* sample_path := get_csv_file_path self "sample_data.csv" in
  if is_set sample_path then ret sample_path else
  let* test_path := get_csv_file_path self "test_dataset.csv" in
  if is_set test_path then ret test_path else
  let* insurance_path := get_csv_file_path self "insurance.csv" in
  if is_set insurance_path then ret insurance_path else
  ret None.

Definition get_download_path `{OsPath} (self : DSA) : result (option string) :=
  let* csv_path := get_csv_download_path self in
  if is_set csv_path then ret csv_path else ret None.

Definition download_file `{OsPath} (self : DSA) : result (option string) :=
  let* file_path := get_download_path self in
  if is_set file_path && path_exists (default EmptyString file_path) then ret file_path
  else ret None.

(** [gr.Button] and [gr.DownloadButton], by the arguments they are built
    with. *)
Record Button := mkButton { button_visible : bool }.

Record DownloadButton := mkDownloadButton {
  download_label : option string;
  download_value : option string;
  download_visible : bool;
}.

Definition show_csv_download_button `{OsPath} (self : DSA) : result (list DownloadButton) :=
  let* csv_path := get_csv_download_path self in
  if is_set csv_path then ret [mkDownloadButton (Some "Download CSV") csv_path true]
  else ret [mkDownloadButton (Some "Download CSV") None false].

Definition generate_report `{OsPath} `{Conversation} (chat_history : list pyval)
    : Button * DownloadButton :=
  match document_generation chat_history with
  | inr down_path =>
      let abs_path := abspath down_path in
      if path_exists abs_path then
        (mkButton false, mkDownloadButton (Some "Download Report") (Some abs_path) true)
      else (mkButton true, mkDownloadButton None None false)
  | inl _ => (mkButton true, mkDownloadButton None None false)
  end.

Definition export_code `{OsPath} `{Conversation} : result (Button * DownloadButton) :=
  let* down_path := conv_export_code in
  let abs_path := abspath down_path in
  if path_exists abs_path then
    ret (mkButton false, mkDownloadButton (Some "Download Notebook") (Some abs_path) true)
  else ret (mkButton true, mkDownloadButton None None false).

Definition down_report : Button * DownloadButton :=
  (mkButton true, mkDownloadButton None None false).

Definition down_notebook : Button * DownloadButton :=
  (mkButton true, mkDownloadButton None None false).

(** [load_dialogue(dialogue_path)]: the new state and the value returned.
    Every exception inside is caught. *)
Definition load_dialogue `{OsPath} `{Files} (self : DSA) (dialogue_path : string)
    : DSA * pyval :=
  let system_dialogue_path := path_join dialogue_path "system_dialogue.json" in
  let system_config_path := path_join dialogue_path "config.json" in
  match read_json system_dialogue_path with
  | inl _ => (self, VList [])
  | inr chat_history =>
      match read_json system_config_path with
      | inl _ => (self, VList [])
      | inr sys_config =>
          match py_getitem sys_config "session_cache_path" with
          | inl _ => (self, VList [])
          | inr path =>
              let config1 := dict_set "session_cache_path" path (dsa_config self) in
              let config2 := dict_set "chat_history_display" chat_history config1 in
              match py_getitem sys_config "figure_list" with
              | inl _ =>
                  (mkDSA config2 path (programmer_messages self) (conv_file_list self),
                   VList [])
              | inr figure_list =>
                  (mkDSA (dict_set "figure_list" figure_list config2) path
                     (programmer_messages self) (conv_file_list self),
                   chat_history)
              end
          end
      end
  end.

(** [len(s)] and [s[:n]] count characters: a byte that continues a UTF-8
    sequence belongs to the character begun before it. *)
Definition is_continuation (a : ascii) : bool :=
  ((128 <=? nat_of_ascii a) && (nat_of_ascii a <? 192))%nat.

Fixpoint str_len (s : string) : nat :=
  match s with
  | EmptyString => 0%nat
  | String a s' => ((if is_continuation a then 0 else 1) + str_len s')%nat
  end.

Fixpoint str_take (n : nat) (s : string) : string :=
  match s with
  | EmptyString => EmptyString
  | String a s' =>
      if is_continuation a then String a (str_take n s')
      else match n with
           | O => EmptyString
           | S n' => String a (str_take n' s')
           end
  end.

Definition max_length : nat := 3000.

(** The note appended to a description cut at [max_length]. *)
Definition truncation_note (original : nat) : string :=
  String newline "... (dataset info truncated from "
  +:+ decimal (Z.of_nat original) +:+ " to " +:+ decimal (Z.of_nat max_length)
  +:+ " characters. Full data is still available for analysis.)".

(** [gen_info_str] after the [if len(gen_info_str) > max_length] step. *)
Definition truncate_info (gen_info_str : string) : string :=
  if (max_length <? str_len gen_info_str)%nat then
    str_take max_length gen_info_str +:+ truncation_note (str_len gen_info_str)
  else gen_info_str.

(** The two texts [add_file] appends to the system message. *)
Definition described_context (local_cache_path gen_info_str : string) : string :=
  String newline "Now, user uploads the data in " +:+ local_cache_path
  +:+ String newline ", and here is the general information of the dataset:"
  +:+ String newline gen_info_str
  +:+ String newline
        "You should care about the missing values and type of each column in your later processing.".

Definition fallback_context (local_cache_path : string) : string :=
  String newline "Now, user uploads the data in " +:+ local_cache_path
  +:+ ". Dataset loaded successfully. You can use pd.read_csv('" +:+ local_cache_path
  +:+ "') to analyze it.".

(** [add_file(files)], given [files.name]: the state it leaves and whether
    it returned or raised. *)
Definition add_file `{OsPath} `{Conversation} (self : DSA) (file_path : string)
    : DSA * result unit :=
  match shutil_copy file_path (dsa_session_cache_path self) with
  | inl e => (self, inl e)
  | inr _ =>
      let filename := basename file_path in
      match add_data file_path with
      | inl e => (self, inl e)
      | inr _ =>
          let self1 :=
            mkDSA (dsa_config self) (dsa_session_cache_path self)
              (programmer_messages self) (conv_file_list self ++ [filename]) in
          match py_path_join (dsa_session_cache_path self) filename with
          | inl e => (self1, inl e)
          | inr local_cache_path =>
              let dataset_context :=
                match get_description with
                | inr gen_info_str =>
                    described_context local_cache_path (truncate_info gen_info_str)
                | inl _ => fallback_context local_cache_path
                end in
              match programmer_messages self1 with
              | [] => (self1, inl IndexError)
              | first :: rest =>
                  match first !! "content" with
                  | None => (self1, inl (KeyError "content"))
                  | Some content =>
                      (mkDSA (dsa_config self1) (dsa_session_cache_path self1)
                         (<["content" := content +:+ dataset_context]> first :: rest)
                         (conv_file_list self1),
                       inr tt)
                  end
              end
          end
      end
  end.

(** ** Example inputs *)

Definition example_client : Client :=
  mkClient (Plain (VStr "secret")) "https://gateway.example/api"
    (Plain (VStr "claude-4-sonnet")) (Plain (VStr "edadip")) (Plain (VStr "edagnai")).

Definition user_says (content : string) : msg_dict := new_message "user" content.

Definition plain_text_reply : Response :=
  mkResponse 200 "plain text reply" (inl JSONDecodeError).

Definition boom_response : Response :=
  mkResponse 500 ("{" +:+ String dquote "error" +:+ String dquote ":"
                  +:+ String dquote "boom" +:+ String dquote "}")
    (inr (VDict [("error", VStr "boom")])).

Definition created_response : Response := mkResponse 201 "created" (inl JSONDecodeError).

Definition json_response (d : list (string * pyval)) : Response :=
  mkResponse 200 EmptyString (inr (VDict d)).

(** A store in which the caller holds a system message, a user message and
    a history list that refers to the user message twice. *)
Definition example_heap : heap :=
  {[ 1%positive := ODict (new_message "system" "Be brief.");
     2%positive := ODict (user_says "hello");
     3%positive := OList [1%positive; 2%positive; 2%positive] ]}.

(** ** Further vocabulary *)

(** [c * k]: a string of [k] copies of [c]. *)
Fixpoint repeat_char (c : ascii) (k : nat) : string :=
  match k with
  | O => EmptyString
  | S k' => String c (repeat_char c k')
  end.


(** An error body of 5000 digits: the parser refuses the conversion of the
    integer with a [ValueError] that is no [json.JSONDecodeError]. *)
Definition long_integer_error : Response :=
  mkResponse 500 (repeat_char "1" (N.to_nat 5000)) (inl ValueError).

(** A value that is not a [str]. *)
Definition not_str (v : pyval) : Prop := ∀ s, v ≠ VStr s.

(** A value that is not a [dict]. *)
Definition not_dict (v : pyval) : Prop := ∀ d, v ≠ VDict d.

(** [None], a bool or a number: a value that is no container. *)
Definition scalar (v : pyval) : Prop :=
  match v with
  | VNone | VBool _ | VInt _ | VFloat _ => True
  | _ => False
  end.

(** The backend has answered the request of [create] with [response]: the
    payload was built and the post returned. *)
Definition sfassist_answered `{Runtime} `{Backend} (self : Client)
    (messages : list msg_dict) (response : Response) : Prop :=
  ∃ payload, SFAssistClient._build_payload self messages None = inr payload
             ∧ post (request_for self payload) = inr response.

Definition snowflake_answered `{Runtime} `{Backend} (self : Client)
    (messages : list msg_dict) (response : Response) : Prop :=
  ∃ payload, SnowflakeCortexClient._build_payload self messages None = inr payload
             ∧ plain_client self
             ∧ post (request_for self payload) = inr response.

(** A string is an element of a list of values. *)
Definition str_elem (k : string) (l : list pyval) : bool :=
  existsb (fun x => match x with VStr s => String.eqb k s | _ => false end) l.

(** The places [get_csv_download_path] looks at, in its order: for each of
    the three file names, the session cache and then its parent
    directory. *)
Definition csv_candidates `{OsPath} (session : string) : list string :=
  [ path_join session "sample_data.csv";
    path_join (dirname session) "sample_data.csv";
    path_join session "test_dataset.csv";
    path_join (dirname session) "test_dataset.csv";
    path_join session "insurance.csv";
    path_join (dirname session) "insurance.csv" ].

(** Example collaborators: a file system holding the listed paths, with
    paths joined by ['/']; files with given JSON contents; a conversation
    whose methods have given outcomes. *)
Definition example_os (present : list string) : OsPath :=
  {| path_join := λ a b, a +:+ "/" +:+ b;
     dirname := λ _, "/cache";
     basename := λ _, "data.csv";
     abspath := λ p, match p with
                     | String "/" _ => p
                     | _ => "/work/" +:+ p
                     end;
     path_exists := λ p, existsb (String.eqb p) present |}.

Definition example_files (files : list (string * pyval)) : Files :=
  {| read_json := λ p, match assoc p files with
                       | Some v => inr v
                       | None => inl (Exception "No such file or directory")
                       end |}.

Definition example_conversation (report : result string) (description : result string)
    : Conversation :=
  {| document_generation := λ _, report;
     conv_export_code := report;
     add_data := λ _, inr tt;
     get_description := description;
     shutil_copy := λ _ _, inr tt |}.

Definition example_dsa : DSA :=
  mkDSA [("load_chat", VBool false)] (VStr "/cache/2024-01-01-42")
    [new_message "system" "You are a data scientist."] [].

(** * Properties *)

(** ** Splitting and streaming *)

Section streaming.

Implicit Types (s w : string) (ws : list string).

Lemma str_split_nonempty sep s : str_split sep s ≠ [].
Proof.
  destruct s as [|c s]; simpl; [done|].
  destruct (Ascii.eqb c sep); [done|].
  by destruct (str_split sep s).
Qed.

Lemma str_split_length sep s :
  length (str_split sep s) = S (str_count sep s).
Proof.
  induction s as [|c s IH]; simpl; [done|].
  destruct (Ascii.eqb c sep); simpl.
  - by rewrite IH.
  - destruct (str_split sep s) as [|w ws] eqn:E; [by apply str_split_nonempty in E|].
    simpl in *. lia.
Qed.

(** Joining the pieces with the separator gives the string back. *)
Lemma str_join_split sep s : str_join sep (str_split sep s) = s.
Proof.
  induction s as [|c s IH]; simpl; [done|].
  destruct (Ascii.eqb_spec c sep) as [->|Hne].
  - destruct (str_split sep s) as [|w ws] eqn:E; [by apply str_split_nonempty in E|].
    simpl. by rewrite <- IH.
  - destruct (str_split sep s) as [|w ws] eqn:E; [by apply str_split_nonempty in E|].
    rewrite <- IH. simpl. by destruct ws.
Qed.

(** No piece contains the separator. *)
Lemma str_split_no_sep sep s :
  Forall (fun w => str_count sep w = 0%nat) (str_split sep s).
Proof.
  induction s as [|c s IH]; simpl.
  - by repeat constructor.
  - destruct (Ascii.eqb c sep) eqn:Ec.
    + by constructor.
    + destruct (str_split sep s) as [|w ws]; inversion IH; subst;
        constructor; simpl; rewrite ?Ec; auto.
Qed.

Lemma fragments_tail ws :
  concat_fragments (imap (fun i word => new_StreamingChunk (chunk_text (S i) word)) ws)
  = foldr (fun w acc => String space w +:+ acc) EmptyString ws.
Proof.
  induction ws as [|w ws IH]; simpl; [done|].
  rewrite <- IH. f_equal.
Qed.

Lemma str_app_empty s : s +:+ EmptyString = s.
Proof.
  induction s as [|a s IH]; [done|].
  change (String a (s +:+ EmptyString) = String a s). by rewrite IH.
Qed.

Lemma str_join_fold w ws :
  str_join space (w :: ws)
  = w +:+ foldr (fun w acc => String space w +:+ acc) EmptyString ws.
Proof.
  revert w. induction ws as [|w' ws IH]; intros w.
  - simpl. by rewrite str_app_empty.
  - change (str_join space (w :: w' :: ws))
      with (w +:+ String space (str_join space (w' :: ws))).
    by rewrite IH.
Qed.

Lemma concat_fragments_join ws :
  ws ≠ [] → concat_fragments (fragments ws) = str_join space ws.
Proof.
  destruct ws as [|w ws]; [done|]. intros _.
  rewrite str_join_fold. unfold fragments. rewrite imap_cons.
  simpl. f_equal. apply fragments_tail.
Qed.

Lemma text_fragment_fragments ws :
  text_fragment <$> fragments ws = imap chunk_text ws.
Proof.
  unfold fragments. rewrite fmap_imap. by apply imap_ext.
Qed.

End streaming.

(** ** The payload builders *)

Section build_payload.

Implicit Types (m : msg_dict) (messages filtered : list msg_dict)
  (sys_msg : option string).

Lemma lookup_new_message_role r c : new_message r c !! "role" = Some r.
Proof. done. Qed.

Lemma lookup_new_message_content r c : new_message r c !! "content" = Some c.
Proof. done. Qed.

Lemma copy_of_plain m : plain_message m → copy_of m = m.
Proof. by intros (r & c & ->). Qed.

Lemma copy_of_role m : has_role_content m → copy_of m !! "role" = m !! "role".
Proof. intros [[r Hr] _]. unfold copy_of. by rewrite Hr. Qed.

Lemma plain_has_role_content m : plain_message m → has_role_content m.
Proof. intros (r & c & ->). split; eauto. Qed.

(** On messages with a role and a content the loop raises nothing and
    appends the copies of the non-system messages. *)
Lemma scan_messages_filtered messages sys_msg filtered :
  Forall has_role_content messages →
  ∃ sys_msg',
    scan_messages messages sys_msg filtered
    = inr (sys_msg', filtered ++ (copy_of <$> non_system messages)).
Proof.
  intros Hwf. revert sys_msg filtered.
  induction Hwf as [|m messages [[r Hr] [c Hc]] _ IH]; intros sys_msg filtered.
  - exists sys_msg. simpl. by rewrite app_nil_r.
  - unfold non_system. simpl. rewrite filter_cons. unfold system_role at 1.
    destruct (decide (m !! "role" = Some "system")) as [Hs|Hs].
    + rewrite decide_False by tauto.
      destruct (is_set sys_msg).
      * apply IH.
      * unfold getitem. rewrite Hc. simpl. apply IH.
    + rewrite decide_True by done.
      unfold getitem. rewrite Hr, Hc. simpl.
      destruct (IH sys_msg (filtered ++ [new_message r c])) as [s ->].
      exists s. rewrite <- app_assoc. simpl. unfold copy_of. by rewrite Hr, Hc.
Qed.

(** A system message that is set is never replaced. *)
Lemma scan_messages_keeps messages sys_msg filtered r :
  is_set sys_msg = true →
  scan_messages messages sys_msg filtered = inr r → r.1 = sys_msg.
Proof.
  intros Hset. revert filtered.
  induction messages as [|m messages IH]; intros filtered; simpl.
  - by intros [= <-].
  - destruct (decide (m !! "role" = Some "system")).
    + rewrite Hset. apply IH.
    + destruct (getitem m "role"); [done|].
      destruct (getitem m "content"); [done|]. simpl. apply IH.
Qed.

(** Without content from either source the loop ends with a system
    message that is not set. *)
Lemma scan_messages_unset messages sys_msg filtered r :
  is_set sys_msg = false →
  ¬ supplies_content messages →
  scan_messages messages sys_msg filtered = inr r → is_set r.1 = false.
Proof.
  intros Hset Hno. revert sys_msg filtered Hset.
  induction messages as [|m messages IH]; intros sys_msg filtered Hset; simpl.
  - by intros [= <-].
  - assert (¬ supplies_content messages) as Hno'.
    { intros (m' & c & Hin & Hm'). apply Hno. exists m', c. split; [by right|done]. }
    destruct (decide (m !! "role" = Some "system")) as [Hs|Hs].
    + rewrite Hset. unfold getitem. destruct (m !! "content") as [c|] eqn:Hc; [|done].
      simpl. apply IH; [done|]. simpl.
      destruct (String.eqb_spec c EmptyString) as [->|Hne]; [done|].
      exfalso. apply Hno. exists m, c. split; [by left|done].
    + destruct (getitem m "role"); [done|].
      destruct (getitem m "content"); [done|]. simpl. by apply IH.
Qed.

Lemma or_default_set s :
  s ≠ EmptyString → or_default (Some s) = s.
Proof.
  intros Hs. unfold or_default. simpl.
  by destruct (String.eqb_spec s EmptyString).
Qed.

Lemma or_default_unset sys_msg :
  is_set sys_msg = false → or_default sys_msg = DEFAULT_SYSTEM_MESSAGE.
Proof. intros Hs. unfold or_default. destruct sys_msg; by rewrite ?Hs. Qed.

Lemma is_set_Some s : s ≠ EmptyString → is_set (Some s) = true.
Proof. intros Hs. simpl. by destruct (String.eqb_spec s EmptyString). Qed.

Lemma non_system_Forall messages :
  Forall has_role_content messages →
  Forall (λ m, ¬ system_role m) (copy_of <$> non_system messages).
Proof.
  intros Hwf. apply Forall_fmap, Forall_forall. intros m Hm.
  apply list_elem_of_filter in Hm as [Hns Hin].
  rewrite Forall_forall in Hwf. unfold system_role in *. simpl.
  by rewrite copy_of_role by auto.
Qed.

Lemma non_system_plain messages :
  Forall plain_message messages → copy_of <$> non_system messages = non_system messages.
Proof.
  intros Hp. rewrite <- (list_fmap_id (non_system messages)) at 2.
  apply list_fmap_ext. intros i m Hm. simpl. apply copy_of_plain.
  apply list_elem_of_lookup_2 in Hm. apply list_elem_of_filter in Hm as [_ Hin].
  rewrite Forall_forall in Hp. auto.
Qed.

Lemma last_n_length {A} n (l : list A) :
  (n ≤ length l)%nat → length (last_n n l) = n.
Proof. intros Hn. unfold last_n. rewrite length_drop. lia. Qed.

Lemma last_n_suffix {A} n (l : list A) :
  l = take (length l - n) l ++ last_n n l.
Proof. unfold last_n. by rewrite take_drop. Qed.

End build_payload.

(** The two files define the same generator. *)
Lemma simulate_streaming_fragments T :
  SFAssistClient.ChatCompletion._simulate_streaming T = fragments (str_split space T)
  ∧ SnowflakeCortexClient.ChatCompletion._simulate_streaming T
    = fragments (str_split space T).
Proof. done. Qed.

Lemma fragments_text_cons w ws :
  text_fragment <$> fragments (w :: ws) = w :: (String space <$> ws).
Proof.
  rewrite text_fragment_fragments, imap_cons. simpl. f_equal.
  rewrite <- (imap_const (String space)). by apply imap_ext.
Qed.

(** C2: the text fragments of the chunks [_simulate_streaming] yields for a
    text [T], concatenated in emission order, are [T] itself, for every [T]
    (empty, or with leading, trailing or repeated spaces); the chunks are
    the space-free words of [T] in their order, the first as it is and
    every later one behind exactly one space.  Both clients. *)
Theorem simulate_streaming_roundtrip (T : string) :
  concat_fragments (SFAssistClient.ChatCompletion._simulate_streaming T) = T
  ∧ concat_fragments (SnowflakeCortexClient.ChatCompletion._simulate_streaming T) = T
  ∧ ∃ first rest,
      str_join space (first :: rest) = T
      ∧ Forall (fun w => str_count space w = 0%nat) (first :: rest)
      ∧ text_fragment <$> SFAssistClient.ChatCompletion._simulate_streaming T
        = first :: (String space <$> rest)
      ∧ text_fragment <$> SnowflakeCortexClient.ChatCompletion._simulate_streaming T
        = first :: (String space <$> rest).
Proof.
  destruct (simulate_streaming_fragments T) as [-> ->].
  pose proof (str_split_nonempty space T) as Hne.
  pose proof (str_join_split space T) as Hjoin.
  pose proof (str_split_no_sep space T) as Hsep.
  rewrite concat_fragments_join, Hjoin by done.
  split_and!; try done.
  destruct (str_split space T) as [|first rest]; [done|].
  exists first, rest. by rewrite fragments_text_cons.
Qed.

(** C10: for every content string [C], [_simulate_streaming] yields exactly
    (number of spaces in [C]) + 1 chunks, so at least one; for the empty
    string it yields the one chunk whose text fragment is empty.  Both
    clients. *)
Theorem simulate_streaming_count (C : string) :
  length (SFAssistClient.ChatCompletion._simulate_streaming C) = (str_count space C + 1)%nat
  ∧ length (SnowflakeCortexClient.ChatCompletion._simulate_streaming C)
    = (str_count space C + 1)%nat
  ∧ SFAssistClient.ChatCompletion._simulate_streaming C ≠ []
  ∧ SnowflakeCortexClient.ChatCompletion._simulate_streaming C ≠ []
  ∧ SFAssistClient.ChatCompletion._simulate_streaming EmptyString
    = [new_StreamingChunk EmptyString]
  ∧ SnowflakeCortexClient.ChatCompletion._simulate_streaming EmptyString
    = [new_StreamingChunk EmptyString]
  ∧ text_fragment (new_StreamingChunk EmptyString) = EmptyString.
Proof.
  destruct (simulate_streaming_fragments C) as [-> ->].
  assert (length (fragments (str_split space C)) = (str_count space C + 1)%nat) as Hlen.
  { unfold fragments. rewrite length_imap, str_split_length. lia. }
  split_and!; try done.
  all: intros E; rewrite E in Hlen; simpl in Hlen; lia.
Qed.

Section build_payload_claims.

Implicit Types (m : msg_dict) (messages : list msg_dict).

(** What both builders return on messages with a role and a content. *)
Lemma build_payload_returns self messages system_message :
  Forall has_role_content messages →
  ∃ sys_msg,
    scan_messages messages system_message [] = inr (sys_msg, copy_of <$> non_system messages)
    ∧ (∃ q, SFAssistClient._build_payload self messages system_message
            = inr (mkPayload q)
            ∧ q_sys_msg q = or_default sys_msg
            ∧ q_model q = ModelFlat (model self)
            ∧ q_prompt_messages q
              = new_message "system" (or_default sys_msg) :: (copy_of <$> non_system messages))
    ∧ (∃ q, SnowflakeCortexClient._build_payload self messages system_message
            = inr (mkPayload q)
            ∧ q_sys_msg q = or_default sys_msg
            ∧ q_model q = ModelNested (model self) "anthropic"
            ∧ q_prompt_messages q
              = new_message "system" (or_default sys_msg)
                :: (if (10 <? length (copy_of <$> non_system messages))%nat
                    then last_n 10 (copy_of <$> non_system messages)
                    else copy_of <$> non_system messages)).
Proof.
  intros Hwf.
  destruct (scan_messages_filtered messages system_message [] Hwf) as [s Hs].
  simpl in Hs. exists s. split; [done|].
  unfold SFAssistClient._build_payload, SnowflakeCortexClient._build_payload.
  rewrite Hs. simpl. split; eexists; (split; [reflexivity|done]).
Qed.

(** An explicit argument that is the empty string acts as an absent
    one. *)
Lemma scan_messages_unset_same messages s1 s2 filtered :
  is_set s1 = false → is_set s2 = false →
  match scan_messages messages s1 filtered, scan_messages messages s2 filtered with
  | inr r1, inr r2 => or_default r1.1 = or_default r2.1 ∧ r1.2 = r2.2
  | inl e1, inl e2 => e1 = e2
  | _, _ => False
  end.
Proof.
  intros H1 H2. revert filtered.
  induction messages as [|m messages IH]; intros filtered; simpl.
  - by rewrite !or_default_unset.
  - destruct (decide (m !! "role" = Some "system")).
    + rewrite H1, H2. destruct (getitem m "content"); [done|]. simpl.
      by destruct (scan_messages messages (Some s) filtered).
    + destruct (getitem m "role"); [done|].
      destruct (getitem m "content"); [done|]. simpl. apply IH.
Qed.

End build_payload_claims.

Lemma or_default_nonempty sys_msg : or_default sys_msg ≠ EmptyString.
Proof.
  unfold or_default. destruct sys_msg as [s|]; [|done]. simpl.
  by destruct (String.eqb_spec s EmptyString).
Qed.

(** C1, as amended: on every sequence of messages (dicts with a role and a
    content) and every optional explicit system argument, both builders
    return a message array whose first entry has role system and whose
    other entries do not, so exactly one; its content is never empty and
    is also the [sys_msg] field.  A non-empty explicit argument supplies
    that content whatever the history holds; an explicit argument that is
    the empty string acts as an absent one; when neither the argument nor a
    system-role message supplies non-empty content, the default text fills
    the slot. *)
Theorem build_payload_one_system self (messages : list msg_dict) system_message :
  Forall has_role_content messages →
  ∃ p_sf p_sn sys_msg history_sf history_sn,
    SFAssistClient._build_payload self messages system_message = inr p_sf
    ∧ SnowflakeCortexClient._build_payload self messages system_message = inr p_sn
    ∧ wire_messages p_sf = new_message "system" sys_msg :: history_sf
    ∧ wire_messages p_sn = new_message "system" sys_msg :: history_sn
    ∧ Forall (λ m, ¬ system_role m) history_sf
    ∧ Forall (λ m, ¬ system_role m) history_sn
    ∧ q_sys_msg (query p_sf) = sys_msg
    ∧ q_sys_msg (query p_sn) = sys_msg
    ∧ sys_msg ≠ EmptyString
    ∧ (∀ e, system_message = Some e → e ≠ EmptyString → sys_msg = e)
    ∧ (is_set system_message = false → ¬ supplies_content messages →
       sys_msg = DEFAULT_SYSTEM_MESSAGE)
    ∧ (system_message = Some EmptyString →
       SFAssistClient._build_payload self messages None = inr p_sf
       ∧ SnowflakeCortexClient._build_payload self messages None = inr p_sn).
Proof.
  intros Hwf.
  destruct (build_payload_returns self messages system_message Hwf)
    as (s & Hscan & (q1 & E1 & Hs1 & _ & Hm1) & (q2 & E2 & Hs2 & _ & Hm2)).
  pose proof (non_system_Forall messages Hwf) as Hns.
  eexists _, _, (or_default s), _, _.
  split; [exact E1|]. split; [exact E2|].
  split; [exact Hm1|]. split; [exact Hm2|].
  split; [exact Hns|].
  split. { case_match; [by apply Forall_drop|done]. }
  split; [exact Hs1|]. split; [exact Hs2|].
  split; [apply or_default_nonempty|].
  split; [|split].
  - intros e -> He.
    pose proof (scan_messages_keeps _ _ _ _ (is_set_Some e He) Hscan) as Hk.
    simpl in Hk. subst s. by apply or_default_set.
  - intros Hunset Hno. apply or_default_unset.
    by apply (scan_messages_unset _ _ _ _ Hunset Hno Hscan).
  - intros ->.
    pose proof (scan_messages_unset_same messages (Some EmptyString) None []
                  eq_refl eq_refl) as Hsame.
    rewrite Hscan in Hsame.
    unfold SFAssistClient._build_payload, SnowflakeCortexClient._build_payload in *.
    destruct (scan_messages messages None []) as [|[s' h']]; [done|].
    simpl in Hsame. destruct Hsame as [Hd <-]. simpl.
    rewrite <- Hd. rewrite Hscan in E1, E2. simpl in E1, E2. by rewrite E1, E2.
Qed.

Lemma build_payload_one_system_witness :
  ∃ p_sf p_sn sys_msg history_sf history_sn,
    SFAssistClient._build_payload example_client
      [new_message "system" "Be brief."; user_says "hello"] (Some "Answer in French.")
    = inr p_sf
    ∧ SnowflakeCortexClient._build_payload example_client
        [new_message "system" "Be brief."; user_says "hello"] (Some "Answer in French.")
      = inr p_sn
    ∧ wire_messages p_sf = new_message "system" sys_msg :: history_sf
    ∧ wire_messages p_sn = new_message "system" sys_msg :: history_sn
    ∧ sys_msg = "Answer in French.".
Proof.
  destruct (build_payload_one_system example_client
              [new_message "system" "Be brief."; user_says "hello"]
              (Some "Answer in French."))
    as (p1 & p2 & s & h1 & h2 & E1 & E2 & M1 & M2 & _ & _ & _ & _ & _ & He & _).
  - repeat constructor; by eexists.
  - exists p1, p2, s, h1, h2. split_and!; try done. by apply He.
Defined.

(** C1 as stated fails where the explicit argument is the empty string: the
    in-history system message supplies the content. *)
Lemma build_payload_explicit_empty_counterexample :
  ∃ p, SFAssistClient._build_payload example_client
         [new_message "system" "Be brief."; user_says "hello"] (Some EmptyString)
       = inr p
     ∧ wire_messages p
       = [new_message "system" "Be brief."; new_message "user" "hello"]
     ∧ q_sys_msg (query p) = "Be brief."
     ∧ q_sys_msg (query p) ≠ EmptyString.
Proof. eexists. split; [vm_compute; reflexivity|]. by split_and!. Qed.

(** C3, as amended: the Snowflake builder transmits the last 10 non-system
    messages when there are more than 10 (exactly 10, a suffix of them in
    their order, the oldest dropped) and all of them otherwise; the SF
    Assist builder has no truncation window and always transmits all of
    them, in order.  Each is transmitted as its role and content, which for
    a message holding nothing else is the message itself. *)
Theorem build_payload_history_window self (messages : list msg_dict) system_message :
  Forall has_role_content messages →
  ∃ p_sn p_sf,
    SnowflakeCortexClient._build_payload self messages system_message = inr p_sn
    ∧ SFAssistClient._build_payload self messages system_message = inr p_sf
    ∧ ((10 < length (non_system messages))%nat →
       length (wire_history p_sn) = 10%nat
       ∧ wire_history p_sn = last_n 10 (copy_of <$> non_system messages)
       ∧ ∃ dropped, copy_of <$> non_system messages = dropped ++ wire_history p_sn)
    ∧ ((length (non_system messages) ≤ 10)%nat →
       wire_history p_sn = copy_of <$> non_system messages)
    ∧ wire_history p_sf = copy_of <$> non_system messages
    ∧ (Forall plain_message messages →
       copy_of <$> non_system messages = non_system messages).
Proof.
  intros Hwf.
  destruct (build_payload_returns self messages system_message Hwf)
    as (s & Hscan & (q1 & E1 & _ & _ & Hm1) & (q2 & E2 & _ & _ & Hm2)).
  exists (mkPayload q2), (mkPayload q1).
  split; [exact E2|]. split; [exact E1|].
  unfold wire_history, wire_messages. simpl. rewrite Hm1, Hm2. simpl.
  rewrite length_fmap.
  split_and!.
  - intros Hlong. rewrite (proj2 (Nat.ltb_lt _ _) Hlong).
    split_and!; [|done|].
    + apply last_n_length. rewrite length_fmap. lia.
    + eexists. apply last_n_suffix.
  - intros Hshort. by rewrite (proj2 (Nat.ltb_ge _ _) Hshort).
  - done.
  - apply non_system_plain.
Qed.

Lemma build_payload_history_window_witness :
  ∃ p_sn,
    SnowflakeCortexClient._build_payload example_client
      (new_message "system" "Be brief."
       :: ((λ n, user_says (String (ascii_of_nat (65 + n)) EmptyString)) <$> seq 0 12))
      None
    = inr p_sn
    ∧ wire_history p_sn
      = (λ n, user_says (String (ascii_of_nat (65 + n)) EmptyString)) <$> seq 2 10.
Proof.
  destruct (build_payload_history_window example_client
              (new_message "system" "Be brief."
               :: ((λ n, user_says (String (ascii_of_nat (65 + n)) EmptyString)) <$> seq 0 12))
              None)
    as (p & _ & E & _ & Hlong & _).
  - repeat constructor; by eexists.
  - exists p. split; [exact E|].
    destruct Hlong as (_ & -> & _); [vm_compute; lia|].
    vm_compute. reflexivity.
Defined.

(** C3 as stated fails for the SF Assist builder: with 11 non-system
    messages it transmits all 11. *)
Lemma sfassist_build_payload_no_window_counterexample :
  ∃ p, SFAssistClient._build_payload example_client
         ((λ n, user_says (String (ascii_of_nat (65 + n)) EmptyString)) <$> seq 0 11) None
       = inr p
     ∧ (10 < length (non_system
                      ((λ n, user_says (String (ascii_of_nat (65 + n)) EmptyString))
                         <$> seq 0 11)))%nat
     ∧ length (wire_history p) = 11%nat
     ∧ length (wire_history p) ≠ 10%nat.
Proof.
  eexists. split; [vm_compute; reflexivity|].
  split_and!; [vm_compute; lia|done|done].
Qed.

(** ** Completions *)

Section create.

Context `{Runtime} `{Backend}.

Implicit Types (d : list (string * pyval)) (response : Response).

Lemma sfassist_create_unfold self model (messages : list msg_dict) stream payload :
  SFAssistClient._build_payload self messages None = inr payload →
  SFAssistClient.ChatCompletion.create self model messages stream
  = mkCall [request_for self payload]
      (let* response := post (request_for self payload) in
       SFAssistClient.ChatCompletion.handle_response response stream).
Proof. intros E. unfold SFAssistClient.ChatCompletion.create. by rewrite E. Qed.

Lemma snowflake_create_unfold self model (messages : list msg_dict) stream payload :
  SnowflakeCortexClient._build_payload self messages None = inr payload →
  plain_client self →
  SnowflakeCortexClient.ChatCompletion.create self model messages stream
  = mkCall [request_for self payload]
      (let* response := post (request_for self payload) in
       SnowflakeCortexClient.ChatCompletion.handle_response response stream).
Proof.
  intros E Hp. unfold SnowflakeCortexClient.ChatCompletion.create.
  rewrite E. unfold SnowflakeCortexClient._make_request.
  unfold plain_client in Hp. by rewrite Hp.
Qed.

Lemma has_key_assoc {V} k (l : list (string * V)) :
  has_key k l = match assoc k l with Some _ => true | None => false end.
Proof. done. Qed.

Ltac break_shapes :=
  unfold choices_shaped, message_shaped, usage_shaped, dict_or_absent in *;
  repeat (case_match; simplify_eq; try done; simpl in *).

(** On a well-shaped body the [if]/[elif] chain computes the priority
    list. *)
Lemma sfassist_extract_content d :
  choices_shaped d → message_shaped d →
  SFAssistClient.ChatCompletion.extract_content (VDict d)
  = inr (extract_by_priority sfassist_priority d).
Proof.
  intros Hc Hm.
  unfold SFAssistClient.ChatCompletion.extract_content, extract_by_priority,
    sfassist_priority, has_choices, extract_choices, field, first_choice, message_field.
  simpl. rewrite !has_key_assoc.
  destruct (assoc "text" d) as [t|] eqn:Et; simpl; [done|].
  destruct (assoc "response" d) as [r|] eqn:Er; simpl; [done|].
  break_shapes.
Qed.

Lemma snowflake_extract_content d :
  choices_shaped d →
  SnowflakeCortexClient.ChatCompletion.extract_content (VDict d)
  = inr (extract_by_priority snowflake_priority d).
Proof.
  intros Hc.
  unfold SnowflakeCortexClient.ChatCompletion.extract_content, extract_by_priority,
    snowflake_priority, has_choices, extract_choices, field, first_choice.
  simpl. rewrite !has_key_assoc.
  destruct (assoc "text" d) as [t|] eqn:Et; simpl; [done|].
  destruct (assoc "response" d) as [r|] eqn:Er; simpl; [done|].
  break_shapes.
Qed.

Lemma read_usage_shaped d :
  usage_shaped d → read_usage (VDict d) = inr (usage_of d).
Proof. intros Hu. unfold read_usage, usage_of. simpl. break_shapes. Qed.

End create.

Section errors.

Context `{Runtime}.

Lemma no_exception_bind {A B} (m : result A) (k : A → result B) :
  no_exception m → (∀ a, no_exception (k a)) → no_exception (bind m k).
Proof.
  intros Hm Hk msg. destruct m as [e|a]; simpl.
  - intros [= ->]. by apply (Hm msg).
  - apply Hk.
Qed.

Lemma no_exception_ret {A} (a : A) : no_exception (ret a).
Proof. by intros msg. Qed.

Lemma no_exception_py_contains k v : no_exception (py_contains k v).
Proof. intros msg. by destruct v. Qed.

Lemma no_exception_py_getitem v k : no_exception (py_getitem v k).
Proof. intros msg. destruct v; try done. simpl. by destruct (assoc k d). Qed.

Lemma no_exception_py_len v : no_exception (py_len v).
Proof. intros msg. by destruct v. Qed.

Lemma no_exception_py_getitem0 v : no_exception (py_getitem0 v).
Proof. intros msg. destruct v as [| | | |s|l|d]; try done; simpl; by case_match. Qed.

Lemma no_exception_py_get v k default : no_exception (py_get v k default).
Proof. intros msg. by destruct v. Qed.

Create HintDb noexn.

Local Hint Resolve no_exception_ret no_exception_py_contains no_exception_py_getitem
  no_exception_py_len no_exception_py_getitem0 no_exception_py_get : noexn.

Ltac no_exn :=
  repeat first
    [ apply no_exception_bind; [|intros ?]
    | progress auto with noexn
    | case_match ].

Lemma no_exception_has_choices data : no_exception (has_choices data).
Proof. unfold has_choices. no_exn. Qed.

Lemma no_exception_extract_choices data : no_exception (extract_choices data).
Proof. unfold extract_choices. no_exn. Qed.

Lemma no_exception_read_usage data : no_exception (read_usage data).
Proof. unfold read_usage. no_exn. Qed.

Local Hint Resolve no_exception_has_choices no_exception_extract_choices
  no_exception_read_usage : noexn.

Lemma no_exception_sfassist_extract data :
  no_exception (SFAssistClient.ChatCompletion.extract_content data).
Proof. unfold SFAssistClient.ChatCompletion.extract_content. no_exn. Qed.

Lemma no_exception_snowflake_extract data :
  no_exception (SnowflakeCortexClient.ChatCompletion.extract_content data).
Proof. unfold SnowflakeCortexClient.ChatCompletion.extract_content. no_exn. Qed.

Local Hint Resolve no_exception_sfassist_extract no_exception_snowflake_extract : noexn.

(** [json.JSONDecodeError] is a [ValueError]: the clause of the 200 branch
    catches the [ValueError]s. *)
Lemma is_ValueError_caught e :
  is_JSONDecodeError e || is_ValueError e = is_ValueError e.
Proof. by destruct e. Qed.

(** Nothing the extraction raises is a [ValueError]: that clause catches
    the failure of the parse and nothing else. *)

Lemma no_value_error_bind {A B} (m : result A) (k : A → result B) :
  no_value_error m → (∀ a, no_value_error (k a)) → no_value_error (bind m k).
Proof.
  intros Hm Hk e. destruct m as [e'|a]; simpl.
  - intros [= ->]. by apply Hm.
  - apply Hk.
Qed.

Lemma no_value_error_ret {A} (a : A) : no_value_error (ret a).
Proof. by intros e. Qed.

Lemma no_value_error_py_contains k v : no_value_error (py_contains k v).
Proof. intros e. destruct v; try done; by intros [= <-]. Qed.

Lemma no_value_error_py_getitem v k : no_value_error (py_getitem v k).
Proof.
  intros e. destruct v; try by intros [= <-].
  simpl. destruct (assoc k d); [done|]. by intros [= <-].
Qed.

Lemma no_value_error_py_len v : no_value_error (py_len v).
Proof. intros e. destruct v; try done; by intros [= <-]. Qed.

Lemma no_value_error_py_getitem0 v : no_value_error (py_getitem0 v).
Proof.
  intros e. destruct v as [| | | |s|l|d]; try by intros [= <-].
  - destruct s; [by intros [= <-]|done].
  - destruct l; [by intros [= <-]|done].
Qed.

Lemma no_value_error_py_get v k default : no_value_error (py_get v k default).
Proof. intros e. destruct v; try done; by intros [= <-]. Qed.

Local Hint Resolve no_value_error_ret no_value_error_py_contains
  no_value_error_py_getitem no_value_error_py_len no_value_error_py_getitem0
  no_value_error_py_get : noexn.

Ltac no_value :=
  repeat first
    [ apply no_value_error_bind; [|intros ?]
    | progress auto with noexn
    | case_match ].

Lemma no_value_error_has_choices data : no_value_error (has_choices data).
Proof. unfold has_choices. no_value. Qed.

Lemma no_value_error_extract_choices data : no_value_error (extract_choices data).
Proof. unfold extract_choices. no_value. Qed.

Lemma no_value_error_read_usage data : no_value_error (read_usage data).
Proof. unfold read_usage. no_value. Qed.

Local Hint Resolve no_value_error_has_choices no_value_error_extract_choices
  no_value_error_read_usage : noexn.

Lemma no_value_error_sfassist_extract data :
  no_value_error (SFAssistClient.ChatCompletion.extract_content data).
Proof. unfold SFAssistClient.ChatCompletion.extract_content. no_value. Qed.

Lemma no_value_error_snowflake_extract data :
  no_value_error (SnowflakeCortexClient.ChatCompletion.extract_content data).
Proof. unfold SnowflakeCortexClient.ChatCompletion.extract_content. no_value. Qed.

Local Hint Resolve no_value_error_sfassist_extract no_value_error_snowflake_extract : noexn.

Lemma try_except_not_caught {A} (body handler : result A) caught :
  (∀ e, body = inl e → caught e = false) →
  try_except body caught handler = body.
Proof.
  intros Hbody. destruct body as [e|a]; [|done].
  simpl. by rewrite (Hbody e eq_refl).
Qed.

(** [handle_response] on a 200 response whose body parses: the [try] is
    left by its [return] or by an exception its clause does not name. *)
Lemma sfassist_handle_parsed response stream data :
  status_code response = 200%Z →
  resp_json response = inr data →
  SFAssistClient.ChatCompletion.handle_response response stream
  = (let* content := SFAssistClient.ChatCompletion.extract_content data in
     if stream
     then ret (Stream (iterate_stream SFAssistClient.ChatCompletion._simulate_streaming
                         content))
     else
       let* usage := read_usage data in
       ret (Completion (new_CompletionResponse content usage))).
Proof.
  intros Hs Hj. unfold SFAssistClient.ChatCompletion.handle_response.
  rewrite Hs, Hj. cbn [Z.eqb Pos.eqb bind].
  apply try_except_not_caught. fold (@no_value_error Reply). no_value.
Qed.

Lemma snowflake_handle_parsed response stream data :
  status_code response = 200%Z →
  resp_json response = inr data →
  SnowflakeCortexClient.ChatCompletion.handle_response response stream
  = (let* content := SnowflakeCortexClient.ChatCompletion.extract_content data in
     if stream
     then ret (Stream (iterate_stream SnowflakeCortexClient.ChatCompletion._simulate_streaming
                         content))
     else
       let* usage := read_usage data in
       ret (Completion (new_CompletionResponse content usage))).
Proof.
  intros Hs Hj. unfold SnowflakeCortexClient.ChatCompletion.handle_response.
  rewrite Hs, Hj. cbn [Z.eqb Pos.eqb bind].
  apply try_except_not_caught. fold (@no_value_error Reply). no_value.
Qed.

(** [handle_response] on a 200 response whose body does not parse: the
    plain text of the body when the parse raised a [ValueError], and what
    the parse raised otherwise. *)
Lemma sfassist_handle_unparsed response stream e :
  status_code response = 200%Z →
  resp_json response = inl e →
  SFAssistClient.ChatCompletion.handle_response response stream
  = if is_ValueError e then
      if stream
      then ret (Stream (iterate_stream SFAssistClient.ChatCompletion._simulate_streaming
                          (VStr (text response))))
      else ret (Completion (new_CompletionResponse (VStr (text response))
                              default_UsageStats))
    else inl e.
Proof.
  intros Hs Hj. unfold SFAssistClient.ChatCompletion.handle_response.
  rewrite Hs, Hj. cbn [Z.eqb Pos.eqb bind try_except]. by rewrite is_ValueError_caught.
Qed.

Lemma snowflake_handle_unparsed response stream e :
  status_code response = 200%Z →
  resp_json response = inl e →
  SnowflakeCortexClient.ChatCompletion.handle_response response stream
  = if is_ValueError e then
      if stream
      then ret (Stream (iterate_stream SnowflakeCortexClient.ChatCompletion._simulate_streaming
                          (VStr (text response))))
      else ret (Completion (new_CompletionResponse (VStr (text response))
                              default_UsageStats))
    else inl e.
Proof.
  intros Hs Hj. unfold SnowflakeCortexClient.ChatCompletion.handle_response.
  rewrite Hs, Hj. cbn [Z.eqb Pos.eqb bind try_except]. by rewrite is_ValueError_caught.
Qed.

(** A 200 response never ends in the backend error, unless the parse
    itself raised a bare [Exception]. *)
Lemma sfassist_handle_200 response stream :
  status_code response = 200%Z →
  no_exception (resp_json response) →
  no_exception (SFAssistClient.ChatCompletion.handle_response response stream).
Proof.
  intros E Hj. destruct (resp_json response) as [e|data] eqn:Ej.
  - rewrite (sfassist_handle_unparsed _ _ _ E Ej).
    destruct (is_ValueError e); [by destruct stream|].
    intros msg [= ->]. by apply (Hj msg).
  - rewrite (sfassist_handle_parsed _ _ _ E Ej). no_exn.
Qed.

Lemma snowflake_handle_200 response stream :
  status_code response = 200%Z →
  no_exception (resp_json response) →
  no_exception (SnowflakeCortexClient.ChatCompletion.handle_response response stream).
Proof.
  intros E Hj. destruct (resp_json response) as [e|data] eqn:Ej.
  - rewrite (snowflake_handle_unparsed _ _ _ E Ej).
    destruct (is_ValueError e); [by destruct stream|].
    intros msg [= ->]. by apply (Hj msg).
  - rewrite (snowflake_handle_parsed _ _ _ E Ej). no_exn.
Qed.

(** Every other status ends in an exception: the backend error, or what
    the parse raised when that is no [json.JSONDecodeError]. *)
Lemma sfassist_handle_error response stream :
  status_code response ≠ 200%Z →
  SFAssistClient.ChatCompletion.handle_response response stream
  = inl (error_raised "API Error Response: " response).
Proof.
  intros E. unfold SFAssistClient.ChatCompletion.handle_response, error_raised.
  rewrite (proj2 (Z.eqb_neq _ _) E).
  destruct (resp_json response) as [e|data]; [|done].
  cbn [bind try_except]. by destruct (is_JSONDecodeError e).
Qed.

Lemma snowflake_handle_error response stream :
  status_code response ≠ 200%Z →
  SnowflakeCortexClient.ChatCompletion.handle_response response stream
  = inl (error_raised " Error Response: " response).
Proof.
  intros E. unfold SnowflakeCortexClient.ChatCompletion.handle_response, error_raised.
  rewrite (proj2 (Z.eqb_neq _ _) E).
  destruct (resp_json response) as [e|data]; [|done].
  cbn [bind try_except]. by destruct (is_JSONDecodeError e).
Qed.

End errors.





(** C6, as amended: once the backend has answered with a body that
    [response.json()] parses or rejects with [json.JSONDecodeError],
    [create] raises its backend error exactly when the status is not 200
    (so also on a 2xx status other than 200); it then returns no
    completion, has posted the one request and no other, and the message of
    the error is the prefix followed by the serialised body when the body
    parses as JSON and by the raw body text when it does not.  Both
    clients. *)
Theorem create_backend_error `{Runtime} `{Backend} self model
    (messages : list msg_dict) stream response :
  (∀ e, resp_json response = inl e → e = JSONDecodeError) →
  (∀ payload,
     SFAssistClient._build_payload self messages None = inr payload →
     post (request_for self payload) = inr response →
     ((∃ msg, outcome (SFAssistClient.ChatCompletion.create self model messages stream)
              = inl (Exception msg))
      ↔ status_code response ≠ 200%Z)
     ∧ (status_code response ≠ 200%Z →
        outcome (SFAssistClient.ChatCompletion.create self model messages stream)
        = inl (Exception
                 ("API Error Response: "
                  +:+ match resp_json response with
                      | inr error_data => json_dumps error_data
                      | inl _ => text response
                      end)))
     ∧ sent (SFAssistClient.ChatCompletion.create self model messages stream)
       = [request_for self payload])
  ∧ (∀ payload,
       SnowflakeCortexClient._build_payload self messages None = inr payload →
       plain_client self →
       post (request_for self payload) = inr response →
       ((∃ msg, outcome (SnowflakeCortexClient.ChatCompletion.create self model messages stream)
                = inl (Exception msg))
        ↔ status_code response ≠ 200%Z)
       ∧ (status_code response ≠ 200%Z →
          outcome (SnowflakeCortexClient.ChatCompletion.create self model messages stream)
          = inl (Exception
                   (" Error Response: "
                    +:+ match resp_json response with
                        | inr error_data => json_dumps error_data
                        | inl _ => text response
                        end)))
       ∧ sent (SnowflakeCortexClient.ChatCompletion.create self model messages stream)
         = [request_for self payload]).
Proof.
  intros Hparse.
  assert (no_exception (resp_json response)) as Hno.
  { intros msg Hj. by specialize (Hparse _ Hj). }
  assert (∀ prefix,
            error_raised prefix response
            = Exception (prefix +:+ match resp_json response with
                                    | inr error_data => json_dumps error_data
                                    | inl _ => text response
                                    end)) as Herr.
  { intros prefix. unfold error_raised.
    destruct (resp_json response) as [e|data]; [|done].
    by rewrite (Hparse e eq_refl). }
  split.
  - intros payload Hp Hpost.
    rewrite (sfassist_create_unfold _ _ _ _ _ Hp). simpl. rewrite Hpost. simpl.
    split_and!; [split| |done].
    + intros [msg E] Hs. by apply (sfassist_handle_200 response stream Hs Hno msg).
    + intros Hs. rewrite (sfassist_handle_error _ _ Hs), Herr. eauto.
    + intros Hs. by rewrite (sfassist_handle_error _ _ Hs), Herr.
  - intros payload Hp Hplain Hpost.
    rewrite (snowflake_create_unfold _ _ _ _ _ Hp Hplain). simpl. rewrite Hpost. simpl.
    split_and!; [split| |done].
    + intros [msg E] Hs. by apply (snowflake_handle_200 response stream Hs Hno msg).
    + intros Hs. rewrite (snowflake_handle_error _ _ Hs), Herr. eauto.
    + intros Hs. by rewrite (snowflake_handle_error _ _ Hs), Herr.
Qed.

Lemma create_backend_error_witness :
  ∃ msg,
    outcome (@SFAssistClient.ChatCompletion.create example_runtime
               (answering boom_response) example_client (Plain (VStr "gpt"))
               [user_says "hello"] false)
    = inl (Exception msg)
    ∧ msg = "API Error Response: {" +:+ String newline "  "
            +:+ String dquote "error" +:+ String dquote ": "
            +:+ String dquote "boom" +:+ String dquote (String newline "}")
    ∧ str_contains "boom" msg = true.
Proof.
  destruct (@create_backend_error example_runtime (answering boom_response)
              example_client (Plain (VStr "gpt")) [user_says "hello"] false boom_response)
    as [Hsf _]; [by intros e|].
  edestruct Hsf as (_ & E & _); [vm_compute; reflexivity|reflexivity|].
  eexists. split; [apply E; by vm_compute|]. by vm_compute.
Defined.

(** C6 as stated fails on a 2xx status other than 200: a 201 response
    raises the backend error.  It also fails on an error body whose parse
    raises something else than [json.JSONDecodeError]: for a 500 response
    with a body of 5000 digits [create] raises the [ValueError] of the
    parser, and no backend error with the raw body. *)
Lemma create_201_counterexample :
  is_2xx (status_code created_response) = true
  ∧ outcome (@SFAssistClient.ChatCompletion.create example_runtime
               (answering created_response) example_client (Plain (VStr "gpt"))
               [user_says "hello"] false)
    = inl (Exception "API Error Response: created")
  ∧ outcome (@SnowflakeCortexClient.ChatCompletion.create example_runtime
               (answering created_response) example_client (Plain (VStr "gpt"))
               [user_says "hello"] false)
    = inl (Exception " Error Response: created")
  ∧ is_2xx (status_code long_integer_error) = false
  ∧ outcome (@SFAssistClient.ChatCompletion.create example_runtime
               (answering long_integer_error) example_client (Plain (VStr "gpt"))
               [user_says "hello"] false)
    = inl ValueError
  ∧ outcome (@SnowflakeCortexClient.ChatCompletion.create example_runtime
               (answering long_integer_error) example_client (Plain (VStr "gpt"))
               [user_says "hello"] false)
    = inl ValueError.
Proof. by vm_compute. Qed.

(** What the two [except] clauses let through.  On a status other than 200
    only [json.JSONDecodeError] is caught: any other exception of the parse
    is raised as it is, where the 200 branch turns a [ValueError] into the
    plain text of the body. *)
Lemma create_parse_error_propagates `{Runtime} `{Backend} self model
    (messages : list msg_dict) stream response e :
  resp_json response = inl e →
  is_JSONDecodeError e = false →
  status_code response ≠ 200%Z ∨ is_ValueError e = false →
  (sfassist_answered self messages response →
   outcome (SFAssistClient.ChatCompletion.create self model messages stream) = inl e)
  ∧ (snowflake_answered self messages response →
     outcome (SnowflakeCortexClient.ChatCompletion.create self model messages stream)
     = inl e).
Proof.
  intros Hj Hdecode Hcase.
  assert (SFAssistClient.ChatCompletion.handle_response response stream = inl e
          ∧ SnowflakeCortexClient.ChatCompletion.handle_response response stream = inl e)
    as [Hsf Hsn].
  { destruct (decide (status_code response = 200%Z)) as [Hs|Hs].
    - destruct Hcase as [|Hvalue]; [done|].
      by rewrite (sfassist_handle_unparsed _ _ _ Hs Hj),
        (snowflake_handle_unparsed _ _ _ Hs Hj), Hvalue.
    - rewrite (sfassist_handle_error _ _ Hs), (snowflake_handle_error _ _ Hs).
      unfold error_raised. by rewrite Hj, Hdecode. }
  split.
  - intros (payload & Hp & Hpost).
    rewrite (sfassist_create_unfold _ _ _ _ _ Hp). simpl. by rewrite Hpost.
  - intros (payload & Hp & Hplain & Hpost).
    rewrite (snowflake_create_unfold _ _ _ _ _ Hp Hplain). simpl. by rewrite Hpost.
Qed.

(** C4, as amended: for a 200 response whose body parses to a JSON object
    with well-shaped nested fields, [create] takes the completion text by a
    fixed priority list in which the first matching field wins and nothing
    is merged: in the SF Assist client a text field, else a response field,
    else the nested message content of the first element of choices, else
    the content of a message field, else the stringified body; in the
    Snowflake client the same list without the message field. *)
Theorem create_field_priority `{Runtime} `{Backend} self model
    (messages : list msg_dict) response d :
  status_code response = 200%Z →
  resp_json response = inr (VDict d) →
  choices_shaped d →
  (∀ payload,
     SFAssistClient._build_payload self messages None = inr payload →
     post (request_for self payload) = inr response →
     message_shaped d →
     outcome (SFAssistClient.ChatCompletion.create self model messages true)
     = inr (Stream (iterate_stream SFAssistClient.ChatCompletion._simulate_streaming
                      (extract_by_priority sfassist_priority d)))
     ∧ (usage_shaped d →
        ∃ r, outcome (SFAssistClient.ChatCompletion.create self model messages false)
             = inr (Completion r)
           ∧ completion_text r = Some (extract_by_priority sfassist_priority d)
           ∧ usage r = usage_of d))
  ∧ (∀ payload,
       SnowflakeCortexClient._build_payload self messages None = inr payload →
       plain_client self →
       post (request_for self payload) = inr response →
       outcome (SnowflakeCortexClient.ChatCompletion.create self model messages true)
       = inr (Stream (iterate_stream SnowflakeCortexClient.ChatCompletion._simulate_streaming
                        (extract_by_priority snowflake_priority d)))
       ∧ (usage_shaped d →
          ∃ r, outcome (SnowflakeCortexClient.ChatCompletion.create self model messages false)
               = inr (Completion r)
             ∧ completion_text r = Some (extract_by_priority snowflake_priority d)
             ∧ usage r = usage_of d)).
Proof.
  intros Hs Hj Hc. split.
  - intros payload Hp Hpost Hm.
    rewrite !(sfassist_create_unfold _ _ _ _ _ Hp). simpl. rewrite Hpost. simpl.
    unfold SFAssistClient.ChatCompletion.handle_response. rewrite Hs, Hj. simpl.
    rewrite (sfassist_extract_content d Hc Hm). simpl. split; [done|].
    intros Hu. rewrite (read_usage_shaped d Hu). simpl. eexists. by split_and!.
  - intros payload Hp Hplain Hpost.
    rewrite !(snowflake_create_unfold _ _ _ _ _ Hp Hplain). simpl. rewrite Hpost. simpl.
    unfold SnowflakeCortexClient.ChatCompletion.handle_response. rewrite Hs, Hj. simpl.
    rewrite (snowflake_extract_content d Hc). simpl. split; [done|].
    intros Hu. rewrite (read_usage_shaped d Hu). simpl. eexists. by split_and!.
Qed.

Lemma create_field_priority_witness :
  (∃ r, outcome (@SFAssistClient.ChatCompletion.create example_runtime
                   (answering (json_response [("text", VStr "A"); ("response", VStr "B")]))
                   example_client (Plain (VStr "gpt")) [user_says "hello"] false)
        = inr (Completion r)
      ∧ completion_text r = Some (VStr "A"))
  ∧ (∃ r, outcome (@SnowflakeCortexClient.ChatCompletion.create example_runtime
                     (answering (json_response [("text", VStr "A"); ("response", VStr "B")]))
                     example_client (Plain (VStr "gpt")) [user_says "hello"] false)
          = inr (Completion r)
        ∧ completion_text r = Some (VStr "A")).
Proof.
  destruct (@create_field_priority example_runtime
              (answering (json_response [("text", VStr "A"); ("response", VStr "B")]))
              example_client (Plain (VStr "gpt")) [user_says "hello"]
              (json_response [("text", VStr "A"); ("response", VStr "B")])
              [("text", VStr "A"); ("response", VStr "B")] eq_refl eq_refl I)
    as [Hsf Hsn].
  split.
  - edestruct Hsf as (_ & r & E & Ht & _);
      [vm_compute; reflexivity|reflexivity|exact I|exact I|].
    exists r. by split.
  - edestruct Hsn as (_ & r & E & Ht & _);
      [vm_compute; reflexivity|reflexivity|reflexivity|exact I|].
    exists r. by split.
Defined.

(** The second scenario of the specification: a body with a response field
    only. *)
Example create_response_field :
  (∃ r, outcome (@SFAssistClient.ChatCompletion.create example_runtime
                   (answering (json_response [("response", VStr "hello")]))
                   example_client (Plain (VStr "gpt")) [user_says "hi"] false)
        = inr (Completion r)
      ∧ completion_text r = Some (VStr "hello"))
  ∧ (∃ r, outcome (@SnowflakeCortexClient.ChatCompletion.create example_runtime
                     (answering (json_response [("response", VStr "hello")]))
                     example_client (Plain (VStr "gpt")) [user_says "hi"] false)
          = inr (Completion r)
        ∧ completion_text r = Some (VStr "hello")).
Proof. split; eexists; (split; [by vm_compute|done]). Qed.

(** C4 as stated fails for the Snowflake client, whose list has no message
    field: a body with a message field only yields the stringified body. *)
Lemma snowflake_create_message_field_counterexample :
  ∃ r, outcome (@SnowflakeCortexClient.ChatCompletion.create example_runtime
                  (answering (json_response [("message", VDict [("content", VStr "hi")])]))
                  example_client (Plain (VStr "gpt")) [user_says "hello"] false)
       = inr (Completion r)
     ∧ completion_text r = Some (VStr "{'message': {'content': 'hi'}}")
     ∧ completion_text r ≠ Some (VStr "hi").
Proof. eexists. split; [by vm_compute|]. by split. Qed.

(** ** The payload builders on the object store *)

Section store.

Implicit Types (h : heap) (l : loc) (o : object).

Lemma fresh_lookup h : h !! fresh (dom h) = None.
Proof. apply not_elem_of_dom, is_fresh. Qed.

Lemma subseteq_lookup_None h0 h l : h0 ⊆ h → h !! l = None → h0 !! l = None.
Proof.
  intros Hsub Hl. destruct (h0 !! l) as [o|] eqn:E; [|done].
  by rewrite (lookup_weaken _ _ _ _ E Hsub) in Hl.
Qed.

Lemma alloc_inv h0 f h o :
  builder_inv h0 f h →
  ∃ l, alloc o h = Some (inr l, <[l:=o]> h)
       ∧ h !! l = None ∧ h0 !! l = None ∧ l ≠ f
       ∧ builder_inv h0 f (<[l:=o]> h).
Proof.
  intros (Hsub & Hf & items & Hitems & Hfresh).
  exists (fresh (dom h)). pose proof (fresh_lookup h) as Hl.
  assert (fresh (dom h) ≠ f) as Hne by (intros E; rewrite E in Hl; congruence).
  unfold builder_inv. split_and!; try done.
  - by apply (subseteq_lookup_None h0 h).
  - by apply insert_subseteq_r; [apply (subseteq_lookup_None h0 h)|].
  - exists items. by rewrite lookup_insert_ne.
Qed.

Lemma append_inv h0 f h x :
  builder_inv h0 f h → h0 !! x = None →
  ∃ items, h !! f = Some (OList items)
           ∧ append f x h = Some (inr tt, <[f:=OList (items ++ [x])]> h)
           ∧ builder_inv h0 f (<[f:=OList (items ++ [x])]> h).
Proof.
  intros (Hsub & Hf & items & Hitems & Hfresh) Hx.
  exists items. unfold append, builder_inv. rewrite Hitems. split_and!; try done.
  - by apply insert_subseteq_r.
  - exists (items ++ [x]). rewrite lookup_insert_eq. split; [done|].
    apply Forall_app. by split; [|repeat constructor].
Qed.

(** One turn of the loop keeps the invariant, whether it returns or
    raises. *)
Lemma loop_body_inv h0 f h msg sys_msg r h' :
  builder_inv h0 f h →
  loop_body msg sys_msg f h = Some (r, h') →
  builder_inv h0 f h'.
Proof.
  intros Hinv. unfold loop_body, hbind at 1, read_dict.
  destruct (h !! msg) as [[d|items]|]; try by intros [= <- <-].
  destruct (decide (d !! "role" = Some "system")).
  - destruct (is_set sys_msg); [by intros [= <- <-]|].
    unfold hbind, hlift, hret. destruct (getitem d "content"); by intros [= <- <-].
  - unfold hbind at 1, hlift.
    destruct (getitem d "role") as [|role]; [by intros [= <- <-]|].
    unfold hbind at 1.
    destruct (getitem d "content") as [|content]; [by intros [= <- <-]|].
    destruct (alloc_inv h0 f h (ODict (new_message role content)) Hinv)
      as (l & Ealloc & _ & Hl0 & _ & Hinv1).
    unfold hbind at 1. rewrite Ealloc.
    destruct (append_inv h0 f _ l Hinv1 Hl0) as (items & _ & Eapp & Hinv2).
    unfold hbind, hret. rewrite Eapp. by intros [= <- <-].
Qed.

Lemma loop_body_total h msg sys_msg f :
  ∃ r h', loop_body msg sys_msg f h = Some (r, h').
Proof.
  unfold loop_body, hbind, read_dict, hlift, hret, alloc, append.
  repeat (case_match; simplify_eq; eauto).
Qed.

Lemma for_messages_inv h0 f fuel messages i sys_msg h r h' :
  builder_inv h0 f h →
  for_messages fuel messages i sys_msg f h = Some (r, h') →
  builder_inv h0 f h'.
Proof.
  revert i sys_msg h. induction fuel as [|fuel IH]; intros i sys_msg h Hinv; [done|].
  simpl. unfold hbind at 1, read_list.
  destruct (h !! messages) as [[d|items]|]; try by intros [= <- <-].
  destruct (items !! i) as [msg|]; [|by intros [= <- <-]].
  unfold hbind.
  destruct (loop_body msg sys_msg f h) as [[[e|sys_msg'] h1]|] eqn:Ebody; [| |done].
  - intros [= <- <-]. by apply (loop_body_inv _ _ _ _ _ _ _ Hinv Ebody).
  - apply IH. by apply (loop_body_inv _ _ _ _ _ _ _ Hinv Ebody).
Qed.

(** The loop ends: a list object of the starting store is not written,
    so one more unit of fuel than it has items left is enough. *)
Lemma for_messages_total h0 f fuel messages items i sys_msg h :
  builder_inv h0 f h →
  h0 !! messages = Some (OList items) →
  (length items - i < fuel)%nat →
  ∃ r h', for_messages fuel messages i sys_msg f h = Some (r, h').
Proof.
  revert i sys_msg h.
  induction fuel as [|fuel IH]; intros i sys_msg h Hinv Hm Hfuel; [lia|].
  simpl. unfold hbind at 1, read_list.
  rewrite (lookup_weaken _ _ _ _ Hm (proj1 Hinv)).
  destruct (items !! i) as [msg|] eqn:Ei; [|by eauto].
  apply lookup_lt_Some in Ei. unfold hbind.
  destruct (loop_body_total h msg sys_msg f) as (r & h1 & Ebody). rewrite Ebody.
  destruct r as [e|sys_msg']; [by eauto|].
  apply IH; [by apply (loop_body_inv _ _ _ _ _ _ _ Hinv Ebody)|done|lia].
Qed.

End store.

Section store_builders.

Implicit Types (h : heap) (l : loc).

Lemma builder_inv_start h :
  builder_inv h (fresh (dom h)) (<[fresh (dom h):=OList []]> h).
Proof.
  pose proof (fresh_lookup h) as Hl. unfold builder_inv. split_and!; try done.
  - by apply insert_subseteq.
  - exists []. by rewrite lookup_insert_eq.
Qed.

Lemma read_list_inv h0 f h :
  builder_inv h0 f h →
  ∃ items, read_list f h = Some (inr items, h) ∧ Forall (λ x, h0 !! x = None) items.
Proof.
  intros (_ & _ & items & Hitems & Hfresh). exists items.
  unfold read_list. by rewrite Hitems.
Qed.

(** The truncation step: the list the builder goes on with is again one
    created since the start. *)
Lemma window_inv h0 f h window items :
  builder_inv h0 f h →
  h !! f = Some (OList items) →
  ∃ f' h',
    match window with
    | Some n =>
        if (n <? length items)%nat then alloc (OList (last_n n items)) else hret f
    | None => hret f
    end h = Some (inr f', h')
    ∧ builder_inv h0 f' h'
    ∧ h ⊆ h'
    ∧ h' !! f' = Some (OList (windowed window items)).
Proof.
  intros Hinv Hitems.
  assert (Forall (λ x, h0 !! x = None) items) as Hfresh.
  { destruct Hinv as (_ & _ & items' & Hitems' & Hfresh). congruence. }
  unfold windowed.
  destruct window as [n|]; [destruct (n <? length items)%nat|]; try by eauto 10.
  destruct (alloc_inv h0 f h (OList (last_n n items)) Hinv)
    as (l & -> & Hl & Hl0 & _ & (Hsub & _)).
  exists l, (<[l:=OList (last_n n items)]> h).
  unfold builder_inv. rewrite lookup_insert_eq. split_and!; try done.
  - eexists. split; [done|]. by apply Forall_drop.
  - by apply insert_subseteq.
Qed.

(** The builder on the store always ends, writes no object the store
    held before the call, and returns a list it has created, of dicts it
    has created. *)
Lemma build_messages_frame window fuel messages items system_message h :
  h !! messages = Some (OList items) →
  (length items < fuel)%nat →
  ∃ r h',
    build_messages window fuel messages system_message h = Some (r, h')
    ∧ h ⊆ h'
    ∧ ∀ sys_msg all_messages,
        r = inr (sys_msg, all_messages) →
        h !! all_messages = None
        ∧ ∃ out, h' !! all_messages = Some (OList out)
                 ∧ Forall (λ x, h !! x = None) out.
Proof.
  intros Hm Hfuel. unfold build_messages.
  pose proof (builder_inv_start h) as Hinv0.
  set (f := fresh (dom h)) in *. set (h1 := <[f:=OList []]> h) in *.
  unfold hbind at 1. change (alloc (OList []) h) with (Some (inr (A:=exn) f, h1)).
  destruct (for_messages_total h f fuel messages items 0 system_message h1 Hinv0 Hm)
    as (r & h2 & Eloop); [lia|].
  pose proof (for_messages_inv _ _ _ _ _ _ _ _ _ Hinv0 Eloop) as Hinv2.
  unfold hbind at 1. rewrite Eloop.
  destruct r as [e|sys_msg]; [exists (inl e), h2; split_and!; [done|apply Hinv2|done]|].
  destruct (read_list_inv h f h2 Hinv2) as (filtered & Eread & Hfresh).
  unfold hbind at 1. rewrite Eread.
  assert (h2 !! f = Some (OList filtered)) as Hf.
  { unfold read_list in Eread. by repeat (case_match; simplify_eq). }
  destruct (window_inv h f h2 window filtered Hinv2 Hf)
    as (f' & h3 & Ewin & Hinv3 & _ & Hf').
  unfold hbind at 1. rewrite Ewin.
  destruct (alloc_inv h f' h3 (ODict (new_message "system" (or_default sys_msg))) Hinv3)
    as (ls & Esys & _ & Hls & Hne4 & Hinv4).
  unfold hbind at 1. rewrite Esys.
  destruct (alloc_inv h f' _ (OList [ls]) Hinv4) as (sg & Esg & _ & Hsg & Hne5 & Hinv5).
  unfold hbind at 1. rewrite Esg.
  unfold hbind at 1, read_list at 1. rewrite lookup_insert_eq.
  destruct (read_list_inv h f' _ Hinv5) as (kept & Ekept & Hkept).
  unfold hbind at 1. rewrite Ekept.
  destruct (alloc_inv h f' _ (OList ([ls] ++ kept)) Hinv5)
    as (al & Eal & _ & Hal & _ & (Hsub & _)).
  unfold hbind, hret. rewrite Eal.
  eexists _, _. split; [done|]. split; [done|].
  intros s a [= <- <-]. split; [done|].
  eexists. rewrite lookup_insert_eq. split; [done|]. by constructor.
Qed.

End store_builders.

Section store_refinement.

Implicit Types (h : heap) (l : loc) (ds acc : list msg_dict).

Lemma scan_messages_step msg rest sys_msg acc :
  scan_messages (msg :: rest) sys_msg acc
  = let* st := scan_step msg sys_msg acc in scan_messages rest st.1 st.2.
Proof.
  simpl. unfold scan_step.
  destruct (decide (msg !! "role" = Some "system")).
  - destruct (is_set sys_msg); [done|]. by destruct (getitem msg "content").
  - destruct (getitem msg "role"); [done|]. by destruct (getitem msg "content").
Qed.

Lemma Forall2_dicts_weaken h h' (items : list loc) ds :
  h ⊆ h' →
  Forall2 (λ x d, h !! x = Some (ODict d)) items ds →
  Forall2 (λ x d, h' !! x = Some (ODict d)) items ds.
Proof.
  intros Hsub HF. eapply Forall2_impl; [exact HF|]. intros x d Hx.
  by apply (lookup_weaken _ _ _ _ Hx Hsub).
Qed.

(** One turn of the loop on the store does what one turn does on the
    values. *)
Lemma loop_body_refines h0 f h msg d sys_msg acc (acc_items : list loc) :
  builder_inv h0 f h →
  h !! msg = Some (ODict d) →
  h !! f = Some (OList acc_items) →
  Forall2 (λ x d, h !! x = Some (ODict d)) acc_items acc →
  ∃ h',
    loop_body msg sys_msg f h = Some (rmap fst (scan_step d sys_msg acc), h')
    ∧ ∀ st, scan_step d sys_msg acc = inr st →
            ∃ acc_items', h' !! f = Some (OList acc_items')
                          ∧ Forall2 (λ x d, h' !! x = Some (ODict d)) acc_items' st.2.
Proof.
  intros Hinv Hmsg Hf Hacc.
  unfold loop_body, scan_step, hbind at 1, read_dict. rewrite Hmsg.
  destruct (decide (d !! "role" = Some "system")).
  - destruct (is_set sys_msg).
    { exists h. split; [done|]. intros st [= <-]. eauto. }
    unfold hbind, hlift, hret.
    destruct (getitem d "content"); exists h; (split; [done|]); [done|].
    intros st [= <-]. eauto.
  - unfold hbind at 1, hlift.
    destruct (getitem d "role") as [|role]; [by exists h|].
    unfold hbind at 1.
    destruct (getitem d "content") as [|content]; [by exists h|].
    destruct (alloc_inv h0 f h (ODict (new_message role content)) Hinv)
      as (l & Ealloc & Hl & Hl0 & Hne & Hinv1).
    unfold hbind at 1. rewrite Ealloc.
    destruct (append_inv h0 f _ l Hinv1 Hl0) as (items & Hitems & Eapp & Hinv2).
    rewrite lookup_insert_ne in Hitems by done.
    assert (items = acc_items) as -> by congruence.
    unfold hbind, hret. rewrite Eapp. eexists. simpl. split; [done|].
    intros st [= <-]. simpl.
    eexists. rewrite lookup_insert_eq. split; [done|].
    apply Forall2_app.
    + eapply Forall2_impl; [exact Hacc|]. intros x dx Hx. simpl in Hx.
      rewrite lookup_insert_ne by congruence.
      by rewrite lookup_insert_ne by congruence.
    + repeat constructor. rewrite lookup_insert_ne by done.
      by rewrite lookup_insert_eq.
Qed.

Lemma for_messages_refines h0 f fuel messages items ds i sys_msg acc
    (acc_items : list loc) h :
  builder_inv h0 f h →
  h0 !! messages = Some (OList items) →
  Forall2 (λ x d, h0 !! x = Some (ODict d)) items ds →
  h !! f = Some (OList acc_items) →
  Forall2 (λ x d, h !! x = Some (ODict d)) acc_items acc →
  (length items - i < fuel)%nat →
  ∃ h',
    for_messages fuel messages i sys_msg f h
    = Some (rmap fst (scan_messages (drop i ds) sys_msg acc), h')
    ∧ ∀ st, scan_messages (drop i ds) sys_msg acc = inr st →
            ∃ acc_items', h' !! f = Some (OList acc_items')
                          ∧ Forall2 (λ x d, h' !! x = Some (ODict d)) acc_items' st.2.
Proof.
  intros Hinv Hm Hds. revert i sys_msg acc acc_items h Hinv.
  induction fuel as [|fuel IH]; intros i sys_msg acc acc_items h Hinv Hf Hacc Hfuel; [lia|].
  simpl. unfold hbind at 1, read_list.
  rewrite (lookup_weaken _ _ _ _ Hm (proj1 Hinv)).
  destruct (items !! i) as [msg|] eqn:Ei.
  - destruct (Forall2_lookup_l _ _ _ _ _ Hds Ei) as (d & Ed & Hmsg).
    rewrite (drop_S _ _ _ Ed), scan_messages_step.
    apply (λ H, lookup_weaken _ _ _ _ H (proj1 Hinv)) in Hmsg.
    destruct (loop_body_refines h0 f h msg d sys_msg acc acc_items Hinv Hmsg Hf Hacc)
      as (h1 & Ebody & Hstep).
    unfold hbind. rewrite Ebody.
    destruct (scan_step d sys_msg acc) as [e|st]; simpl.
    + by exists h1.
    + destruct (Hstep st eq_refl) as (acc_items' & Hf' & Hacc').
      apply lookup_lt_Some in Ei.
      apply (IH (S i) st.1 st.2 acc_items' h1); [|done|done|lia].
      by apply (loop_body_inv _ _ _ _ _ _ _ Hinv Ebody).
  - apply lookup_ge_None in Ei. rewrite (Forall2_length _ _ _ Hds) in Ei.
    rewrite drop_ge by done. simpl. exists h. unfold hret. split; [done|].
    intros st [= <-]. eauto.
Qed.

End store_refinement.

Section store_payload.

Implicit Types (h : heap) (l : loc) (ds acc : list msg_dict).

Lemma Forall2_windowed {A B} (P : A → B → Prop) window (l : list A) (k : list B) :
  Forall2 P l k → Forall2 P (windowed window l) (windowed window k).
Proof.
  intros HF. unfold windowed, last_n. destruct window as [n|]; [|done].
  rewrite <- (Forall2_length _ _ _ HF).
  destruct (n <? length l)%nat; [|done]. by apply Forall2_drop.
Qed.

(** The builder on the store computes what the builder on the values
    computes: the same exception, or the same system message and a new
    list object holding the message array. *)
Lemma build_messages_refines window fuel messages ds system_message h :
  holds_messages h messages ds →
  (length ds < fuel)%nat →
  ∃ r h',
    build_messages window fuel messages system_message h = Some (r, h')
    ∧ match scan_messages ds system_message [] with
      | inl e => r = inl e
      | inr st =>
          ∃ all_messages,
            r = inr (or_default st.1, all_messages)
            ∧ holds_messages h' all_messages
                (new_message "system" (or_default st.1) :: windowed window st.2)
      end.
Proof.
  intros (items & Hm & Hds) Hfuel. unfold build_messages.
  pose proof (builder_inv_start h) as Hinv0.
  set (f := fresh (dom h)) in *. set (h1 := <[f:=OList []]> h) in *.
  unfold hbind at 1. change (alloc (OList []) h) with (Some (inr (A:=exn) f, h1)).
  destruct (for_messages_refines h f fuel messages items ds 0 system_message [] [] h1
              Hinv0 Hm Hds) as (h2 & Eloop & Hstep).
  { unfold h1. by rewrite lookup_insert_eq. }
  { constructor. }
  { rewrite (Forall2_length _ _ _ Hds). lia. }
  pose proof (for_messages_inv _ _ _ _ _ _ _ _ _ Hinv0 Eloop) as Hinv2.
  rewrite drop_0 in Eloop, Hstep.
  unfold hbind at 1. rewrite Eloop.
  destruct (scan_messages ds system_message []) as [e|st]; cbn [rmap]; [by eauto|].
  destruct (Hstep st eq_refl) as (filtered & Hf & Hfiltered).
  unfold hbind at 1, read_list at 1. rewrite Hf.
  destruct (window_inv h f h2 window filtered Hinv2 Hf)
    as (f' & h3 & Ewin & Hinv3 & Hsub3 & Hf').
  unfold hbind at 1. rewrite Ewin.
  destruct (alloc_inv h f' h3 (ODict (new_message "system" (or_default st.1))) Hinv3)
    as (ls & Esys & Hls & _ & Hne4 & Hinv4).
  unfold hbind at 1. rewrite Esys.
  destruct (alloc_inv h f' _ (OList [ls]) Hinv4) as (sg & Esg & Hsg & _ & Hne5 & Hinv5).
  unfold hbind at 1. rewrite Esg.
  unfold hbind at 1, read_list at 1. rewrite lookup_insert_eq.
  unfold hbind at 1, read_list at 1.
  rewrite lookup_insert_ne by done. rewrite lookup_insert_ne by done. rewrite Hf'.
  destruct (alloc_inv h f' _ (OList ([ls] ++ windowed window filtered)) Hinv5)
    as (al & Eal & Hal & _ & _ & _).
  unfold hbind, hret. rewrite Eal.
  eexists _, _. split; [done|]. exists al. split; [done|].
  eexists. rewrite lookup_insert_eq. split; [done|].
  pose proof (insert_subseteq h3 ls (ODict (new_message "system" (or_default st.1))) Hls)
    as Hsub4.
  pose proof (insert_subseteq _ sg (OList [ls]) Hsg) as Hsub5.
  pose proof (insert_subseteq _ al (OList ([ls] ++ windowed window filtered)) Hal) as Hsub6.
  constructor.
  - apply (lookup_weaken _ _ _ _ (lookup_insert_eq h3 ls _)).
    by etrans; [exact Hsub5|].
  - apply (Forall2_dicts_weaken h2); [|by apply Forall2_windowed].
    etrans; [exact Hsub3|]. etrans; [exact Hsub4|]. by etrans; [exact Hsub5|].
Qed.

End store_payload.

(** C9: [_build_payload] writes none of its caller's objects.  Run on any
    store in which [messages] is a list of message dicts, either builder
    ends and leaves every object the store held before the call as it was,
    so the list and every dict in it; what it returns is what the builder
    on the values computes, held in a list object and in dicts that did not
    exist before the call: truncation and the removal of system messages
    touch the new payload only. *)
Theorem build_payload_keeps_inputs self (h : heap) (messages : loc)
    (ds : list msg_dict) system_message :
  holds_messages h messages ds →
  ∃ r_sf h_sf r_sn h_sn,
    sfassist_build_messages (S (length ds)) messages system_message h = Some (r_sf, h_sf)
    ∧ snowflake_build_messages (S (length ds)) messages system_message h = Some (r_sn, h_sn)
    ∧ (∀ l o, h !! l = Some o → h_sf !! l = Some o ∧ h_sn !! l = Some o)
    ∧ holds_messages h_sf messages ds
    ∧ holds_messages h_sn messages ds
    ∧ match SFAssistClient._build_payload self ds system_message with
      | inl e => r_sf = inl e
      | inr payload =>
          ∃ all_messages out,
            r_sf = inr (q_sys_msg (query payload), all_messages)
            ∧ holds_messages h_sf all_messages (wire_messages payload)
            ∧ h !! all_messages = None
            ∧ h_sf !! all_messages = Some (OList out)
            ∧ Forall (λ x, h !! x = None) out
      end
    ∧ match SnowflakeCortexClient._build_payload self ds system_message with
      | inl e => r_sn = inl e
      | inr payload =>
          ∃ all_messages out,
            r_sn = inr (q_sys_msg (query payload), all_messages)
            ∧ holds_messages h_sn all_messages (wire_messages payload)
            ∧ h !! all_messages = None
            ∧ h_sn !! all_messages = Some (OList out)
            ∧ Forall (λ x, h !! x = None) out
      end.
Proof.
  intros Hm. pose proof Hm as (items & Hitems & Hds).
  assert (length items < S (length ds))%nat as Hfuel
    by (rewrite (Forall2_length _ _ _ Hds); lia).
  assert (∀ window,
            ∃ r h',
              build_messages window (S (length ds)) messages system_message h = Some (r, h')
              ∧ h ⊆ h'
              ∧ holds_messages h' messages ds
              ∧ match scan_messages ds system_message [] with
                | inl e => r = inl e
                | inr st =>
                    ∃ all_messages out,
                      r = inr (or_default st.1, all_messages)
                      ∧ holds_messages h' all_messages
                          (new_message "system" (or_default st.1) :: windowed window st.2)
                      ∧ h !! all_messages = None
                      ∧ h' !! all_messages = Some (OList out)
                      ∧ Forall (λ x, h !! x = None) out
                end) as Hrun.
  { intros window.
    destruct (build_messages_frame window _ messages items system_message h Hitems Hfuel)
      as (r & h' & Erun & Hsub & Hfresh).
    destruct (build_messages_refines window (S (length ds)) messages ds system_message h Hm)
      as (r' & h'' & Erun' & Href); [lia|].
    rewrite Erun in Erun'. injection Erun' as <- <-.
    exists r, h'. split_and!; try done.
    - exists items. split; [by apply (lookup_weaken _ _ _ _ Hitems Hsub)|].
      by apply (Forall2_dicts_weaken h).
    - destruct (scan_messages ds system_message []) as [e|st]; [done|].
      destruct Href as (al & -> & Hal).
      destruct (Hfresh _ _ eq_refl) as (Hnew & out & Hout & Hall).
      by exists al, out. }
  destruct (Hrun None) as (r_sf & h_sf & E1 & Hsub1 & Hm1 & Hres1).
  destruct (Hrun (Some 10%nat)) as (r_sn & h_sn & E2 & Hsub2 & Hm2 & Hres2).
  exists r_sf, h_sf, r_sn, h_sn. split_and!; try done.
  - intros l o Hl. split; by eapply lookup_weaken.
  - unfold SFAssistClient._build_payload.
    by destruct (scan_messages ds system_message []).
  - unfold SnowflakeCortexClient._build_payload.
    by destruct (scan_messages ds system_message []).
Qed.

Lemma build_payload_keeps_inputs_witness :
  ∃ r_sn h_sn all_messages,
    snowflake_build_messages 4 3%positive None example_heap = Some (r_sn, h_sn)
    ∧ (∀ l o, example_heap !! l = Some o → h_sn !! l = Some o)
    ∧ r_sn = inr ("Be brief.", all_messages)
    ∧ holds_messages h_sn all_messages
        [new_message "system" "Be brief."; user_says "hello"; user_says "hello"].
Proof.
  destruct (build_payload_keeps_inputs example_client example_heap 3%positive
              [new_message "system" "Be brief."; user_says "hello"; user_says "hello"] None)
    as (r_sf & h_sf & r_sn & h_sn & _ & E & Hframe & _ & _ & _ & Hres).
  - eexists. split; [reflexivity|]. by repeat constructor.
  - destruct Hres as (al & out & -> & Hal & _).
    eexists _, h_sn, al. split; [exact E|]. split_and!.
    + intros l o Hl. by apply Hframe.
    + reflexivity.
    + exact Hal.
Defined.

(** ** Client construction *)

Section construction.

(** Stripping leaves no trailing separator. *)
Lemma rstrip_no_trailing c s : ends_with c (rstrip c s) = false.
Proof.
  induction s as [|a s IH]; [done|]. simpl.
  destruct (rstrip c s) as [|b t] eqn:E.
  - destruct (Ascii.eqb a c) eqn:Ea; [done|]. simpl. exact Ea.
  - exact IH.
Qed.

Lemma from_dict_missing d default_model :
  assoc "base_url" d = None →
  from_dict (VDict d) default_model
  = inr (mkClient (Plain (default VNone (assoc "api_key" d))) EmptyString
           (Plain (default (VStr default_model) (assoc "model" d)))
           (Plain (default (VStr "edadip") (assoc "app_id" d)))
           (Plain (default (VStr "edagnai") (assoc "aplctn_cd" d)))).
Proof.
  intros Hu. unfold from_dict. simpl. rewrite Hu. simpl.
  by repeat case_match.
Qed.

End construction.

(** C7, as amended: construction does not check credentials or endpoint and
    knows no configuration error.  From a configuration dict without a
    vendor section and without a base URL, and from individual parameters
    without a base URL, both constructors return a client: its API key is
    the one given, [None] when there is none, and its base URL is the empty
    string. *)
Theorem init_accepts_missing_credentials (d : list (string * pyval)) (key : pyval)
    url name :
  assoc "base_url" d = None →
  has_key "sfassist" d = false →
  has_key "snowflake" d = false →
  (∀ d', key ≠ VDict d') →
  (∃ c, SFAssistClient.__init__ (Plain (VDict d)) url name = inr c
        ∧ api_key c = Plain (default VNone (assoc "api_key" d))
        ∧ base_url c = EmptyString)
  ∧ (∃ c, SnowflakeCortexClient.__init__ (Plain (VDict d)) url name = inr c
          ∧ api_key c = Plain (default VNone (assoc "api_key" d))
          ∧ base_url c = EmptyString)
  ∧ (∃ c, SFAssistClient.__init__ (Plain key) (Plain VNone) name = inr c
          ∧ api_key c = Plain key
          ∧ base_url c = EmptyString)
  ∧ (∃ c, SnowflakeCortexClient.__init__ (Plain key) (Plain VNone) name = inr c
          ∧ api_key c = Plain key
          ∧ base_url c = EmptyString).
Proof.
  intros Hu Hsf Hsn Hkey.
  unfold SFAssistClient.__init__, SnowflakeCortexClient.__init__.
  rewrite Hsf, Hsn, !(from_dict_missing d _ Hu).
  split_and!; try by eexists.
  - destruct key; try by eexists. by destruct (Hkey d0).
  - destruct key; try by eexists. by destruct (Hkey d0).
Qed.

Lemma init_accepts_missing_credentials_witness :
  (∃ c, SFAssistClient.__init__ (Plain (VDict [("model", VStr "claude-4-sonnet")]))
          (Plain VNone) (Plain VNone) = inr c
        ∧ api_key c = Plain VNone
        ∧ base_url c = EmptyString)
  ∧ (∃ c, SnowflakeCortexClient.__init__ (Plain (VStr "secret")) (Plain VNone) (Plain VNone)
          = inr c
          ∧ api_key c = Plain (VStr "secret")
          ∧ base_url c = EmptyString).
Proof.
  destruct (init_accepts_missing_credentials [("model", VStr "claude-4-sonnet")]
              (VStr "secret") (Plain VNone) (Plain VNone))
    as (Hsf & _ & _ & Hsn); try done.
Defined.

(** C7 as stated fails: constructed with no API key and no base URL, either
    client is returned, with [None] for the key and an empty base URL. *)
Lemma init_without_credentials_counterexample :
  SFAssistClient.__init__ (Plain VNone) (Plain VNone) (Plain VNone)
  = inr (mkClient (Plain VNone) EmptyString (Plain (VStr "claude-4-sonnet"))
           (Plain (VStr "edadip")) (Plain (VStr "edagnai")))
  ∧ SnowflakeCortexClient.__init__ (Plain VNone) (Plain VNone) (Plain VNone)
    = inr (mkClient (Plain VNone) EmptyString (Plain (VStr "llama3.1-70b"))
             (Plain (VStr "edadip")) (Plain (VStr "edagnai")))
  ∧ SFAssistClient.__init__ (Plain (VDict [])) (Plain VNone) (Plain VNone)
    = inr (mkClient (Plain VNone) EmptyString (Plain (VStr "claude-4-sonnet"))
             (Plain (VStr "edadip")) (Plain (VStr "edagnai"))).
Proof. done. Qed.

(** ** Bodies and clients outside the stated shapes *)

(** A 200 body that parses to a JSON number is not a container: the first
    membership test raises [TypeError], which [create] does not catch. *)
Example create_number_body :
  outcome (@SFAssistClient.ChatCompletion.create example_runtime
             (answering (mkResponse 200 "5" (inr (VInt 5))))
             example_client (Plain (VStr "gpt")) [user_says "hello"] false)
  = inl TypeError.
Proof. by vm_compute. Qed.

(** A message without a content makes the builder raise [KeyError] before
    any request is posted. *)
Example create_message_without_content :
  @SFAssistClient.ChatCompletion.create example_runtime (answering plain_text_reply)
    example_client (Plain (VStr "gpt")) [{[ "role" := "user" ]}] false
  = mkCall [] (inl (KeyError "content")).
Proof. by vm_compute. Qed.

(** A Snowflake client holding an instance as its key fails on the debug
    line of [_make_request], before the request. *)
Example snowflake_create_instance_key :
  @SnowflakeCortexClient.ChatCompletion.create example_runtime (answering plain_text_reply)
    (mkClient (Instance []) "https://gateway.example/api" (Plain (VStr "llama3.1-70b"))
       (Plain (VStr "edadip")) (Plain (VStr "edagnai")))
    (Plain (VStr "gpt")) [user_says "hello"] false
  = mkCall [] (inl TypeError).
Proof. by vm_compute. Qed.

(** * Further properties *)

(** ** Construction *)

Section construction_more.

Lemma rstrip_decompose c s : ∃ k, s = rstrip c s +:+ repeat_char c k.
Proof.
  induction s as [|a s [k IH]]; [by exists 0%nat|]. simpl.
  destruct (rstrip c s) as [|b t] eqn:E.
  - destruct (Ascii.eqb_spec a c) as [->|Hne].
    + exists (S k). simpl in *. by rewrite IH at 1.
    + exists k. rewrite IH at 1. done.
  - exists k. rewrite IH at 1. done.
Qed.

Lemma py_rstrip_stripped o u : py_rstrip o = inr u → ends_with slash u = false.
Proof.
  destruct o as [v|attrs]; simpl.
  - destruct v; try done. intros [= <-]. apply rstrip_no_trailing.
  - unfold call_on_instance. by case_match.
Qed.

Lemma from_dict_stripped v m c : from_dict v m = inr c → ends_with slash (base_url c) = false.
Proof.
  unfold from_dict. destruct v; try done. cbn [py_get bind ret].
  match goal with |- context [py_rstrip ?x] => destruct (py_rstrip x) as [|u] eqn:E end;
    [done|].
  cbn [bind ret]. intros [= <-]. simpl. by apply (py_rstrip_stripped _ _ E).
Qed.

Lemma from_attrs_stripped o m c :
  from_attrs o m = inr c → ends_with slash (base_url c) = false.
Proof.
  unfold from_attrs.
  match goal with |- context [py_rstrip ?x] => destruct (py_rstrip x) as [|u] eqn:E end;
    [done|].
  cbn [bind ret]. intros [= <-]. simpl. by apply (py_rstrip_stripped _ _ E).
Qed.

Lemma from_parameters_stripped k url name m c :
  from_parameters k url name m = inr c → ends_with slash (base_url c) = false.
Proof.
  unfold from_parameters. destruct (truthy url).
  - destruct (py_rstrip url) as [|u] eqn:E; [done|]. simpl. intros [= <-]. simpl.
    by apply (py_rstrip_stripped _ _ E).
  - simpl. by intros [= <-].
Qed.

End construction_more.

(** X1: whatever the configuration, a client that either constructor
    returns has a base URL without a trailing separator. *)
Theorem init_base_url_no_trailing_slash config url name c :
  SFAssistClient.__init__ config url name = inr c
  ∨ SnowflakeCortexClient.__init__ config url name = inr c →
  ends_with slash (base_url c) = false.
Proof.
  unfold SFAssistClient.__init__, SnowflakeCortexClient.__init__.
  unfold py_getitem, bind, raise, ret.
  intros [E|E]; revert E;
    repeat case_match; try done;
    eauto using from_dict_stripped, from_attrs_stripped, from_parameters_stripped.
Qed.

Lemma init_base_url_no_trailing_slash_witness :
  ∃ c, SFAssistClient.__init__ (Plain (VStr "secret")) (Plain (VStr "https://host/api//"))
         (Plain VNone) = inr c
       ∧ base_url c = "https://host/api"
       ∧ ends_with slash (base_url c) = false.
Proof.
  eexists. split; [reflexivity|]. split; [reflexivity|].
  apply (init_base_url_no_trailing_slash (Plain (VStr "secret"))
           (Plain (VStr "https://host/api//")) (Plain VNone)).
  by left.
Defined.

Section construction_forms.

Lemma from_dict_str_url d u default_model :
  assoc "base_url" d = Some (VStr u) →
  from_dict (VDict d) default_model
  = inr (mkClient (Plain (default VNone (assoc "api_key" d))) (rstrip slash u)
           (Plain (default (VStr default_model) (assoc "model" d)))
           (Plain (default (VStr "edadip") (assoc "app_id" d)))
           (Plain (default (VStr "edagnai") (assoc "aplctn_cd" d)))).
Proof.
  intros Hu. unfold from_dict. simpl. rewrite Hu. simpl. by repeat case_match.
Qed.

Lemma from_dict_bad_url d v default_model :
  assoc "base_url" d = Some v → not_str v →
  from_dict (VDict d) default_model = inl AttributeError.
Proof.
  intros Hu Hv. unfold from_dict. simpl. rewrite Hu. simpl.
  destruct v; try done. by destruct (Hv s).
Qed.

Lemma from_dict_not_dict v default_model :
  not_dict v → from_dict v default_model = inl AttributeError.
Proof. intros Hv. destruct v; try done. by destruct (Hv d). Qed.

End construction_forms.

(** X2: stripping removes trailing separators and nothing else.  From a
    configuration dict without a vendor section whose base URL is the
    string [u], and from individual parameters with that base URL, both
    constructors return a client whose base URL is [u] without its trailing
    run of ['/']. *)
Theorem init_base_url_strips_only_slashes (d : list (string * pyval)) (key : pyval)
    u url name :
  has_key "sfassist" d = false →
  has_key "snowflake" d = false →
  assoc "base_url" d = Some (VStr u) →
  not_dict key →
  ∃ c1 c2 c3 c4 k,
    SFAssistClient.__init__ (Plain (VDict d)) url name = inr c1
    ∧ SnowflakeCortexClient.__init__ (Plain (VDict d)) url name = inr c2
    ∧ SFAssistClient.__init__ (Plain key) (Plain (VStr u)) name = inr c3
    ∧ SnowflakeCortexClient.__init__ (Plain key) (Plain (VStr u)) name = inr c4
    ∧ base_url c1 = base_url c2
    ∧ base_url c2 = base_url c3
    ∧ base_url c3 = base_url c4
    ∧ u = base_url c1 +:+ repeat_char slash k
    ∧ ends_with slash (base_url c1) = false.
Proof.
  intros Hsf Hsn Hu Hkey. destruct (rstrip_decompose slash u) as [k Hk].
  unfold SFAssistClient.__init__, SnowflakeCortexClient.__init__.
  rewrite Hsf, Hsn, !(from_dict_str_url d u _ Hu).
  assert (∀ m, from_parameters (Plain key) (Plain (VStr u)) name m
               = inr (mkClient (Plain key) (rstrip slash u)
                        (if truthy name then name else Plain (VStr m))
                        (Plain (VStr "edadip")) (Plain (VStr "edagnai")))) as Hp.
  { intros m. unfold from_parameters. simpl. by destruct u. }
  destruct key; try (by destruct (Hkey d0)); simpl; rewrite !Hp;
    eexists _, _, _, _, k; simpl;
    (split_and!; [done..|exact Hk|apply rstrip_no_trailing]).
Qed.

Lemma init_base_url_strips_only_slashes_witness :
  ∃ c, SnowflakeCortexClient.__init__
         (Plain (VDict [("api_key", VStr "secret"); ("base_url", VStr "https://host/v1///")]))
         (Plain VNone) (Plain VNone) = inr c
       ∧ "https://host/v1///" = base_url c +:+ repeat_char slash 3.
Proof.
  destruct (init_base_url_strips_only_slashes
              [("api_key", VStr "secret"); ("base_url", VStr "https://host/v1///")]
              VNone "https://host/v1///" (Plain VNone) (Plain VNone))
    as (c1 & c2 & _ & _ & k & _ & E & _); [done|done|done|by intros ?|].
  exists c2. split; [exact E|]. injection E as <-. reflexivity.
Defined.

(** X3: the one failure of construction.  A base URL that is present and
    not a string, or a vendor section that is not a dict, makes the
    constructor raise [AttributeError]; so does a base URL parameter that
    is truthy and not a string. *)
Theorem init_raises_on_ill_typed_config (d : list (string * pyval)) (key v w : pyval)
    url name :
  not_str v →
  not_dict w →
  not_dict key →
  (has_key "sfassist" d = false → assoc "base_url" d = Some v →
   SFAssistClient.__init__ (Plain (VDict d)) url name = inl AttributeError)
  ∧ (has_key "snowflake" d = false → assoc "base_url" d = Some v →
     SnowflakeCortexClient.__init__ (Plain (VDict d)) url name = inl AttributeError)
  ∧ (assoc "sfassist" d = Some w →
     SFAssistClient.__init__ (Plain (VDict d)) url name = inl AttributeError)
  ∧ (assoc "snowflake" d = Some w →
     SnowflakeCortexClient.__init__ (Plain (VDict d)) url name = inl AttributeError)
  ∧ (truthy (Plain v) = true →
     SFAssistClient.__init__ (Plain key) (Plain v) name = inl AttributeError
     ∧ SnowflakeCortexClient.__init__ (Plain key) (Plain v) name = inl AttributeError).
Proof.
  intros Hv Hw Hkey.
  unfold SFAssistClient.__init__, SnowflakeCortexClient.__init__.
  split_and!.
  - intros -> Hu. by apply from_dict_bad_url with v.
  - intros -> Hu. by apply from_dict_bad_url with v.
  - intros Hs. unfold has_key, py_getitem. rewrite Hs. simpl. by apply from_dict_not_dict.
  - intros Hs. unfold has_key, py_getitem. rewrite Hs. simpl. by apply from_dict_not_dict.
  - intros Ht.
    assert (∀ m, from_parameters (Plain key) (Plain v) name m = inl AttributeError) as Hp.
    { intros m. unfold from_parameters. rewrite Ht.
      destruct v; try done. by destruct (Hv s). }
    destruct key; try (by destruct (Hkey d0)); simpl; by rewrite !Hp.
Qed.

Lemma init_raises_on_ill_typed_config_witness :
  SFAssistClient.__init__ (Plain (VDict [("api_key", VStr "secret"); ("base_url", VNone)]))
    (Plain VNone) (Plain VNone) = inl AttributeError
  ∧ SnowflakeCortexClient.__init__ (Plain (VDict [("snowflake", VStr "prod")]))
      (Plain VNone) (Plain VNone) = inl AttributeError
  ∧ SFAssistClient.__init__ (Plain (VStr "secret")) (Plain (VInt 8080)) (Plain VNone)
    = inl AttributeError.
Proof.
  destruct (init_raises_on_ill_typed_config
              [("api_key", VStr "secret"); ("base_url", VNone)]
              (VStr "secret") VNone (VStr "prod") (Plain VNone) (Plain VNone))
    as (H1 & _); [by intros ?..|].
  destruct (init_raises_on_ill_typed_config
              [("snowflake", VStr "prod")]
              (VStr "secret") (VInt 8080) (VStr "prod") (Plain VNone) (Plain VNone))
    as (_ & _ & _ & H4 & H5); [by intros ?..|].
  split_and!; [by apply H1|by apply H4|by apply H5].
Defined.

(** X4: with a configuration dict or a configuration object, the
    [base_url] and [model] arguments are ignored; and when the dict holds
    the vendor section, the client is read from the section alone, so two
    dicts with the same section give the same client. *)
Theorem init_ignores_arguments_with_config (config : pyobj) (d d' : list (string * pyval))
    (sec : pyval) url name url' name' :
  ((∃ c, config = Plain (VDict c)) ∨ hasattr config "api_key" = true →
   SFAssistClient.__init__ config url name = SFAssistClient.__init__ config url' name'
   ∧ SnowflakeCortexClient.__init__ config url name
     = SnowflakeCortexClient.__init__ config url' name')
  ∧ (assoc "sfassist" d = Some sec → assoc "sfassist" d' = Some sec →
     SFAssistClient.__init__ (Plain (VDict d)) url name
     = SFAssistClient.__init__ (Plain (VDict d')) url' name')
  ∧ (assoc "snowflake" d = Some sec → assoc "snowflake" d' = Some sec →
     SnowflakeCortexClient.__init__ (Plain (VDict d)) url name
     = SnowflakeCortexClient.__init__ (Plain (VDict d')) url' name').
Proof.
  unfold SFAssistClient.__init__, SnowflakeCortexClient.__init__.
  split_and!.
  - intros [[c ->]|Hk]; [done|].
    rewrite Hk. simpl. by destruct config as [[]|].
  - intros H1 H2. unfold has_key, py_getitem. by rewrite H1, H2.
  - intros H1 H2. unfold has_key, py_getitem. by rewrite H1, H2.
Qed.

Lemma init_ignores_arguments_with_config_witness :
  SFAssistClient.__init__
    (Plain (VDict [("api_key", VStr "root"); ("sfassist", VDict [("api_key", VStr "secret")])]))
    (Plain (VStr "https://ignored/")) (Plain (VStr "ignored"))
  = SFAssistClient.__init__ (Plain (VDict [("sfassist", VDict [("api_key", VStr "secret")])]))
      (Plain VNone) (Plain VNone)
  ∧ SFAssistClient.__init__ (Plain (VDict [("sfassist", VDict [("api_key", VStr "secret")])]))
      (Plain VNone) (Plain VNone)
    = inr (mkClient (Plain (VStr "secret")) EmptyString (Plain (VStr "claude-4-sonnet"))
             (Plain (VStr "edadip")) (Plain (VStr "edagnai"))).
Proof.
  destruct (init_ignores_arguments_with_config (Plain VNone)
              [("api_key", VStr "root"); ("sfassist", VDict [("api_key", VStr "secret")])]
              [("sfassist", VDict [("api_key", VStr "secret")])]
              (VDict [("api_key", VStr "secret")])
              (Plain (VStr "https://ignored/")) (Plain (VStr "ignored"))
              (Plain VNone) (Plain VNone)) as (_ & H & _).
  split; [by apply H|done].
Defined.

(** X5: the model a client gets when the configuration names none.  The
    SF Assist constructor falls back to claude-4-sonnet on each of its five
    paths: section of a dict, dict without section, section of an object,
    object without section, individual parameters.  The Snowflake
    constructor falls back to snowflake-llama-3.3-70b on the section of a
    dict only, and to llama3.1-70b on its four other paths.  The factory
    functions have defaults of their own: called without a model,
    [create_sfassist_client] gives claude-4-sonnet and
    [create_snowflake_client] gives snowflake-llama-3.3-70b, and called
    with a falsy model they give what the constructor falls back to. *)
Theorem init_default_model (d s : list (string * pyval)) (key : pyval)
    (config url name : pyobj) c :
  (assoc "sfassist" d = Some (VDict s) → assoc "model" s = None →
   SFAssistClient.__init__ (Plain (VDict d)) url name = inr c →
   model c = Plain (VStr "claude-4-sonnet"))
  ∧ (has_key "sfassist" d = false → assoc "model" d = None →
     SFAssistClient.__init__ (Plain (VDict d)) url name = inr c →
     model c = Plain (VStr "claude-4-sonnet"))
  ∧ (hasattr config "sfassist" = true →
     hasattr (getattr config "sfassist" (Plain VNone)) "model" = false →
     SFAssistClient.__init__ config url name = inr c →
     model c = Plain (VStr "claude-4-sonnet"))
  ∧ (hasattr config "api_key" = true → hasattr config "sfassist" = false →
     hasattr config "model" = false →
     SFAssistClient.__init__ config url name = inr c →
     model c = Plain (VStr "claude-4-sonnet"))
  ∧ (not_dict key → truthy name = false →
     SFAssistClient.__init__ (Plain key) url name = inr c →
     model c = Plain (VStr "claude-4-sonnet"))
  ∧ (not_dict key →
     SFAssistClient.create_sfassist_client (Plain key) url None = inr c →
     model c = Plain (VStr "claude-4-sonnet"))
  ∧ (not_dict key → truthy name = false →
     SFAssistClient.create_sfassist_client (Plain key) url (Some name) = inr c →
     model c = Plain (VStr "claude-4-sonnet"))
  ∧ (assoc "snowflake" d = Some (VDict s) → assoc "model" s = None →
     SnowflakeCortexClient.__init__ (Plain (VDict d)) url name = inr c →
     model c = Plain (VStr "snowflake-llama-3.3-70b"))
  ∧ (has_key "snowflake" d = false → assoc "model" d = None →
     SnowflakeCortexClient.__init__ (Plain (VDict d)) url name = inr c →
     model c = Plain (VStr "llama3.1-70b"))
  ∧ (hasattr config "snowflake" = true →
     hasattr (getattr config "snowflake" (Plain VNone)) "model" = false →
     SnowflakeCortexClient.__init__ config url name = inr c →
     model c = Plain (VStr "llama3.1-70b"))
  ∧ (hasattr config "api_key" = true → hasattr config "snowflake" = false →
     hasattr config "model" = false →
     SnowflakeCortexClient.__init__ config url name = inr c →
     model c = Plain (VStr "llama3.1-70b"))
  ∧ (not_dict key → truthy name = false →
     SnowflakeCortexClient.__init__ (Plain key) url name = inr c →
     model c = Plain (VStr "llama3.1-70b"))
  ∧ (not_dict key →
     SnowflakeCortexClient.create_snowflake_client (Plain key) url None = inr c →
     model c = Plain (VStr "snowflake-llama-3.3-70b"))
  ∧ (not_dict key → truthy name = false →
     SnowflakeCortexClient.create_snowflake_client (Plain key) url (Some name) = inr c →
     model c = Plain (VStr "llama3.1-70b")).
Proof.
  assert (∀ x m, assoc "model" x = None → from_dict (VDict x) m = inr c →
                 model c = Plain (VStr m)) as Hd.
  { intros x m Hm. unfold from_dict. cbn [py_get bind ret].
    match goal with |- context [py_rstrip ?y] => destruct (py_rstrip y) end; [done|].
    cbn [bind ret]. rewrite Hm. by intros [= <-]. }
  assert (∀ o m, hasattr o "model" = false → from_attrs o m = inr c →
                 model c = Plain (VStr m)) as Ha.
  { intros o m Hm. unfold from_attrs.
    match goal with |- context [py_rstrip ?y] => destruct (py_rstrip y) end; [done|].
    cbn [bind ret]. intros [= <-]. cbn [model].
    destruct o as [v|attrs]; [done|]. unfold hasattr, has_key in Hm. simpl.
    by destruct (assoc "model" attrs). }
  assert (∀ given m, not_dict key → truthy given = false →
               from_parameters (Plain key) url given m = inr c →
               model c = Plain (VStr m)) as Hp.
  { intros given m _ Hn. unfold from_parameters. rewrite Hn.
    destruct (if truthy url then py_rstrip url else ret EmptyString); [done|].
    by intros [= <-]. }
  assert (∀ m m', m ≠ EmptyString → not_dict key →
               from_parameters (Plain key) url (Plain (VStr m)) m' = inr c →
               model c = Plain (VStr m)) as Hf.
  { intros m m' Hm _. unfold from_parameters.
    destruct (if truthy url then py_rstrip url else ret EmptyString); [done|].
    cbn [bind ret truthy]. destruct (String.eqb_spec m EmptyString); [done|].
    by intros [= <-]. }
  assert (∀ section, hasattr config section = true →
            ∃ attrs, config = Instance attrs) as Hobject.
  { intros section. destruct config as [v|attrs]; [done|]. by exists attrs. }
  unfold SFAssistClient.create_sfassist_client,
    SnowflakeCortexClient.create_snowflake_client,
    SFAssistClient.__init__, SnowflakeCortexClient.__init__.
  split_and!.
  - intros Hs Hm. unfold has_key, py_getitem. rewrite Hs. simpl. by apply Hd.
  - intros -> Hm. by apply Hd.
  - intros Hs Hm. destruct (Hobject _ Hs) as [attrs ->]. rewrite Hs, orb_true_r.
    by apply Ha.
  - intros Hk Hs Hm. destruct (Hobject _ Hk) as [attrs ->]. rewrite Hk, Hs.
    by apply Ha.
  - intros Hk Hn. destruct key; try (by destruct (Hk d0)); by apply Hp.
  - intros Hk. destruct key; try (by destruct (Hk d0)); by apply Hf.
  - intros Hk Hn. destruct key; try (by destruct (Hk d0)); by apply Hp.
  - intros Hs Hm. unfold has_key, py_getitem. rewrite Hs. simpl. by apply Hd.
  - intros -> Hm. by apply Hd.
  - intros Hs Hm. destruct (Hobject _ Hs) as [attrs ->]. rewrite Hs, orb_true_r.
    by apply Ha.
  - intros Hk Hs Hm. destruct (Hobject _ Hk) as [attrs ->]. rewrite Hk, Hs.
    by apply Ha.
  - intros Hk Hn. destruct key; try (by destruct (Hk d0)); by apply Hp.
  - intros Hk. destruct key; try (by destruct (Hk d0)); by apply Hf.
  - intros Hk Hn. destruct key; try (by destruct (Hk d0)); by apply Hp.
Qed.

Lemma init_default_model_witness :
  ∃ c1 c2 c3 c4,
    SnowflakeCortexClient.__init__
      (Plain (VDict [("snowflake", VDict [("api_key", VStr "secret")])]))
      (Plain VNone) (Plain VNone) = inr c1
    ∧ model c1 = Plain (VStr "snowflake-llama-3.3-70b")
    ∧ SnowflakeCortexClient.__init__ (Plain (VDict [("api_key", VStr "secret")]))
        (Plain VNone) (Plain VNone) = inr c2
    ∧ model c2 = Plain (VStr "llama3.1-70b")
    ∧ SnowflakeCortexClient.__init__
        (Instance [("snowflake", Instance [("api_key", Plain (VStr "secret"))])])
        (Plain VNone) (Plain VNone) = inr c3
    ∧ model c3 = Plain (VStr "llama3.1-70b")
    ∧ SnowflakeCortexClient.create_snowflake_client (Plain (VStr "secret"))
        (Plain (VStr "https://gateway.example/api/")) None = inr c4
    ∧ model c4 = Plain (VStr "snowflake-llama-3.3-70b").
Proof.
  eexists _, _, _, _. split; [reflexivity|]. split.
  { match goal with
    | |- model ?c = _ =>
        destruct (init_default_model [("snowflake", VDict [("api_key", VStr "secret")])]
                    [("api_key", VStr "secret")] VNone (Plain VNone) (Plain VNone)
                    (Plain VNone) c)
          as (_ & _ & _ & _ & _ & _ & _ & H & _)
    end.
    by apply H. }
  split; [reflexivity|]. split.
  { match goal with
    | |- model ?c = _ =>
        destruct (init_default_model [("api_key", VStr "secret")] [] VNone
                    (Plain VNone) (Plain VNone) (Plain VNone) c)
          as (_ & _ & _ & _ & _ & _ & _ & _ & H & _)
    end.
    by apply H. }
  split; [reflexivity|]. split.
  { match goal with
    | |- model ?c = _ =>
        destruct (init_default_model [] [] VNone
                    (Instance [("snowflake", Instance [("api_key", Plain (VStr "secret"))])])
                    (Plain VNone) (Plain VNone) c)
          as (_ & _ & _ & _ & _ & _ & _ & _ & _ & H & _)
    end.
    by apply H. }
  split; [reflexivity|].
  match goal with
  | |- model ?c = _ =>
      destruct (init_default_model [] [] (VStr "secret") (Plain VNone)
                  (Plain (VStr "https://gateway.example/api/")) (Plain VNone) c)
        as (_ & _ & _ & _ & _ & _ & _ & _ & _ & _ & _ & _ & H & _)
  end.
  apply H; [by intros ?|reflexivity].
Defined.

(** ** The exchange *)

Section exchange.

Context `{Runtime} `{Backend}.

Lemma sfassist_answered_outcome self model (messages : list msg_dict) stream response :
  sfassist_answered self messages response →
  outcome (SFAssistClient.ChatCompletion.create self model messages stream)
  = SFAssistClient.ChatCompletion.handle_response response stream.
Proof.
  intros (payload & Hp & Hpost).
  rewrite (sfassist_create_unfold _ _ _ _ _ Hp). simpl. by rewrite Hpost.
Qed.

Lemma snowflake_answered_outcome self model (messages : list msg_dict) stream response :
  snowflake_answered self messages response →
  outcome (SnowflakeCortexClient.ChatCompletion.create self model messages stream)
  = SnowflakeCortexClient.ChatCompletion.handle_response response stream.
Proof.
  intros (payload & Hp & Hplain & Hpost).
  rewrite (snowflake_create_unfold _ _ _ _ _ Hp Hplain). simpl. by rewrite Hpost.
Qed.

End exchange.

(** X6: a transport failure is not retried and not wrapped.  When
    [requests.post] raises, [create] raises that same exception, having
    posted the one request. *)
Theorem create_propagates_transport_error `{Runtime} `{Backend} self model
    (messages : list msg_dict) stream e :
  (∀ payload,
     SFAssistClient._build_payload self messages None = inr payload →
     post (request_for self payload) = inl e →
     SFAssistClient.ChatCompletion.create self model messages stream
     = mkCall [request_for self payload] (inl e))
  ∧ (∀ payload,
       SnowflakeCortexClient._build_payload self messages None = inr payload →
       plain_client self →
       post (request_for self payload) = inl e →
       SnowflakeCortexClient.ChatCompletion.create self model messages stream
       = mkCall [request_for self payload] (inl e)).
Proof.
  split.
  - intros payload Hp Hpost. rewrite (sfassist_create_unfold _ _ _ _ _ Hp).
    by rewrite Hpost.
  - intros payload Hp Hplain Hpost.
    rewrite (snowflake_create_unfold _ _ _ _ _ Hp Hplain). by rewrite Hpost.
Qed.

Lemma create_propagates_transport_error_witness :
  ∃ rq,
    @SFAssistClient.ChatCompletion.create example_runtime
      {| post := λ _, inl (RequestException "timed out") |}
      example_client (Plain (VStr "gpt")) [user_says "hello"] true
    = mkCall [rq] (inl (RequestException "timed out"))
    ∧ url rq = "https://gateway.example/api"
    ∧ timeout rq = 120%Z.
Proof.
  destruct (@create_propagates_transport_error example_runtime
              {| post := λ _, inl (RequestException "timed out") |}
              example_client (Plain (VStr "gpt")) [user_says "hello"] true
              (RequestException "timed out")) as [Hsf _].
  eexists. split; [apply Hsf; [vm_compute; reflexivity|reflexivity]|]. done.
Defined.

(** X7: [create] posts at most one request whatever happens, and none at
    all when the payload cannot be built (a message without role or
    content) or, in the Snowflake client, when the debug line cannot
    serialise the payload: it then raises before touching the network. *)
Theorem create_posts_at_most_once `{Runtime} `{Backend} self model
    (messages : list msg_dict) stream :
  (length (sent (SFAssistClient.ChatCompletion.create self model messages stream)) ≤ 1)%nat
  ∧ (length (sent (SnowflakeCortexClient.ChatCompletion.create self model messages stream))
     ≤ 1)%nat
  ∧ (∀ e, SFAssistClient._build_payload self messages None = inl e →
          SFAssistClient.ChatCompletion.create self model messages stream
          = mkCall [] (inl e))
  ∧ (∀ e, SnowflakeCortexClient._build_payload self messages None = inl e →
          SnowflakeCortexClient.ChatCompletion.create self model messages stream
          = mkCall [] (inl e))
  ∧ (∀ payload,
       SnowflakeCortexClient._build_payload self messages None = inr payload →
       ¬ plain_client self →
       SnowflakeCortexClient.ChatCompletion.create self model messages stream
       = mkCall [] (inl TypeError)).
Proof.
  unfold SFAssistClient.ChatCompletion.create, SnowflakeCortexClient.ChatCompletion.create,
    SnowflakeCortexClient._make_request, plain_client.
  split_and!.
  - case_match; simpl; lia.
  - repeat case_match; simpl; lia.
  - by intros e ->.
  - by intros e ->.
  - intros payload -> Hn. by case_match.
Qed.

Lemma create_posts_at_most_once_witness :
  @SFAssistClient.ChatCompletion.create example_runtime (answering plain_text_reply)
    example_client (Plain (VStr "gpt")) [user_says "hello"; {[ "content" := "orphan" ]}] false
  = mkCall [] (inl (KeyError "role")).
Proof.
  destruct (@create_posts_at_most_once example_runtime (answering plain_text_reply)
              example_client (Plain (VStr "gpt"))
              [user_says "hello"; {[ "content" := "orphan" ]}] false)
    as (_ & _ & Hsf & _).
  apply Hsf. by vm_compute.
Defined.

(** ** Reading the body *)

Section reading.

Context `{Runtime}.

Lemma extract_text_field d v :
  assoc "text" d = Some v →
  SFAssistClient.ChatCompletion.extract_content (VDict d) = inr v
  ∧ SnowflakeCortexClient.ChatCompletion.extract_content (VDict d) = inr v.
Proof.
  intros Ht.
  unfold SFAssistClient.ChatCompletion.extract_content,
    SnowflakeCortexClient.ChatCompletion.extract_content.
  simpl. unfold has_key. by rewrite Ht.
Qed.

Lemma extract_response_field d v :
  assoc "text" d = None → assoc "response" d = Some v →
  SFAssistClient.ChatCompletion.extract_content (VDict d) = inr v
  ∧ SnowflakeCortexClient.ChatCompletion.extract_content (VDict d) = inr v.
Proof.
  intros Ht Hr.
  unfold SFAssistClient.ChatCompletion.extract_content,
    SnowflakeCortexClient.ChatCompletion.extract_content.
  simpl. unfold has_key. by rewrite Ht, Hr.
Qed.

Lemma extract_scalar data :
  scalar data →
  SFAssistClient.ChatCompletion.extract_content data = inl TypeError
  ∧ SnowflakeCortexClient.ChatCompletion.extract_content data = inl TypeError.
Proof. by destruct data. Qed.

Lemma read_usage_not_dict d u :
  assoc "usage" d = Some u → not_dict u → read_usage (VDict d) = inl AttributeError.
Proof.
  intros Hu Hn. unfold read_usage. simpl. rewrite Hu.
  destruct u; try done. by destruct (Hn d0).
Qed.

Lemma iterate_stream_not_str f v : not_str v → iterate_stream f v = inl AttributeError.
Proof. intros Hn. destruct v; try done. by destruct (Hn s). Qed.

End reading.

(** X8: a body with a text key yields that value, and without one a body
    with a response key yields that one, whatever else the body holds: no
    other field is looked at, so ill-typed choices or message fields do not
    matter.  The key only has to be present: its value wins even when it is
    empty or null.  Both clients, streamed or not. *)
Theorem create_text_then_response `{Runtime} `{Backend} self model
    (messages : list msg_dict) response d v :
  status_code response = 200%Z →
  resp_json response = inr (VDict d) →
  assoc "text" d = Some v ∨ (assoc "text" d = None ∧ assoc "response" d = Some v) →
  (sfassist_answered self messages response →
   outcome (SFAssistClient.ChatCompletion.create self model messages true)
   = inr (Stream (iterate_stream SFAssistClient.ChatCompletion._simulate_streaming v))
   ∧ (usage_shaped d →
      outcome (SFAssistClient.ChatCompletion.create self model messages false)
      = inr (Completion (new_CompletionResponse v (usage_of d)))))
  ∧ (snowflake_answered self messages response →
     outcome (SnowflakeCortexClient.ChatCompletion.create self model messages true)
     = inr (Stream (iterate_stream SnowflakeCortexClient.ChatCompletion._simulate_streaming v))
     ∧ (usage_shaped d →
        outcome (SnowflakeCortexClient.ChatCompletion.create self model messages false)
        = inr (Completion (new_CompletionResponse v (usage_of d))))).
Proof.
  intros Hs Hj Hv.
  assert (SFAssistClient.ChatCompletion.extract_content (VDict d) = inr v
          ∧ SnowflakeCortexClient.ChatCompletion.extract_content (VDict d) = inr v)
    as [E1 E2].
  { destruct Hv as [Ht|[Ht Hr]];
      [by apply extract_text_field|by apply extract_response_field]. }
  split; intros Ha.
  - rewrite !(sfassist_answered_outcome _ _ _ _ _ Ha).
    unfold SFAssistClient.ChatCompletion.handle_response. rewrite Hs, Hj. simpl.
    rewrite E1. simpl. split; [done|]. intros Hu. by rewrite (read_usage_shaped d Hu).
  - rewrite !(snowflake_answered_outcome _ _ _ _ _ Ha).
    unfold SnowflakeCortexClient.ChatCompletion.handle_response. rewrite Hs, Hj. simpl.
    rewrite E2. simpl. split; [done|]. intros Hu. by rewrite (read_usage_shaped d Hu).
Qed.

Lemma create_text_then_response_witness :
  outcome (@SnowflakeCortexClient.ChatCompletion.create example_runtime
             (answering (json_response [("text", VNone); ("choices", VInt 7)]))
             example_client (Plain (VStr "gpt")) [user_says "hello"] false)
  = inr (Completion (new_CompletionResponse VNone default_UsageStats)).
Proof.
  destruct (@create_text_then_response example_runtime
              (answering (json_response [("text", VNone); ("choices", VInt 7)]))
              example_client (Plain (VStr "gpt")) [user_says "hello"]
              (json_response [("text", VNone); ("choices", VInt 7)])
              [("text", VNone); ("choices", VInt 7)] VNone eq_refl eq_refl
              (or_introl eq_refl)) as [_ Hsn].
  destruct Hsn as [_ Hplain].
  - eexists. split; [vm_compute; reflexivity|]. by split.
  - by apply Hplain.
Defined.

(** X9: a 200 body that parses to [None], a bool or a number makes
    [create] raise [TypeError], streamed or not: the membership test on it
    is outside the handled exceptions.  Both clients. *)
Theorem create_scalar_body_raises `{Runtime} `{Backend} self model
    (messages : list msg_dict) stream response data :
  status_code response = 200%Z →
  resp_json response = inr data →
  scalar data →
  (sfassist_answered self messages response →
   outcome (SFAssistClient.ChatCompletion.create self model messages stream)
   = inl TypeError)
  ∧ (snowflake_answered self messages response →
     outcome (SnowflakeCortexClient.ChatCompletion.create self model messages stream)
     = inl TypeError).
Proof.
  intros Hs Hj Hd. destruct (extract_scalar data Hd) as [E1 E2].
  split; intros Ha.
  - rewrite (sfassist_answered_outcome _ _ _ _ _ Ha).
    by rewrite !(sfassist_handle_parsed _ _ _ Hs Hj), E1.
  - rewrite (snowflake_answered_outcome _ _ _ _ _ Ha).
    by rewrite !(snowflake_handle_parsed _ _ _ Hs Hj), E2.
Qed.

Lemma create_scalar_body_raises_witness :
  outcome (@SFAssistClient.ChatCompletion.create example_runtime
             (answering (mkResponse 200 "null" (inr VNone)))
             example_client (Plain (VStr "gpt")) [user_says "hello"] true)
  = inl TypeError.
Proof.
  destruct (@create_scalar_body_raises example_runtime
              (answering (mkResponse 200 "null" (inr VNone)))
              example_client (Plain (VStr "gpt")) [user_says "hello"] true
              (mkResponse 200 "null" (inr VNone)) VNone eq_refl eq_refl I) as [Hsf _].
  apply Hsf. eexists. split; [vm_compute; reflexivity|done].
Defined.

(** X10: the usage object is read by the plain call only.  With a usage
    field that is not an object, the plain call raises [AttributeError]
    after the content was extracted, while the streaming call returns its
    stream as if the field were absent.  Both clients. *)
Theorem create_ill_typed_usage `{Runtime} `{Backend} self model
    (messages : list msg_dict) response d v u :
  status_code response = 200%Z →
  resp_json response = inr (VDict d) →
  assoc "text" d = Some v →
  assoc "usage" d = Some u →
  not_dict u →
  (sfassist_answered self messages response →
   outcome (SFAssistClient.ChatCompletion.create self model messages false)
   = inl AttributeError
   ∧ outcome (SFAssistClient.ChatCompletion.create self model messages true)
     = inr (Stream (iterate_stream SFAssistClient.ChatCompletion._simulate_streaming v)))
  ∧ (snowflake_answered self messages response →
     outcome (SnowflakeCortexClient.ChatCompletion.create self model messages false)
     = inl AttributeError
     ∧ outcome (SnowflakeCortexClient.ChatCompletion.create self model messages true)
       = inr (Stream (iterate_stream
                        SnowflakeCortexClient.ChatCompletion._simulate_streaming v))).
Proof.
  intros Hs Hj Ht Hu Hn. destruct (extract_text_field d v Ht) as [E1 E2].
  pose proof (read_usage_not_dict d u Hu Hn) as Eu.
  split; intros Ha.
  - rewrite !(sfassist_answered_outcome _ _ _ _ _ Ha).
    rewrite !(sfassist_handle_parsed _ _ _ Hs Hj). simpl. rewrite E1. simpl. by rewrite Eu.
  - rewrite !(snowflake_answered_outcome _ _ _ _ _ Ha).
    rewrite !(snowflake_handle_parsed _ _ _ Hs Hj). simpl. rewrite E2. simpl. by rewrite Eu.
Qed.

Lemma create_ill_typed_usage_witness :
  outcome (@SFAssistClient.ChatCompletion.create example_runtime
             (answering (json_response [("text", VStr "a b"); ("usage", VInt 12)]))
             example_client (Plain (VStr "gpt")) [user_says "hello"] false)
  = inl AttributeError
  ∧ outcome (@SFAssistClient.ChatCompletion.create example_runtime
               (answering (json_response [("text", VStr "a b"); ("usage", VInt 12)]))
               example_client (Plain (VStr "gpt")) [user_says "hello"] true)
    = inr (Stream (inr [new_StreamingChunk "a"; new_StreamingChunk " b"])).
Proof.
  destruct (@create_ill_typed_usage example_runtime
              (answering (json_response [("text", VStr "a b"); ("usage", VInt 12)]))
              example_client (Plain (VStr "gpt")) [user_says "hello"]
              (json_response [("text", VStr "a b"); ("usage", VInt 12)])
              [("text", VStr "a b"); ("usage", VInt 12)] (VStr "a b") (VInt 12)
              eq_refl eq_refl eq_refl eq_refl) as [Hsf _]; [by intros ?|].
  apply Hsf. eexists. split; [vm_compute; reflexivity|done].
Defined.

(** X11: a content that is not a string is neither converted nor refused
    by [create]: the plain call returns it unchanged as the text of the
    completion, and the streaming call returns a generator that raises
    [AttributeError] when it is iterated.  Both clients. *)
Theorem create_non_string_content `{Runtime} `{Backend} self model
    (messages : list msg_dict) response d v :
  status_code response = 200%Z →
  resp_json response = inr (VDict d) →
  assoc "text" d = Some v →
  not_str v →
  (sfassist_answered self messages response →
   outcome (SFAssistClient.ChatCompletion.create self model messages true)
   = inr (Stream (inl AttributeError))
   ∧ (usage_shaped d →
      ∃ r, outcome (SFAssistClient.ChatCompletion.create self model messages false)
           = inr (Completion r)
         ∧ completion_text r = Some v))
  ∧ (snowflake_answered self messages response →
     outcome (SnowflakeCortexClient.ChatCompletion.create self model messages true)
     = inr (Stream (inl AttributeError))
     ∧ (usage_shaped d →
        ∃ r, outcome (SnowflakeCortexClient.ChatCompletion.create self model messages false)
             = inr (Completion r)
           ∧ completion_text r = Some v)).
Proof.
  intros Hs Hj Ht Hn. destruct (extract_text_field d v Ht) as [E1 E2].
  split; intros Ha.
  - rewrite !(sfassist_answered_outcome _ _ _ _ _ Ha).
    rewrite !(sfassist_handle_parsed _ _ _ Hs Hj). simpl.
    rewrite E1. simpl. rewrite (iterate_stream_not_str _ v Hn).
    split; [done|]. intros Hu. rewrite (read_usage_shaped d Hu). by eexists.
  - rewrite !(snowflake_answered_outcome _ _ _ _ _ Ha).
    rewrite !(snowflake_handle_parsed _ _ _ Hs Hj). simpl.
    rewrite E2. simpl. rewrite (iterate_stream_not_str _ v Hn).
    split; [done|]. intros Hu. rewrite (read_usage_shaped d Hu). by eexists.
Qed.

Lemma create_non_string_content_witness :
  outcome (@SFAssistClient.ChatCompletion.create example_runtime
             (answering (json_response [("text", VInt 42)]))
             example_client (Plain (VStr "gpt")) [user_says "hello"] true)
  = inr (Stream (inl AttributeError)).
Proof.
  destruct (@create_non_string_content example_runtime
              (answering (json_response [("text", VInt 42)]))
              example_client (Plain (VStr "gpt")) [user_says "hello"]
              (json_response [("text", VInt 42)]) [("text", VInt 42)] (VInt 42)
              eq_refl eq_refl eq_refl) as [Hsf _]; [by intros ?|].
  apply Hsf. eexists. split; [vm_compute; reflexivity|done].
Defined.

Section reading_arrays.

Context `{Runtime}.

Lemma py_contains_list k l : py_contains k (VList l) = inr (str_elem k l).
Proof. done. Qed.

Lemma extract_list_text l :
  str_elem "text" l = true →
  SFAssistClient.ChatCompletion.extract_content (VList l) = inl TypeError
  ∧ SnowflakeCortexClient.ChatCompletion.extract_content (VList l) = inl TypeError.
Proof.
  intros Ht.
  unfold SFAssistClient.ChatCompletion.extract_content,
    SnowflakeCortexClient.ChatCompletion.extract_content.
  by rewrite !py_contains_list, Ht.
Qed.

Lemma sfassist_extract_list_none l :
  str_elem "text" l = false → str_elem "response" l = false →
  str_elem "choices" l = false → str_elem "message" l = false →
  SFAssistClient.ChatCompletion.extract_content (VList l)
  = inr (VStr (py_str (Plain (VList l)))).
Proof.
  intros Ht Hr Hc Hm.
  unfold SFAssistClient.ChatCompletion.extract_content, has_choices.
  by rewrite !py_contains_list, Ht, Hr, Hc, Hm.
Qed.

Lemma snowflake_extract_list_none l :
  str_elem "text" l = false → str_elem "response" l = false →
  str_elem "choices" l = false →
  SnowflakeCortexClient.ChatCompletion.extract_content (VList l)
  = inr (VStr (py_str (Plain (VList l)))).
Proof.
  intros Ht Hr Hc.
  unfold SnowflakeCortexClient.ChatCompletion.extract_content, has_choices.
  by rewrite !py_contains_list, Ht, Hr, Hc.
Qed.

End reading_arrays.

(** X12: a 200 body that parses to a JSON array is searched for the field
    names as elements.  An array holding the string "text" makes [create]
    raise [TypeError] (the array is then indexed by that string).  An array
    holding none of the field names is stringified: the streaming call
    streams that text, and the plain call raises [AttributeError] when it
    looks for the usage object.  Both clients. *)
Theorem create_array_body `{Runtime} `{Backend} self model
    (messages : list msg_dict) response l :
  status_code response = 200%Z →
  resp_json response = inr (VList l) →
  (sfassist_answered self messages response →
   (str_elem "text" l = true →
    ∀ stream, outcome (SFAssistClient.ChatCompletion.create self model messages stream)
              = inl TypeError)
   ∧ (str_elem "text" l = false → str_elem "response" l = false →
      str_elem "choices" l = false → str_elem "message" l = false →
      outcome (SFAssistClient.ChatCompletion.create self model messages true)
      = inr (Stream (inr (SFAssistClient.ChatCompletion._simulate_streaming
                            (py_str (Plain (VList l))))))
      ∧ outcome (SFAssistClient.ChatCompletion.create self model messages false)
        = inl AttributeError))
  ∧ (snowflake_answered self messages response →
     (str_elem "text" l = true →
      ∀ stream, outcome (SnowflakeCortexClient.ChatCompletion.create self model messages stream)
                = inl TypeError)
     ∧ (str_elem "text" l = false → str_elem "response" l = false →
        str_elem "choices" l = false →
        outcome (SnowflakeCortexClient.ChatCompletion.create self model messages true)
        = inr (Stream (inr (SnowflakeCortexClient.ChatCompletion._simulate_streaming
                              (py_str (Plain (VList l))))))
        ∧ outcome (SnowflakeCortexClient.ChatCompletion.create self model messages false)
          = inl AttributeError)).
Proof.
  intros Hs Hj. split; intros Ha.
  - split.
    + intros Ht stream. rewrite (sfassist_answered_outcome _ _ _ _ _ Ha).
      by rewrite !(sfassist_handle_parsed _ _ _ Hs Hj), (proj1 (extract_list_text l Ht)).
    + intros Ht Hr Hc Hm. rewrite !(sfassist_answered_outcome _ _ _ _ _ Ha).
      by rewrite !(sfassist_handle_parsed _ _ _ Hs Hj), (sfassist_extract_list_none l Ht Hr Hc Hm).
  - split.
    + intros Ht stream. rewrite (snowflake_answered_outcome _ _ _ _ _ Ha).
      by rewrite !(snowflake_handle_parsed _ _ _ Hs Hj), (proj2 (extract_list_text l Ht)).
    + intros Ht Hr Hc. rewrite !(snowflake_answered_outcome _ _ _ _ _ Ha).
      by rewrite !(snowflake_handle_parsed _ _ _ Hs Hj), (snowflake_extract_list_none l Ht Hr Hc).
Qed.

Lemma create_array_body_witness :
  outcome (@SFAssistClient.ChatCompletion.create example_runtime
             (answering (mkResponse 200 "[1, 2]" (inr (VList [VInt 1; VInt 2]))))
             example_client (Plain (VStr "gpt")) [user_says "hello"] true)
  = inr (Stream (inr [new_StreamingChunk "[1,"; new_StreamingChunk " 2]"]))
  ∧ outcome (@SFAssistClient.ChatCompletion.create example_runtime
               (answering (mkResponse 200 "[1, 2]" (inr (VList [VInt 1; VInt 2]))))
               example_client (Plain (VStr "gpt")) [user_says "hello"] false)
    = inl AttributeError.
Proof.
  destruct (@create_array_body example_runtime
              (answering (mkResponse 200 "[1, 2]" (inr (VList [VInt 1; VInt 2]))))
              example_client (Plain (VStr "gpt")) [user_says "hello"]
              (mkResponse 200 "[1, 2]" (inr (VList [VInt 1; VInt 2])))
              [VInt 1; VInt 2] eq_refl eq_refl) as [Hsf _].
  destruct Hsf as [_ Hnone].
  - eexists. split; [vm_compute; reflexivity|done].
  - by apply Hnone.
Defined.

(** ** More on streaming *)

Section streaming_more.

Lemma str_app_assoc (a b c : string) : (a +:+ b) +:+ c = a +:+ (b +:+ c).
Proof.
  induction a as [|x a IH]; [done|].
  change (String x ((a +:+ b) +:+ c) = String x (a +:+ (b +:+ c))). by rewrite IH.
Qed.

Lemma str_split_app sep (a b : string) :
  str_split sep (a +:+ String sep b) = str_split sep a ++ str_split sep b.
Proof.
  induction a as [|x a IH].
  - change (str_split sep (String sep b) = [EmptyString] ++ str_split sep b).
    simpl. by rewrite Ascii.eqb_refl.
  - change (str_split sep (String x (a +:+ String sep b))
            = str_split sep (String x a) ++ str_split sep b).
    simpl. rewrite IH. destruct (Ascii.eqb x sep); [done|].
    destruct (str_split sep a) as [|w ws] eqn:E; [by apply str_split_nonempty in E|done].
Qed.

Lemma concat_fragments_app (l1 l2 : list StreamingChunk) :
  concat_fragments (l1 ++ l2) = concat_fragments l1 +:+ concat_fragments l2.
Proof.
  induction l1 as [|c l1 IH]; [done|].
  change (text_fragment c +:+ concat_fragments (l1 ++ l2)
          = (text_fragment c +:+ concat_fragments l1) +:+ concat_fragments l2).
  by rewrite IH, str_app_assoc.
Qed.

End streaming_more.

(** X13: streaming composes over a space.  The fragments yielded for
    [a + ' ' + b] are the fragments yielded for [a], followed by the words
    of [b], each behind one space.  Both clients. *)
Theorem simulate_streaming_app (a b : string) :
  text_fragment <$> SFAssistClient.ChatCompletion._simulate_streaming (a +:+ String space b)
  = (text_fragment <$> SFAssistClient.ChatCompletion._simulate_streaming a)
    ++ (String space <$> str_split space b)
  ∧ text_fragment
      <$> SnowflakeCortexClient.ChatCompletion._simulate_streaming (a +:+ String space b)
    = (text_fragment <$> SnowflakeCortexClient.ChatCompletion._simulate_streaming a)
      ++ (String space <$> str_split space b).
Proof.
  destruct (simulate_streaming_fragments (a +:+ String space b)) as [-> ->].
  destruct (simulate_streaming_fragments a) as [-> ->].
  rewrite str_split_app.
  destruct (str_split space a) as [|w ws] eqn:E; [by apply str_split_nonempty in E|].
  change ((w :: ws) ++ str_split space b) with (w :: (ws ++ str_split space b)).
  by rewrite !fragments_text_cons, fmap_app.
Qed.

(** X14: a consumer that has read any number of chunks holds a prefix of
    the text: the fragments of the first [k] chunks, concatenated, are the
    beginning of the content, and the fragments of the remaining chunks are
    the rest.  Both clients. *)
Theorem simulate_streaming_prefix (T : string) (k : nat) :
  T = concat_fragments (take k (SFAssistClient.ChatCompletion._simulate_streaming T))
      +:+ concat_fragments (drop k (SFAssistClient.ChatCompletion._simulate_streaming T))
  ∧ T = concat_fragments (take k (SnowflakeCortexClient.ChatCompletion._simulate_streaming T))
        +:+ concat_fragments
              (drop k (SnowflakeCortexClient.ChatCompletion._simulate_streaming T)).
Proof.
  destruct (simulate_streaming_fragments T) as [-> ->].
  rewrite <- concat_fragments_app, take_drop.
  rewrite concat_fragments_join by apply str_split_nonempty.
  by rewrite str_join_split.
Qed.

(** ** More on the payload builders *)

Section build_payload_more.

Implicit Types (m : msg_dict) (messages acc : list msg_dict).

Lemma scan_messages_app l1 l2 sys_msg acc :
  scan_messages (l1 ++ l2) sys_msg acc
  = let* st := scan_messages l1 sys_msg acc in scan_messages l2 st.1 st.2.
Proof.
  revert sys_msg acc. induction l1 as [|m l1 IH]; intros sys_msg acc; [done|].
  change ((m :: l1) ++ l2) with (m :: (l1 ++ l2)).
  rewrite !scan_messages_step.
  destruct (scan_step m sys_msg acc) as [e|st]; [done|]. simpl. apply IH.
Qed.

(** The loop raises nothing but [KeyError] for one of the two keys it
    reads, and only on a message that lacks one. *)
Lemma scan_messages_raises messages sys_msg acc e :
  scan_messages messages sys_msg acc = inl e →
  (e = KeyError "role" ∨ e = KeyError "content")
  ∧ ∃ m, m ∈ messages ∧ ¬ has_role_content m.
Proof.
  revert sys_msg acc. induction messages as [|m messages IH]; intros sys_msg acc; [done|].
  simpl. unfold getitem.
  assert (∀ s a, scan_messages messages s a = inl e →
                 (e = KeyError "role" ∨ e = KeyError "content")
                 ∧ ∃ m', m' ∈ m :: messages ∧ ¬ has_role_content m') as IH'.
  { intros s a E. destruct (IH s a E) as (He & m' & Hin & Hm').
    split; [done|]. exists m'. split; [by right|done]. }
  assert (m ∈ m :: messages) as Hin by left.
  destruct (decide (m !! "role" = Some "system")).
  - destruct (is_set sys_msg); [by apply IH'|].
    destruct (m !! "content") as [c|] eqn:Hc; simpl; [by apply IH'|].
    intros [= <-]. split; [by right|]. exists m. split; [done|].
    intros [_ [c Hc']]. congruence.
  - destruct (m !! "role") as [r|] eqn:Hr; simpl.
    + destruct (m !! "content") as [c|] eqn:Hc; simpl; [by apply IH'|].
      intros [= <-]. split; [by right|]. exists m. split; [done|].
      intros [_ [c Hc']]. congruence.
    + intros [= <-]. split; [by left|]. exists m. split; [done|].
      intros [[r Hr'] _]. congruence.
Qed.

(** Everything the loop appends is a dict of a role and a content. *)
Lemma scan_messages_plain messages sys_msg acc st :
  Forall plain_message acc →
  scan_messages messages sys_msg acc = inr st →
  Forall plain_message st.2.
Proof.
  revert sys_msg acc. induction messages as [|m messages IH]; intros sys_msg acc Hacc; simpl.
  - by intros [= <-].
  - destruct (decide (m !! "role" = Some "system")).
    + destruct (is_set sys_msg); [by apply IH|].
      destruct (getitem m "content"); [done|]. simpl. by apply IH.
    + destruct (getitem m "role") as [|r]; [done|].
      destruct (getitem m "content") as [|c]; [done|]. simpl. apply IH.
      apply Forall_app. split; [done|]. repeat constructor. by exists r, c.
Qed.

(** With a system message that is set, a system-role message is skipped
    without being read. *)
Lemma scan_messages_set_skips messages sys_msg acc :
  is_set sys_msg = true →
  Forall (λ m, system_role m ∨ has_role_content m) messages →
  scan_messages messages sys_msg acc = inr (sys_msg, acc ++ (copy_of <$> non_system messages)).
Proof.
  intros Hset Hwf. revert acc.
  induction Hwf as [|m messages Hm _ IH]; intros acc; simpl.
  - by rewrite app_nil_r.
  - unfold non_system. rewrite filter_cons. unfold system_role at 1.
    destruct (decide (m !! "role" = Some "system")) as [Hs|Hs].
    + rewrite decide_False by tauto. rewrite Hset. apply IH.
    + rewrite decide_True by done.
      destruct Hm as [Hm|[[r Hr] [c Hc]]]; [done|].
      unfold getitem. rewrite Hr, Hc. simpl. rewrite IH, <- app_assoc. simpl.
      unfold copy_of. by rewrite Hr, Hc.
Qed.

Lemma plain_message_keys m k :
  plain_message m → k ≠ "role" → k ≠ "content" → m !! k = None.
Proof.
  intros (r & c & ->) H1 H2. unfold new_message.
  rewrite lookup_insert_ne by done. by rewrite lookup_singleton_ne.
Qed.

End build_payload_more.

(** X15: the one way a payload builder fails.  When [_build_payload]
    raises, the exception is [KeyError] for the key role or the key
    content, and some message of the sequence lacks a role or a content.
    Both clients. *)
Theorem build_payload_raises_only_key_error self (messages : list msg_dict)
    system_message e :
  SFAssistClient._build_payload self messages system_message = inl e
  ∨ SnowflakeCortexClient._build_payload self messages system_message = inl e →
  (e = KeyError "role" ∨ e = KeyError "content")
  ∧ ∃ m, m ∈ messages ∧ ¬ has_role_content m.
Proof.
  unfold SFAssistClient._build_payload, SnowflakeCortexClient._build_payload.
  intros [E|E];
    destruct (scan_messages messages system_message []) as [e'|st] eqn:Escan;
    try done; simpl in E; injection E as ->;
    by apply (scan_messages_raises _ _ _ _ Escan).
Qed.

Lemma build_payload_raises_only_key_error_witness :
  SFAssistClient._build_payload example_client
    [user_says "hello"; {[ "role" := "assistant" ]}] None
  = inl (KeyError "content")
  ∧ ∃ m, m ∈ [user_says "hello"; ({[ "role" := "assistant" ]} : msg_dict)]
         ∧ ¬ has_role_content m.
Proof.
  split; [reflexivity|].
  apply (build_payload_raises_only_key_error example_client
           [user_says "hello"; {[ "role" := "assistant" ]}] None (KeyError "content")).
  by left.
Defined.

(** X16: with a non-empty explicit system argument the system-role
    messages of the history are skipped without being read, so one without
    a content does not make the builder fail: it returns whenever every
    other message has a role and a content, with the explicit argument as
    system content and the copies of the non-system messages as history
    (the last 10 of them in the Snowflake client). *)
Theorem build_payload_explicit_skips_system self (messages : list msg_dict) explicit :
  explicit ≠ EmptyString →
  Forall (λ m, system_role m ∨ has_role_content m) messages →
  ∃ p_sf p_sn,
    SFAssistClient._build_payload self messages (Some explicit) = inr p_sf
    ∧ SnowflakeCortexClient._build_payload self messages (Some explicit) = inr p_sn
    ∧ wire_messages p_sf
      = new_message "system" explicit :: (copy_of <$> non_system messages)
    ∧ wire_messages p_sn
      = new_message "system" explicit
        :: windowed (Some 10%nat) (copy_of <$> non_system messages).
Proof.
  intros He Hwf.
  pose proof (scan_messages_set_skips messages (Some explicit) [] (is_set_Some _ He) Hwf)
    as Hscan.
  unfold SFAssistClient._build_payload, SnowflakeCortexClient._build_payload.
  rewrite Hscan. cbn [bind fst snd]. rewrite !(or_default_set _ He).
  eexists _, _. by split_and!.
Qed.

Lemma build_payload_explicit_skips_system_witness :
  ∃ p, SFAssistClient._build_payload example_client
         [{[ "role" := "system" ]}; user_says "hello"] (Some "Be brief.") = inr p
       ∧ wire_messages p = [new_message "system" "Be brief."; user_says "hello"]
       ∧ SFAssistClient._build_payload example_client
           [{[ "role" := "system" ]}; user_says "hello"] None
         = inl (KeyError "content").
Proof.
  destruct (build_payload_explicit_skips_system example_client
              [{[ "role" := "system" ]}; user_says "hello"] "Be brief.")
    as (p & _ & E & _ & Hm & _).
  - done.
  - constructor; [by left|]. constructor; [right; split; by eexists|]. constructor.
  - exists p. by split_and!.
Defined.

(** X17: without a usable explicit argument, the system content is the
    content of the first system-role message whose content is not empty:
    system-role messages with an empty content before it are passed over,
    and later system-role messages never replace it.  Both clients. *)
Theorem build_payload_first_system_content self (before after : list msg_dict)
    (m : msg_dict) system_message c :
  is_set system_message = false →
  Forall has_role_content (before ++ m :: after) →
  ¬ supplies_content before →
  system_role m →
  m !! "content" = Some c →
  c ≠ EmptyString →
  ∃ p_sf p_sn,
    SFAssistClient._build_payload self (before ++ m :: after) system_message = inr p_sf
    ∧ SnowflakeCortexClient._build_payload self (before ++ m :: after) system_message
      = inr p_sn
    ∧ q_sys_msg (query p_sf) = c
    ∧ q_sys_msg (query p_sn) = c
    ∧ wire_messages p_sf !! 0%nat = Some (new_message "system" c)
    ∧ wire_messages p_sn !! 0%nat = Some (new_message "system" c).
Proof.
  intros Hunset Hwf Hno Hsys Hc Hne.
  destruct (scan_messages_filtered _ system_message [] Hwf) as [s Hscan].
  assert (s = Some c) as ->.
  { rewrite scan_messages_app in Hscan.
    destruct (scan_messages before system_message []) as [|st] eqn:E1; [done|].
    pose proof (scan_messages_unset _ _ _ _ Hunset Hno E1) as Hst.
    simpl in Hscan. unfold system_role in Hsys.
    rewrite decide_True in Hscan by done. rewrite Hst in Hscan.
    unfold getitem in Hscan. rewrite Hc in Hscan. simpl in Hscan.
    by apply (scan_messages_keeps _ _ _ _ (is_set_Some c Hne)) in Hscan. }
  unfold SFAssistClient._build_payload, SnowflakeCortexClient._build_payload.
  rewrite Hscan. cbn [bind fst snd]. rewrite !(or_default_set _ Hne).
  eexists _, _. by split_and!.
Qed.

Lemma build_payload_first_system_content_witness :
  ∃ p, SnowflakeCortexClient._build_payload example_client
         ([new_message "system" EmptyString; user_says "hello"]
          ++ new_message "system" "Be brief." :: [new_message "system" "Be long."])
         (Some EmptyString) = inr p
       ∧ q_sys_msg (query p) = "Be brief.".
Proof.
  destruct (build_payload_first_system_content example_client
              [new_message "system" EmptyString; user_says "hello"]
              [new_message "system" "Be long."]
              (new_message "system" "Be brief.") (Some EmptyString) "Be brief.")
    as (_ & p & _ & E & _ & Hs & _); try done.
  - repeat constructor; by eexists.
  - intros (m & c & Hin & Hsys & Hc & Hne).
    apply list_elem_of_In in Hin. simpl in Hin.
    destruct Hin as [<-|[<-|[]]]; [|done].
    rewrite lookup_new_message_content in Hc. congruence.
  - by exists p.
Defined.

(** X18: whatever keys the caller's messages carry, every entry of the
    message array a builder returns is a dict of exactly a role and a
    content: no other key is ever forwarded.  Both clients. *)
Theorem build_payload_forwards_role_and_content self (messages : list msg_dict)
    system_message p :
  SFAssistClient._build_payload self messages system_message = inr p
  ∨ SnowflakeCortexClient._build_payload self messages system_message = inr p →
  Forall (λ m, (∃ role content, m = new_message role content)
               ∧ ∀ k, k ≠ "role" → k ≠ "content" → m !! k = None)
    (wire_messages p).
Proof.
  unfold SFAssistClient._build_payload, SnowflakeCortexClient._build_payload.
  intros E.
  assert (Forall plain_message (wire_messages p)) as Hplain.
  { destruct (scan_messages messages system_message []) as [e'|st] eqn:Escan;
      [by destruct E|].
    pose proof (scan_messages_plain _ _ _ _ (Forall_nil_2 _) Escan) as Hst.
    destruct E as [E|E]; simpl in E; injection E as <-;
      unfold wire_messages; simpl; (constructor; [by eexists _, _|]); [done|].
    case_match; [by apply Forall_drop|done]. }
  eapply Forall_impl; [exact Hplain|]. intros m Hm. split; [exact Hm|].
  intros k. by apply plain_message_keys.
Qed.

Lemma build_payload_forwards_role_and_content_witness :
  ∃ p, SFAssistClient._build_payload example_client
         [{[ "role" := "user"; "content" := "hello"; "name" := "ada" ]}] None = inr p
       ∧ wire_messages p
         = [new_message "system" DEFAULT_SYSTEM_MESSAGE; new_message "user" "hello"]
       ∧ Forall (λ m : msg_dict, m !! "name" = None) (wire_messages p).
Proof.
  eexists. split; [reflexivity|]. split; [by vm_compute|].
  eapply Forall_impl.
  - apply (build_payload_forwards_role_and_content example_client
             [{[ "role" := "user"; "content" := "hello"; "name" := "ada" ]}] None).
    left. reflexivity.
  - intros m [_ Hk]. by apply Hk.
Defined.

(** ** The shape of a reply *)

Section reply_shape.

Context `{Runtime}.

Lemma sfassist_handle_reply response stream reply :
  SFAssistClient.ChatCompletion.handle_response response stream = inr reply →
  if stream then ∃ chunks, reply = Stream chunks
  else ∃ content counters, reply = Completion (new_CompletionResponse content counters).
Proof.
  destruct (Z.eq_dec (status_code response) 200) as [Hs|Hs];
    [|by rewrite (sfassist_handle_error _ _ Hs)].
  destruct (resp_json response) as [e|data] eqn:Hj;
    [rewrite (sfassist_handle_unparsed _ _ _ Hs Hj)|rewrite (sfassist_handle_parsed _ _ _ Hs Hj)];
    cycle 1.
  - destruct (SFAssistClient.ChatCompletion.extract_content data) as [|content]; [done|].
    simpl. destruct stream; simpl.
    + intros [= <-]. by eexists.
    + destruct (read_usage data) as [|u]; [done|]. simpl. intros [= <-]. by eexists _, _.
  - destruct (is_ValueError e); [|done].
    destruct stream; simpl; intros [= <-]; by repeat eexists.
Qed.

Lemma snowflake_handle_reply response stream reply :
  SnowflakeCortexClient.ChatCompletion.handle_response response stream = inr reply →
  if stream then ∃ chunks, reply = Stream chunks
  else ∃ content counters, reply = Completion (new_CompletionResponse content counters).
Proof.
  destruct (Z.eq_dec (status_code response) 200) as [Hs|Hs];
    [|by rewrite (snowflake_handle_error _ _ Hs)].
  destruct (resp_json response) as [e|data] eqn:Hj;
    [rewrite (snowflake_handle_unparsed _ _ _ Hs Hj)|rewrite (snowflake_handle_parsed _ _ _ Hs Hj)];
    cycle 1.
  - destruct (SnowflakeCortexClient.ChatCompletion.extract_content data) as [|content];
      [done|].
    simpl. destruct stream; simpl.
    + intros [= <-]. by eexists.
    + destruct (read_usage data) as [|u]; [done|]. simpl. intros [= <-]. by eexists _, _.
  - destruct (is_ValueError e); [|done].
    destruct stream; simpl; intros [= <-]; by repeat eexists.
Qed.

End reply_shape.

(** X19: the kind of reply follows the [stream] flag on every path of
    [create]: asked to stream it never returns a completion, and asked not
    to it never returns a stream.  Every completion it returns has exactly
    one choice, with role assistant and finish reason stop, whose delta
    content is its message content.  Both clients. *)
Theorem create_reply_shape `{Runtime} `{Backend} self model (messages : list msg_dict)
    stream reply :
  outcome (SFAssistClient.ChatCompletion.create self model messages stream) = inr reply
  ∨ outcome (SnowflakeCortexClient.ChatCompletion.create self model messages stream)
    = inr reply →
  if stream then ∃ chunks, reply = Stream chunks
  else ∃ r content,
         reply = Completion r
         ∧ choices r = [mkChoice [("role", VStr "assistant"); ("content", content)]
                          "stop" content]
         ∧ completion_text r = Some content.
Proof.
  assert ((∃ response,
             SFAssistClient.ChatCompletion.handle_response response stream = inr reply
             ∨ SnowflakeCortexClient.ChatCompletion.handle_response response stream
               = inr reply) →
          if stream then ∃ chunks, reply = Stream chunks
          else ∃ r content,
                 reply = Completion r
                 ∧ choices r = [mkChoice [("role", VStr "assistant"); ("content", content)]
                                  "stop" content]
                 ∧ completion_text r = Some content) as Hshape.
  { intros (response & [E|E]);
      [apply sfassist_handle_reply in E|apply snowflake_handle_reply in E];
      destruct stream; try done;
      destruct E as (content & counters & ->); by eexists _, content. }
  unfold SFAssistClient.ChatCompletion.create, SnowflakeCortexClient.ChatCompletion.create,
    SnowflakeCortexClient._make_request, SFAssistClient._make_request.
  intros [E|E]; revert E; repeat case_match; simpl; try done;
    destruct (post _) as [|response]; try done; simpl; intros E; apply Hshape; eauto.
Qed.

Lemma create_reply_shape_witness :
  ∃ r, outcome (@SnowflakeCortexClient.ChatCompletion.create example_runtime
                  (answering (json_response [("response", VStr "hello")]))
                  example_client (Plain (VStr "gpt")) [user_says "hi"] false)
       = inr (Completion r)
     ∧ choices r = [mkChoice [("role", VStr "assistant"); ("content", VStr "hello")]
                      "stop" (VStr "hello")].
Proof.
  destruct (@create_reply_shape example_runtime
              (answering (json_response [("response", VStr "hello")]))
              example_client (Plain (VStr "gpt")) [user_says "hi"] false
              (Completion (new_CompletionResponse (VStr "hello") default_UsageStats)))
    as (r & content & E & Hc & _).
  - right. by vm_compute.
  - exists r. injection E as <-. split; [by vm_compute|done].
Defined.

(** X20: the two payload builders agree up to three things.  On the same
    client, messages and system argument they raise the same exception or
    both return; the payloads then carry the same system message and the
    same static fields, and differ only in the history (the Snowflake
    payload keeps the last 10 entries of the SF Assist history), in the
    shape of the model entry and in the type of [limit_convs] (a string in
    SF Assist, an integer in Snowflake). *)
Theorem build_payload_variants_agree self (messages : list msg_dict) system_message :
  match SFAssistClient._build_payload self messages system_message,
        SnowflakeCortexClient._build_payload self messages system_message with
  | inl e1, inl e2 => e1 = e2
  | inr p1, inr p2 =>
      q_sys_msg (query p1) = q_sys_msg (query p2)
      ∧ wire_messages p1 !! 0%nat = wire_messages p2 !! 0%nat
      ∧ wire_history p2 = windowed (Some 10%nat) (wire_history p1)
      ∧ q_aplctn_cd (query p1) = q_aplctn_cd (query p2)
      ∧ q_app_id (query p1) = q_app_id (query p2)
      ∧ q_api_key (query p1) = q_api_key (query p2)
      ∧ q_method (query p1) = q_method (query p2)
      ∧ q_app_lvl_prefix (query p1) = q_app_lvl_prefix (query p2)
      ∧ q_user_id (query p1) = q_user_id (query p2)
      ∧ q_session_id (query p1) = q_session_id (query p2)
      ∧ q_model (query p1) = ModelFlat (model self)
      ∧ q_model (query p2) = ModelNested (model self) "anthropic"
      ∧ q_limit_convs (query p1) = VStr "0"
      ∧ q_limit_convs (query p2) = VInt 0
  | _, _ => False
  end.
Proof.
  unfold SFAssistClient._build_payload, SnowflakeCortexClient._build_payload.
  by destruct (scan_messages messages system_message []).
Qed.

(** * [DSA.py] *)

(** ** The chat session and the payload *)

Section chat.

Implicit Types (self : DSA) (turns : list (string * option string)).

Lemma chat_session_state self history turns :
  programmer_messages (chat_session self history turns).1
  = programmer_messages self ++ (new_message "user" <$> typed_messages turns)
  ∧ length (chat_session self history turns).2 = (length history + length turns)%nat
  ∧ dsa_config (chat_session self history turns).1 = dsa_config self
  ∧ dsa_session_cache_path (chat_session self history turns).1 = dsa_session_cache_path self
  ∧ conv_file_list (chat_session self history turns).1 = conv_file_list self.
Proof.
  revert self history. induction turns as [|[message code] turns IH]; intros self history.
  - simpl. rewrite app_nil_r. split_and!; try done; lia.
  - cbn [chat_session]. unfold chat_streaming, typed_messages.
    rewrite filter_cons. cbn [fst snd].
    destruct (is_set code) eqn:Hc.
    + rewrite decide_False by done. cbn [fst snd].
      destruct (IH self (history ++ [VList [VStr (default EmptyString code); VNone]]))
        as (-> & -> & -> & -> & ->).
      rewrite length_app. simpl. split_and!; try done; lia.
    + rewrite decide_True by done. cbn [fst snd].
      match goal with |- context [chat_session ?s ?h turns] =>
        destruct (IH s h) as (-> & -> & -> & -> & ->) end.
      cbn [programmer_messages dsa_config dsa_session_cache_path conv_file_list].
      rewrite length_app, <- app_assoc. simpl. split_and!; try done; lia.
Qed.

Lemma scan_messages_users (users : list string) sys_msg acc :
  scan_messages (new_message "user" <$> users) sys_msg acc
  = inr (sys_msg, acc ++ (new_message "user" <$> users)).
Proof.
  revert acc. induction users as [|u users IH]; intros acc; simpl.
  - by rewrite app_nil_r.
  - rewrite decide_False by done. unfold getitem.
    rewrite lookup_new_message_role, lookup_new_message_content. simpl.
    by rewrite IH, <- app_assoc.
Qed.

End chat.

(** X21: chatting never changes the system message the backend is sent.
    After any session of [chat_streaming] calls on a well-formed message
    list, the payload built from the programmer's messages carries the same
    system content as before the session; its history is the earlier one
    followed by one user message per typed message, in order, and nothing
    for a submission made with code in the editor (the Snowflake payload
    keeps the last 10 of these).  The displayed history grows by one entry
    per call. *)
Theorem chat_session_payload client (self : DSA) (history : list pyval)
    (turns : list (string * option string)) system_message :
  Forall has_role_content (programmer_messages self) →
  ∃ p0 p p_sn,
    SFAssistClient._build_payload client (programmer_messages self) system_message = inr p0
    ∧ SFAssistClient._build_payload client
        (programmer_messages (chat_session self history turns).1) system_message = inr p
    ∧ SnowflakeCortexClient._build_payload client
        (programmer_messages (chat_session self history turns).1) system_message = inr p_sn
    ∧ q_sys_msg (query p) = q_sys_msg (query p0)
    ∧ q_sys_msg (query p_sn) = q_sys_msg (query p0)
    ∧ wire_history p = wire_history p0 ++ (new_message "user" <$> typed_messages turns)
    ∧ wire_history p_sn = windowed (Some 10%nat) (wire_history p)
    ∧ length (chat_session self history turns).2 = (length history + length turns)%nat.
Proof.
  intros Hwf.
  destruct (chat_session_state self history turns) as (-> & Hlen & _).
  destruct (scan_messages_filtered _ system_message [] Hwf) as [s Hscan].
  unfold SFAssistClient._build_payload, SnowflakeCortexClient._build_payload.
  rewrite scan_messages_app, Hscan. cbn [bind fst snd].
  rewrite scan_messages_users. cbn [bind fst snd].
  eexists _, _, _. by split_and!.
Qed.

Lemma chat_session_payload_witness :
  ∃ p, SFAssistClient._build_payload example_client
         (programmer_messages
            (chat_session example_dsa []
               [("plot it", None); ("ignored", Some "print(1)"); ("thanks", Some EmptyString)]).1)
         None = inr p
       ∧ wire_messages p
         = [new_message "system" "You are a data scientist."; user_says "plot it";
            user_says "thanks"].
Proof.
  destruct (chat_session_payload example_client example_dsa []
              [("plot it", None); ("ignored", Some "print(1)"); ("thanks", Some EmptyString)]
              None) as (p0 & p & _ & E0 & E & _ & _ & _ & Hh & _).
  - repeat constructor; by eexists.
  - exists p. split; [exact E|]. injection E as <-. reflexivity.
Defined.

(** ** Loading a saved dialogue *)

Section dialogue.

Lemma assoc_dict_set_eq k v d : assoc k (dict_set k v d) = Some v.
Proof.
  induction d as [|[k' v'] d IH]; simpl.
  - by rewrite String.eqb_refl.
  - destruct (String.eqb k k') eqn:E; simpl; by rewrite ?String.eqb_refl, ?E.
Qed.

Lemma assoc_dict_set_ne k k' v d : k' ≠ k → assoc k' (dict_set k v d) = assoc k' d.
Proof.
  intros Hne. induction d as [|[k1 v1] d IH]; simpl.
  - by rewrite (proj2 (String.eqb_neq k' k) Hne).
  - destruct (String.eqb_spec k k1) as [->|Hk]; simpl.
    + by rewrite (proj2 (String.eqb_neq k' k1) Hne).
    + by rewrite IH.
Qed.

End dialogue.

(** X22: a successful [load_dialogue].  When both files are read and the
    saved configuration is an object with a session cache path and a figure
    list, [load_dialogue] returns the saved chat history, makes the saved
    path the session cache path, and stores the path, the history and the
    figure list in the configuration under their three keys; every other
    key of the configuration, and the conversation, are left as they
    were. *)
Theorem load_dialogue_restores `{OsPath} `{Files} (self : DSA) dialogue_path
    chat_history saved path figure_list :
  read_json (path_join dialogue_path "system_dialogue.json") = inr chat_history →
  read_json (path_join dialogue_path "config.json") = inr (VDict saved) →
  assoc "session_cache_path" saved = Some path →
  assoc "figure_list" saved = Some figure_list →
  ∃ self',
    load_dialogue self dialogue_path = (self', chat_history)
    ∧ dsa_session_cache_path self' = path
    ∧ assoc "session_cache_path" (dsa_config self') = Some path
    ∧ assoc "chat_history_display" (dsa_config self') = Some chat_history
    ∧ assoc "figure_list" (dsa_config self') = Some figure_list
    ∧ (∀ k, k ≠ "session_cache_path" → k ≠ "chat_history_display" → k ≠ "figure_list" →
            assoc k (dsa_config self') = assoc k (dsa_config self))
    ∧ programmer_messages self' = programmer_messages self
    ∧ conv_file_list self' = conv_file_list self.
Proof.
  intros Hd Hc Hp Hf. unfold load_dialogue. rewrite Hd, Hc. simpl. rewrite Hp, Hf. simpl.
  eexists. split; [done|]. simpl. split_and!; try done.
  - rewrite !assoc_dict_set_ne by done. apply assoc_dict_set_eq.
  - rewrite assoc_dict_set_ne by done. apply assoc_dict_set_eq.
  - apply assoc_dict_set_eq.
  - intros k H1 H2 H3. by rewrite !assoc_dict_set_ne by done.
Qed.

Lemma load_dialogue_restores_witness :
  ∃ self',
    @load_dialogue (example_os [])
      (example_files
         [("saved/system_dialogue.json", VList [VList [VStr "hi"; VStr "hello"]]);
          ("saved/config.json",
           VDict [("session_cache_path", VStr "/cache/old"); ("figure_list", VList [])])])
      example_dsa "saved"
    = (self', VList [VList [VStr "hi"; VStr "hello"]])
    ∧ dsa_session_cache_path self' = VStr "/cache/old"
    ∧ assoc "load_chat" (dsa_config self') = Some (VBool false).
Proof.
  destruct (@load_dialogue_restores (example_os [])
              (example_files
                 [("saved/system_dialogue.json", VList [VList [VStr "hi"; VStr "hello"]]);
                  ("saved/config.json",
                   VDict [("session_cache_path", VStr "/cache/old");
                          ("figure_list", VList [])])])
              example_dsa "saved" (VList [VList [VStr "hi"; VStr "hello"]])
              [("session_cache_path", VStr "/cache/old"); ("figure_list", VList [])]
              (VStr "/cache/old") (VList []) eq_refl eq_refl eq_refl eq_refl)
    as (self' & E & Hp & _ & _ & _ & Hk & _).
  exists self'. split_and!; try done. by rewrite Hk.
Defined.

(** X23: a failed [load_dialogue] returns the empty list, and what it
    leaves behind depends on where it failed.  If a file cannot be read or
    the saved configuration has no session cache path, the instance is
    unchanged.  If only the figure list is missing, the failure comes after
    the first three assignments: the empty list is returned although the
    session cache path and two configuration entries have already been
    overwritten. *)
Theorem load_dialogue_failure `{OsPath} `{Files} (self : DSA) dialogue_path :
  ((∃ e, read_json (path_join dialogue_path "system_dialogue.json") = inl e)
   ∨ (∃ e, read_json (path_join dialogue_path "config.json") = inl e)
   ∨ (∃ saved e, read_json (path_join dialogue_path "config.json") = inr saved
                 ∧ py_getitem saved "session_cache_path" = inl e) →
   load_dialogue self dialogue_path = (self, VList []))
  ∧ (∀ chat_history saved path e,
       read_json (path_join dialogue_path "system_dialogue.json") = inr chat_history →
       read_json (path_join dialogue_path "config.json") = inr saved →
       py_getitem saved "session_cache_path" = inr path →
       py_getitem saved "figure_list" = inl e →
       ∃ self',
         load_dialogue self dialogue_path = (self', VList [])
         ∧ dsa_session_cache_path self' = path
         ∧ assoc "session_cache_path" (dsa_config self') = Some path
         ∧ assoc "chat_history_display" (dsa_config self') = Some chat_history
         ∧ assoc "figure_list" (dsa_config self') = assoc "figure_list" (dsa_config self)).
Proof.
  unfold load_dialogue. split.
  - intros [[e ->]|[[e E]|(saved & e & E1 & E2)]]; [done| |].
    + by destruct (read_json (path_join dialogue_path "system_dialogue.json")); rewrite ?E.
    + destruct (read_json (path_join dialogue_path "system_dialogue.json")); [done|].
      by rewrite E1, E2.
  - intros chat_history saved path e -> -> -> ->.
    eexists. split; [done|]. simpl. split_and!; try done.
    + rewrite assoc_dict_set_ne by done. apply assoc_dict_set_eq.
    + apply assoc_dict_set_eq.
    + by rewrite !assoc_dict_set_ne by done.
Qed.

Lemma load_dialogue_failure_witness :
  ∃ self',
    @load_dialogue (example_os [])
      (example_files
         [("saved/system_dialogue.json", VList [VList [VStr "hi"; VStr "hello"]]);
          ("saved/config.json", VDict [("session_cache_path", VStr "/cache/old")])])
      example_dsa "saved"
    = (self', VList [])
    ∧ dsa_session_cache_path self' = VStr "/cache/old"
    ∧ dsa_session_cache_path example_dsa = VStr "/cache/2024-01-01-42".
Proof.
  destruct (@load_dialogue_failure (example_os [])
              (example_files
                 [("saved/system_dialogue.json", VList [VList [VStr "hi"; VStr "hello"]]);
                  ("saved/config.json", VDict [("session_cache_path", VStr "/cache/old")])])
              example_dsa "saved") as [_ Hpartial].
  destruct (Hpartial (VList [VList [VStr "hi"; VStr "hello"]])
              (VDict [("session_cache_path", VStr "/cache/old")])
              (VStr "/cache/old") (KeyError "figure_list") eq_refl eq_refl eq_refl eq_refl)
    as (self' & E & Hp & _).
  exists self'. by split_and!.
Defined.

(** ** Files offered for download *)

(** X24: which CSV file is offered.  With a session cache path that is a
    string, and absolute paths that are never empty,
    [get_csv_download_path] returns the absolute path of the first place
    that exists among: sample_data.csv, test_dataset.csv and insurance.csv
    in this order, each looked for in the session cache before its parent
    directory; and [None] when none exists.  A session cache path that is
    not a string makes it raise [TypeError]. *)
Theorem get_csv_download_path_first_existing `{OsPath} (self : DSA) :
  (∀ session,
     dsa_session_cache_path self = VStr session →
     (∀ p, abspath p ≠ EmptyString) →
     get_csv_download_path self
     = inr (abspath <$> find path_exists (csv_candidates session)))
  ∧ (not_str (dsa_session_cache_path self) →
     get_csv_download_path self = inl TypeError).
Proof.
  unfold get_csv_download_path, get_csv_file_path, py_path_join, py_dirname, csv_candidates.
  split.
  - intros session -> Habs.
    assert (∀ p, is_set (Some (abspath p)) = true) as Hset.
    { intros p. simpl. by destruct (String.eqb_spec (abspath p) EmptyString);
        [destruct (Habs p)|]. }
    cbn [bind ret find fmap option_fmap option_map].
    destruct (path_exists (path_join session "sample_data.csv"));
      cbn [bind ret]; rewrite ?Hset; [done|].
    destruct (path_exists (path_join (dirname session) "sample_data.csv"));
      cbn [bind ret]; rewrite ?Hset; [done|]. cbn [is_set].
    destruct (path_exists (path_join session "test_dataset.csv"));
      cbn [bind ret]; rewrite ?Hset; [done|].
    destruct (path_exists (path_join (dirname session) "test_dataset.csv"));
      cbn [bind ret]; rewrite ?Hset; [done|]. cbn [is_set].
    destruct (path_exists (path_join session "insurance.csv"));
      cbn [bind ret]; rewrite ?Hset; [done|].
    destruct (path_exists (path_join (dirname session) "insurance.csv"));
      cbn [bind ret]; rewrite ?Hset; done.
  - intros Hn. destruct (dsa_session_cache_path self); try done. by destruct (Hn s).
Qed.

Lemma get_csv_download_path_first_existing_witness :
  @get_csv_download_path
    (example_os ["/cache/insurance.csv"; "/cache/2024-01-01-42/test_dataset.csv"])
    example_dsa
  = inr (Some "/cache/2024-01-01-42/test_dataset.csv").
Proof.
  destruct (@get_csv_download_path_first_existing
              (example_os ["/cache/insurance.csv"; "/cache/2024-01-01-42/test_dataset.csv"])
              example_dsa) as [Hfirst _].
  rewrite (Hfirst "/cache/2024-01-01-42" eq_refl); [by vm_compute|].
  intros p. simpl. by destruct p as [|[[] [] [] [] [] [] [] []] p].
Defined.

(** X25: [download_file] hands out only a file that exists, and then it is
    the one [get_csv_download_path] found; the CSV button is one button
    labelled Download CSV, visible exactly when [get_csv_download_path]
    found a file, which is then its value. *)
Theorem download_file_existing `{OsPath} (self : DSA) :
  (∀ p, download_file self = inr (Some p) →
        path_exists p = true ∧ get_csv_download_path self = inr (Some p))
  ∧ (∀ buttons, show_csv_download_button self = inr buttons →
       ∃ b, buttons = [b]
            ∧ download_label b = Some "Download CSV"
            ∧ (download_visible b = true ↔
               ∃ p, p ≠ EmptyString ∧ get_csv_download_path self = inr (Some p)
                    ∧ download_value b = Some p)).
Proof.
  unfold download_file, get_download_path, show_csv_download_button.
  destruct (get_csv_download_path self) as [e|[p|]]; simpl.
  - by split.
  - unfold is_set. destruct (String.eqb p EmptyString) eqn:Hne; simpl; rewrite ?Hne; simpl.
    + apply String.eqb_eq in Hne as ->.
      split; [done|]. intros buttons [= <-]. eexists. split_and!; try done.
      split; [done|]. by intros (p & Hp & [= <-] & _).
    + split.
      * intros q. destruct (path_exists p) eqn:Hp; [|done]. by intros [= <-].
      * intros buttons [= <-]. eexists. split_and!; try done.
        split; [|done]. intros _. exists p. split_and!; try done.
        intros ->. by rewrite String.eqb_refl in Hne.
  - split; [done|]. intros buttons [= <-]. eexists. split_and!; try done.
    split; [done|]. by intros (p & _ & [=] & _).
Qed.

Lemma download_file_existing_witness :
  @download_file (example_os ["/cache/2024-01-01-42/sample_data.csv"]) example_dsa
  = inr (Some "/cache/2024-01-01-42/sample_data.csv")
  ∧ @path_exists (example_os ["/cache/2024-01-01-42/sample_data.csv"])
      "/cache/2024-01-01-42/sample_data.csv" = true.
Proof.
  split; [by vm_compute|].
  destruct (@download_file_existing (example_os ["/cache/2024-01-01-42/sample_data.csv"])
              example_dsa) as [Hfile _].
  apply (Hfile "/cache/2024-01-01-42/sample_data.csv"). by vm_compute.
Defined.

(** ** Report and notebook buttons *)

(** X26: of the generate button and the download button exactly one is
    visible after [generate_report], [export_code], [down_report] and
    [down_notebook].  [generate_report] never raises: the download button
    is shown exactly when the report was produced and its file exists, with
    the absolute path as value.  [export_code] shows its download button on
    the same condition but lets the exception of the export through. *)
Theorem report_buttons `{OsPath} `{Conversation} (chat_history : list pyval) :
  button_visible (generate_report chat_history).1
  = negb (download_visible (generate_report chat_history).2)
  ∧ (download_visible (generate_report chat_history).2 = true ↔
     ∃ p, document_generation chat_history = inr p ∧ path_exists (abspath p) = true)
  ∧ (∀ p, document_generation chat_history = inr p → path_exists (abspath p) = true →
          generate_report chat_history
          = (mkButton false,
             mkDownloadButton (Some "Download Report") (Some (abspath p)) true))
  ∧ (∀ e, conv_export_code = inl e → export_code = inl e)
  ∧ (∀ p, conv_export_code = inr p →
          ∃ b d, export_code = inr (b, d)
                 ∧ button_visible b = negb (download_visible d)
                 ∧ download_visible d = path_exists (abspath p)
                 ∧ (path_exists (abspath p) = true →
                    d = mkDownloadButton (Some "Download Notebook") (Some (abspath p)) true))
  ∧ button_visible down_report.1 = negb (download_visible down_report.2)
  ∧ button_visible down_notebook.1 = negb (download_visible down_notebook.2)
  ∧ download_visible down_report.2 = false
  ∧ download_visible down_notebook.2 = false.
Proof.
  unfold generate_report, export_code.
  split_and!; try done.
  - destruct (document_generation chat_history) as [|p]; [done|].
    by destruct (path_exists (abspath p)).
  - destruct (document_generation chat_history) as [|p]; simpl.
    + split; [done|]. by intros (p & [=] & _).
    + destruct (path_exists (abspath p)) eqn:Hp; simpl.
      * split; [|done]. intros _. by exists p.
      * split; [done|]. intros (q & [= <-] & Hq). congruence.
  - by intros p -> ->.
  - by intros e ->.
  - intros p ->. simpl. destruct (path_exists (abspath p)); by eexists _, _.
Qed.

Lemma report_buttons_witness :
  @generate_report (example_os ["/work/report.docx"])
    (example_conversation (inr "report.docx") (inr "3 rows")) []
  = (mkButton false,
     mkDownloadButton (Some "Download Report") (Some "/work/report.docx") true)
  ∧ @generate_report (example_os [])
      (example_conversation (inl (Exception "no template")) (inr "3 rows")) []
    = (mkButton true, mkDownloadButton None None false).
Proof.
  destruct (@report_buttons (example_os ["/work/report.docx"])
              (example_conversation (inr "report.docx") (inr "3 rows")) [])
    as (_ & _ & Hshown & _).
  split; [by apply (Hshown "report.docx")|done].
Defined.

(** ** Uploading a file *)

Lemma str_take_len (n : nat) (s : string) :
  str_len (str_take n s) = Nat.min n (str_len s).
Proof.
  revert n. induction s as [|a s IH]; intros n; simpl.
  - by destruct n.
  - destruct (is_continuation a) eqn:Ea; simpl; rewrite ?Ea; simpl.
    + apply IH.
    + destruct n as [|n]; simpl; rewrite ?Ea; [done|]. by rewrite IH.
Qed.

Lemma str_take_prefix (n : nat) (s : string) :
  ∃ dropped, s = str_take n s +:+ dropped.
Proof.
  revert n. induction s as [|a s IH]; intros n; simpl.
  - by exists EmptyString.
  - destruct (is_continuation a).
    + destruct (IH n) as [d Hd]. exists d.
      change (String a s = String a (str_take n s +:+ d)). by rewrite <- Hd.
    + destruct n as [|n].
      * by exists (String a s).
      * destruct (IH n) as [d Hd]. exists d.
        change (String a s = String a (str_take n s +:+ d)). by rewrite <- Hd.
Qed.

Lemma add_file_success `{OsPath} `{Conversation} (self : DSA) (file_path session : string)
    (first : msg_dict) (rest : list msg_dict) (content : string) :
  shutil_copy file_path (VStr session) = inr tt →
  add_data file_path = inr tt →
  dsa_session_cache_path self = VStr session →
  programmer_messages self = first :: rest →
  first !! "content" = Some content →
  add_file self file_path
  = (mkDSA (dsa_config self) (VStr session)
       (<["content" := content +:+
            match get_description with
            | inr gen_info_str =>
                described_context (path_join session (basename file_path))
                  (truncate_info gen_info_str)
            | inl _ => fallback_context (path_join session (basename file_path))
            end]> first :: rest)
       (conv_file_list self ++ [basename file_path]),
     inr tt).
Proof.
  intros Hcopy Hdata Hsession Hmessages Hcontent.
  unfold add_file. rewrite Hsession, Hcopy, Hdata.
  cbn [py_path_join ret programmer_messages dsa_config dsa_session_cache_path conv_file_list].
  by rewrite Hmessages, Hcontent.
Qed.

(** X27: when the copy and [add_data] succeed, [add_file] returns whether
    or not the description could be computed: the file's base name is
    appended to the file list, the first programmer message keeps its
    content and gets a text appended that names the file's path in the
    session directory, and every other message and field is unchanged.
    If the description raises, the text is the fallback one. *)
Theorem add_file_extends_prompt `{OsPath} `{Conversation} (self : DSA)
    (file_path session : string) (first : msg_dict) (rest : list msg_dict)
    (content : string) :
  shutil_copy file_path (VStr session) = inr tt →
  add_data file_path = inr tt →
  dsa_session_cache_path self = VStr session →
  programmer_messages self = first :: rest →
  first !! "content" = Some content →
  ∃ dataset_context,
    add_file self file_path
    = (mkDSA (dsa_config self) (VStr session)
         (<["content" := content +:+ dataset_context]> first :: rest)
         (conv_file_list self ++ [basename file_path]),
       inr tt)
    ∧ (∀ e, get_description = inl e →
            dataset_context
            = fallback_context (path_join session (basename file_path)))
    ∧ (∀ gen_info_str, get_description = inr gen_info_str →
            ∃ shown,
              dataset_context
              = described_context (path_join session (basename file_path)) shown
              ∧ ((str_len gen_info_str ≤ 3000)%nat → shown = gen_info_str)).
Proof.
  intros Hcopy Hdata Hsession Hmessages Hcontent.
  eexists. split; [by apply add_file_success|]. split.
  - by intros e ->.
  - intros d ->. eexists. split; [done|]. intros Hlen.
    unfold truncate_info, max_length.
    by destruct (Nat.ltb_spec 3000 (str_len d)); [lia|].
Qed.

Lemma add_file_extends_prompt_witness :
  @add_file (example_os [])
    (example_conversation (inr "report.docx") (inl (Exception "no data"))) example_dsa
    "/tmp/upload/data.csv"
  = (mkDSA [("load_chat", VBool false)] (VStr "/cache/2024-01-01-42")
       [new_message "system"
          ("You are a data scientist."
           +:+ fallback_context "/cache/2024-01-01-42/data.csv")]
       ["data.csv"],
     inr tt).
Proof.
  destruct (@add_file_extends_prompt (example_os [])
              (example_conversation (inr "report.docx") (inl (Exception "no data")))
              example_dsa "/tmp/upload/data.csv" "/cache/2024-01-01-42"
              (new_message "system" "You are a data scientist.") []
              "You are a data scientist." eq_refl eq_refl eq_refl eq_refl eq_refl)
    as (context & -> & Hfallback & _).
  by rewrite (Hfallback (Exception "no data") eq_refl).
Defined.

(** X28: a description longer than 3000 characters reaches the prompt cut:
    the text [add_file] appends holds the first 3000 characters of the
    description, followed by a note that gives the original length. *)
Theorem add_file_truncates_description `{OsPath} `{Conversation} (self : DSA)
    (file_path session : string) (first : msg_dict) (rest : list msg_dict)
    (content gen_info_str : string) :
  shutil_copy file_path (VStr session) = inr tt →
  add_data file_path = inr tt →
  dsa_session_cache_path self = VStr session →
  programmer_messages self = first :: rest →
  first !! "content" = Some content →
  get_description = inr gen_info_str →
  (3000 < str_len gen_info_str)%nat →
  ∃ kept dropped,
    gen_info_str = kept +:+ dropped
    ∧ str_len kept = 3000%nat
    ∧ programmer_messages (add_file self file_path).1
      = <["content" := content +:+
            described_context (path_join session (basename file_path))
              (kept +:+ truncation_note (str_len gen_info_str))]> first :: rest.
Proof.
  intros Hcopy Hdata Hsession Hmessages Hcontent Hdescription Hlen.
  destruct (str_take_prefix max_length gen_info_str) as [dropped Hdropped].
  exists (str_take max_length gen_info_str), dropped. split_and!.
  - done.
  - rewrite str_take_len. unfold max_length. lia.
  - rewrite (add_file_success self file_path session first rest content) by done.
    rewrite Hdescription. cbn [fst programmer_messages]. unfold truncate_info.
    by destruct (Nat.ltb_spec max_length (str_len gen_info_str));
      [|unfold max_length in *; lia].
Qed.

Lemma add_file_truncates_description_witness :
  ∃ kept dropped,
    repeat_char "a" 3001 = kept +:+ dropped
    ∧ str_len kept = 3000%nat
    ∧ programmer_messages
        (@add_file (example_os [])
           (example_conversation (inr "report.docx") (inr (repeat_char "a" 3001)))
           example_dsa "/tmp/upload/data.csv").1
      = <["content" := "You are a data scientist." +:+
            described_context
              (@path_join (example_os []) "/cache/2024-01-01-42"
                 (@basename (example_os []) "/tmp/upload/data.csv"))
              (kept +:+ truncation_note (str_len (repeat_char "a" 3001)))]>
          (new_message "system" "You are a data scientist.") :: [].
Proof.
  apply (@add_file_truncates_description (example_os [])
           (example_conversation (inr "report.docx") (inr (repeat_char "a" 3001)))
           example_dsa "/tmp/upload/data.csv" "/cache/2024-01-01-42"
           (new_message "system" "You are a data scientist.") []
           "You are a data scientist." (repeat_char "a" 3001));
    try reflexivity.
  vm_compute. lia.
Defined.

(** X29: [add_file] that fails.  If the copy or [add_data] raises, the
    exception goes to the caller and nothing is recorded.  If they succeed
    but there is no programmer message, or the first one has no content,
    [IndexError] or [KeyError] is raised after the file name was appended
    to the file list, which keeps it. *)
Theorem add_file_failure `{OsPath} `{Conversation} (self : DSA) (file_path : string) :
  (∀ e, shutil_copy file_path (dsa_session_cache_path self) = inl e →
        add_file self file_path = (self, inl e))
  ∧ (∀ e, shutil_copy file_path (dsa_session_cache_path self) = inr tt →
          add_data file_path = inl e →
          add_file self file_path = (self, inl e))
  ∧ (∀ session,
       shutil_copy file_path (dsa_session_cache_path self) = inr tt →
       add_data file_path = inr tt →
       dsa_session_cache_path self = VStr session →
       (programmer_messages self = [] ∨
        ∃ first rest, programmer_messages self = first :: rest
                      ∧ first !! "content" = None) →
       ∃ e, (e = IndexError ∨ e = KeyError "content")
            ∧ add_file self file_path
              = (mkDSA (dsa_config self) (dsa_session_cache_path self)
                   (programmer_messages self)
                   (conv_file_list self ++ [basename file_path]),
                 inl e)).
Proof.
  unfold add_file. split_and!.
  - by intros e ->.
  - by intros e -> ->.
  - intros session -> -> Hsession Hmessages. rewrite Hsession.
    cbn [py_path_join ret programmer_messages dsa_config dsa_session_cache_path
         conv_file_list].
    destruct Hmessages as [->|(first & rest & -> & ->)].
    + exists IndexError. split; [by left|done].
    + exists (KeyError "content"). split; [by right|done].
Qed.

Lemma add_file_failure_witness :
  @add_file (example_os [])
    (example_conversation (inr "report.docx") (inr "3 rows"))
    (mkDSA [] (VStr "/cache/2024-01-01-42") [] ["old.csv"]) "/tmp/upload/data.csv"
  = (mkDSA [] (VStr "/cache/2024-01-01-42") [] ["old.csv"; "data.csv"],
     inl IndexError).
Proof.
  destruct (@add_file_failure (example_os [])
              (example_conversation (inr "report.docx") (inr "3 rows"))
              (mkDSA [] (VStr "/cache/2024-01-01-42") [] ["old.csv"])
              "/tmp/upload/data.csv") as (_ & _ & Hlate).
  destruct (Hlate "/cache/2024-01-01-42" eq_refl eq_refl eq_refl (or_introl eq_refl))
    as (e & [->| ->] & Hrun); [exact Hrun|].
  by vm_compute in Hrun.
Defined.
